(** * Test-point overlap engine and net cross-reference joins

    A shallow embedding of the geometric matching scripts
    ([released_crit/criteria_35/criteria_35_4.py],
    [released_crit/criteria_37/criteria_37_4.py],
    [legacy_files/criteria_35_4.py]) and of the net-name joins
    ([final_scripts/criteria_29/crit_29_3.py],
    [final_scripts/criteria_32/criteria_32_3.py]).

    Numbers are IEEE 754 binary64 values, as the [float64] columns of the
    source tables are: Rocq's primitive floats, with their NaN, their
    infinities and their signed zeros.  Sums, products, quotients and
    square roots are rounded as IEEE 754 fixes; Python's float power,
    which it does not fix, is a parameter.  Strings are byte strings compared
    lexicographically, which on UTF-8 text is the code-point order Python
    uses. *)

From Stdlib Require Import Floats ZArith Bool List String Ascii Lia.
From Stdlib Require Import Permutation Sorted.
From Stdlib Require OrderedTypeEx.
Import ListNotations.

Set Implicit Arguments.

(** ** Python outcomes *)

Module Py.

(** The exceptions the embedded code can meet. *)
Inductive exn : Type :=
| ValueError   (* tuple unpacking with the wrong number of values;
                  the truth value of an array of several elements *)
| TypeError    (* arithmetic on a value of the wrong kind *)
| IndexError   (* list index out of range *)
| IOError      (* a data source could not deliver its table *)
| OverflowError.   (* a float power out of range *)

(** A call either returns a value or raises. *)
Inductive result (A : Type) : Type :=
| Ret (a : A)
| Raise (e : exn).

Arguments Ret {A} & a.
Arguments Raise {A} e.

Definition bind {A B : Type} (m : result A) (k : A -> result B) : result B :=
  match m with
  | Ret a => k a
  | Raise e => Raise e
  end.

Arguments bind {A B} m & k.

(** Builtin [min] and [max] on two arguments: the first argument is kept
    unless the second compares strictly below (above) it. *)
Definition min (a b : float) : float := if (b <? a)%float then b else a.
Definition max (a b : float) : float := if (a <? b)%float then b else a.

(** [float('inf')] *)
Definition inf : float := infinity.

(** The square [x ** 2] of a float.  The interpreter hands the operands to
    the [pow] of the platform's C library, whose rounding IEEE 754 leaves
    open (it need not be that of the product [x * x]), and raises
    [OverflowError] when the result is out of range.  The operator is
    therefore a parameter of the code that uses it: [float_pow2 x] is the
    outcome of [x ** 2]. *)
Definition power : Type := float -> result float.

End Py.

Notation "x <- m ;; k" := (Py.bind m (fun x => k))
  (at level 61, m at next level, right associativity).

(** ** The numpy operations the scripts use, on arrays of two floats *)

Module Np.
Local Open Scope float_scope.

(** A point, or any array of two floats. *)
Definition point : Type := (float * float)%type.

(** [np.maximum] and [np.minimum] on scalars: NaN propagates, and of two
    arguments that compare equal the first is returned. *)
Definition maximum (a b : float) : float :=
  if (b <=? a) || is_nan a then a else b.
Definition minimum (a b : float) : float :=
  if (a <=? b) || is_nan a then a else b.

(** [np.max] of a two-element array is the reduction of [maximum]. *)
Definition max (v : point) : float := maximum (fst v) (snd v).

(** [np.clip t lo hi] *)
Definition clip (t lo hi : float) : float := minimum (maximum t lo) hi.

(** Elementwise operations. *)
Definition sub (u v : point) : point := (fst u - fst v, snd u - snd v).
Definition add (u v : point) : point := (fst u + fst v, snd u + snd v).
Definition scale (t : float) (v : point) : point := (t * fst v, t * snd v).
Definition abs (v : point) : point := (PrimFloat.abs (fst v), PrimFloat.abs (snd v)).
Definition maximum0 (v : point) : point := (maximum (fst v) 0, maximum (snd v) 0).

(** [np.dot] of two such arrays and [np.linalg.norm], the square root of
    the dot product of the array with itself, each operation rounded on
    its own. *)
Definition dot (u v : point) : float := fst u * fst v + snd u * snd v.
Definition norm (v : point) : float := PrimFloat.sqrt (dot v v).

(** [np.array_equal]: every component compares equal (so an array holding
    a NaN equals no array). *)
Definition array_equal (u v : point) : bool :=
  (fst u =? fst v) && (snd u =? snd v).

(** What a distance dispatcher hands back: a float or, when a numpy float
    met a tuple in a subtraction, the array numpy builds by reading the
    tuple as an array and broadcasting the float; such an array has two
    elements or more. *)
Inductive value : Type :=
| Float (f : float)
| Array (x0 x1 : float) (more : list float).

(** [f - t] for a numpy float [f] and a tuple [t] of two floats. *)
Definition sub_tuple (f : float) (t : point) : value :=
  Array (f - fst t) (f - snd t) [].

(** A float [r] where an array of two is expected: numpy reads it as an
    array without dimension and broadcasts it along the other operand. *)
Definition broadcast (r : float) : point := (r, r).

End Np.

Coercion Np.Float : float >-> Np.value.

(** ** Tables *)

(** A data frame of result records: its column labels and its rows. *)
Record DataFrame (R : Type) : Type := mkDataFrame {
  columns : list string;
  rows : list R
}.

(** [df.empty] for a table given by its rows. *)
Definition is_empty {R : Type} (df : list R) : bool :=
  match df with
  | [] => true
  | _ :: _ => false
  end.

(** A row of the test-point table ([get_test_point_list]).  The column
    [shape_type] is read with [row.get], so it may be absent. *)
Record tp_row : Type := mk_tp_row {
  testpoint_id : string;
  tp_shape_type : option string;
  tp_shape_name : string;
  tp_x : float;
  tp_y : float;
  tp_width : float;
  tp_height : float;
  tp_layer : string
}.

(** A row of the pad table ([get_pad_list]).  The column [PAD_STACK_NAME]
    is read with [row.get], so it may be absent. *)
Record pad_row : Type := mk_pad_row {
  pad_id : string;
  component_id : string;
  PAD_STACK_NAME : option string;
  PAD_SHAPE_NAME : string;
  pad_x : float;
  pad_y : float;
  pad_width : float;
  pad_height : float;
  pad_layer : string
}.

(** The parameter tuples handed to the distance dispatchers. *)
Inductive params : Type :=
| Tuple_c_r (c : Np.point) (r : float)          (* ((x, y), r) *)
| Tuple_a_b (a b : Np.point)                    (* ((x, y), (x2, y2)) *)
| Tuple_c_w_h (c : Np.point) (w h : float).     (* ((x, y), w, h) *)

(** ** released_crit/criteria_35/criteria_35_4.py *)

Module Criteria_35_4.
Local Open Scope float_scope.
Import Py.

(** Minimum distance from point [p] to the segment [a, b]. *)
Definition _dist_point_to_segment (p a b : Np.point) : float :=
  if Np.array_equal a b then Np.norm (Np.sub p a)
  else
    let seg_vec := Np.sub b a in
    let p_vec := Np.sub p a in
    let seg_len_sq := Np.dot seg_vec seg_vec in
    let t := Np.dot p_vec seg_vec / seg_len_sq in
    let t := Np.clip t 0 1 in
    let closest_point := Np.add a (Np.scale t seg_vec) in
    Np.norm (Np.sub p closest_point).

(** Signed distance from a point to an axis-aligned rectangle given by
    its centre and its full width and height. *)
Definition _dist_signed_point_to_rect
    (p rect_center : Np.point) (rect_w rect_h : float) : float :=
  let half_w := rect_w / 2 in
  let half_h := rect_h / 2 in
  let delta := Np.sub (Np.abs (Np.sub p rect_center)) (half_w, half_h) in
  if (fst delta <=? 0) && (snd delta <=? 0) then Np.max delta
  else
    let dist_vec := Np.maximum0 delta in
    Np.norm dist_vec.

(** The same function when [b] is a float, as happens when the parameter
    tuple of a line holds a point and a number: [np.array(b)] is an array
    without dimension, which [np.array_equal] finds different from [a]
    whatever it holds, and which the arithmetic broadcasts. *)
Definition _dist_point_to_segment_0d (p a : Np.point) (b : float) : float :=
  let b := Np.broadcast b in
  let seg_vec := Np.sub b a in
  let p_vec := Np.sub p a in
  let seg_len_sq := Np.dot seg_vec seg_vec in
  let t := Np.dot p_vec seg_vec / seg_len_sq in
  let t := Np.clip t 0 1 in
  let closest_point := Np.add a (Np.scale t seg_vec) in
  Np.norm (Np.sub p closest_point).

Section Dispatcher.

(** [float_pow2 x] is the outcome of [x ** 2]. *)
Variable float_pow2 : Py.power.

(** Dispatcher: distance between two shapes, each a tag and its
    parameter tuple.  Unpacking a tuple of the wrong length raises
    [ValueError].  A tuple of two unpacks whatever its members are: where
    the code then adds a float and a tuple it raises [TypeError]; where
    it subtracts a tuple from a numpy float it returns an array; where a
    float stands for a point, numpy broadcasts it.  A pair of tags
    without a case of its own falls through to the last line,
    [float('inf')]. *)
Definition _calculate_distance
    (tp_shape : string) (tp_params : params)
    (pad_shape : string) (pad_params : params) : result Np.value :=
  if (tp_shape =? "RECT")%string then
    match tp_params with
    | Tuple_c_w_h tp_c tp_w tp_h =>
      if (pad_shape =? "RECT")%string then
        match pad_params with
        | Tuple_c_w_h pad_c pad_w pad_h =>
          let dx := PrimFloat.abs (fst tp_c - fst pad_c) in
          let dy := PrimFloat.abs (snd tp_c - snd pad_c) in
          let gap_x := dx - (tp_w / 2 + pad_w / 2) in
          let gap_y := dy - (tp_h / 2 + pad_h / 2) in
          if (gap_x <=? 0) && (gap_y <=? 0) then Ret (Py.max gap_x gap_y)
          else if (0 <? gap_x) && (gap_y <=? 0) then Ret gap_x
          else if (gap_x <=? 0) && (0 <? gap_y) then Ret gap_y
          else
            sq_x <- float_pow2 gap_x ;;
            sq_y <- float_pow2 gap_y ;;
            Ret (PrimFloat.sqrt (sq_x + sq_y))
        | _ => Raise ValueError
        end
      else if (pad_shape =? "CIRCLE")%string then
        match pad_params with
        | Tuple_c_r pad_c pad_r =>
          let dist_to_center := _dist_signed_point_to_rect pad_c tp_c tp_w tp_h in
          Ret (dist_to_center - pad_r)
        | Tuple_a_b pad_c pad_r =>
          let dist_to_center := _dist_signed_point_to_rect pad_c tp_c tp_w tp_h in
          Ret (Np.sub_tuple dist_to_center pad_r)
        | Tuple_c_w_h _ _ _ => Raise ValueError
        end
      else Ret Py.inf
    | _ => Raise ValueError
    end
  else if (tp_shape =? "CIRCLE")%string then
    match tp_params with
    | Tuple_c_r tp_c tp_r =>
      if (pad_shape =? "RECT")%string then
        match pad_params with
        | Tuple_c_w_h pad_c pad_w pad_h =>
          let dist_to_center := _dist_signed_point_to_rect tp_c pad_c pad_w pad_h in
          Ret (dist_to_center - tp_r)
        | _ => Raise ValueError
        end
      else if (pad_shape =? "CIRCLE")%string then
        match pad_params with
        | Tuple_c_r pad_c pad_r =>
          Ret (Np.norm (Np.sub tp_c pad_c) - (tp_r + pad_r))
        | Tuple_a_b _ _ => Raise TypeError
        | Tuple_c_w_h _ _ _ => Raise ValueError
        end
      else Ret Py.inf
    | Tuple_a_b tp_c tp_r =>
      if (pad_shape =? "RECT")%string then
        match pad_params with
        | Tuple_c_w_h pad_c pad_w pad_h =>
          let dist_to_center := _dist_signed_point_to_rect tp_c pad_c pad_w pad_h in
          Ret (Np.sub_tuple dist_to_center tp_r)
        | _ => Raise ValueError
        end
      else if (pad_shape =? "CIRCLE")%string then
        match pad_params with
        | Tuple_c_r _ _ => Raise TypeError
        | Tuple_a_b pad_c pad_r =>
          (* [tp_r + pad_r] joins the two tuples into one of four *)
          let norm := Np.norm (Np.sub tp_c pad_c) in
          Ret (Np.Array (norm - fst tp_r) (norm - snd tp_r)
                        [norm - fst pad_r; norm - snd pad_r])
        | Tuple_c_w_h _ _ _ => Raise ValueError
        end
      else Ret Py.inf
    | Tuple_c_w_h _ _ _ => Raise ValueError
    end
  else if (tp_shape =? "LINE")%string then
    match tp_params with
    | Tuple_a_b tp_a tp_b =>
      if (pad_shape =? "RECT")%string then
        match pad_params with
        | Tuple_c_w_h pad_c pad_w pad_h =>
          let dist_a := _dist_signed_point_to_rect tp_a pad_c pad_w pad_h in
          let dist_b := _dist_signed_point_to_rect tp_b pad_c pad_w pad_h in
          if Py.min dist_a dist_b <? 0 then Ret (Py.min dist_a dist_b)
          else
            let rc1 := Np.add pad_c (- (pad_w / 2), - (pad_h / 2)) in
            let rc2 := Np.add pad_c (pad_w / 2, - (pad_h / 2)) in
            let rc3 := Np.add pad_c (pad_w / 2, pad_h / 2) in
            let rc4 := Np.add pad_c (- (pad_w / 2), pad_h / 2) in
            let dist_c1 := _dist_point_to_segment rc1 tp_a tp_b in
            let dist_c2 := _dist_point_to_segment rc2 tp_a tp_b in
            let dist_c3 := _dist_point_to_segment rc3 tp_a tp_b in
            let dist_c4 := _dist_point_to_segment rc4 tp_a tp_b in
            Ret (fold_left Py.min [dist_b; dist_c1; dist_c2; dist_c3; dist_c4] dist_a)
        | _ => Raise ValueError
        end
      else if (pad_shape =? "CIRCLE")%string then
        match pad_params with
        | Tuple_c_r pad_c pad_r =>
          let dist_center_to_seg := _dist_point_to_segment pad_c tp_a tp_b in
          Ret (dist_center_to_seg - pad_r)
        | Tuple_a_b pad_c pad_r =>
          let dist_center_to_seg := _dist_point_to_segment pad_c tp_a tp_b in
          Ret (Np.sub_tuple dist_center_to_seg pad_r)
        | Tuple_c_w_h _ _ _ => Raise ValueError
        end
      else Ret Py.inf
    | Tuple_c_r tp_a tp_b =>
      (* the second end of the line is a float *)
      if (pad_shape =? "RECT")%string then
        match pad_params with
        | Tuple_c_w_h pad_c pad_w pad_h =>
          let dist_a := _dist_signed_point_to_rect tp_a pad_c pad_w pad_h in
          let dist_b :=
            _dist_signed_point_to_rect (Np.broadcast tp_b) pad_c pad_w pad_h in
          if Py.min dist_a dist_b <? 0 then Ret (Py.min dist_a dist_b)
          else
            let rc1 := Np.add pad_c (- (pad_w / 2), - (pad_h / 2)) in
            let rc2 := Np.add pad_c (pad_w / 2, - (pad_h / 2)) in
            let rc3 := Np.add pad_c (pad_w / 2, pad_h / 2) in
            let rc4 := Np.add pad_c (- (pad_w / 2), pad_h / 2) in
            let dist_c1 := _dist_point_to_segment_0d rc1 tp_a tp_b in
            let dist_c2 := _dist_point_to_segment_0d rc2 tp_a tp_b in
            let dist_c3 := _dist_point_to_segment_0d rc3 tp_a tp_b in
            let dist_c4 := _dist_point_to_segment_0d rc4 tp_a tp_b in
            Ret (fold_left Py.min [dist_b; dist_c1; dist_c2; dist_c3; dist_c4] dist_a)
        | _ => Raise ValueError
        end
      else if (pad_shape =? "CIRCLE")%string then
        match pad_params with
        | Tuple_c_r pad_c pad_r =>
          let dist_center_to_seg := _dist_point_to_segment_0d pad_c tp_a tp_b in
          Ret (dist_center_to_seg - pad_r)
        | Tuple_a_b pad_c pad_r =>
          let dist_center_to_seg := _dist_point_to_segment_0d pad_c tp_a tp_b in
          Ret (Np.sub_tuple dist_center_to_seg pad_r)
        | Tuple_c_w_h _ _ _ => Raise ValueError
        end
      else Ret Py.inf
    | Tuple_c_w_h _ _ _ => Raise ValueError
    end
  else Ret Py.inf.

(** A result record of the matcher. *)
Record overlap : Type := mk_overlap {
  ov_testpoint_id : string;
  ov_pad_id : string;
  ov_layer : string;
  ov_distance : float
}.

Definition out_columns : list string :=
  ["testpoint_id"; "pad_id"; "layer"; "distance"]%string.

(** A record as a pair (subject identifier, object identifier). *)
Definition id_pair (r : overlap) : string * string :=
  (ov_testpoint_id r, ov_pad_id r).

(** The shape tag and parameter tuple chosen for a pad row. *)
Definition pad_shape_of (pad_row : pad_row) : string * params :=
  let pad_shape_name := PAD_SHAPE_NAME pad_row in
  if (pad_shape_name =? "CIRCLE")%string then
    ("CIRCLE"%string, Tuple_c_r (pad_x pad_row, pad_y pad_row) (pad_width pad_row / 2))
  else if (pad_shape_name =? "FIG_SHAPE SHAPE1_5X2_4")%string then
    ("LINE"%string,
     Tuple_a_b (pad_x pad_row, pad_y pad_row) (pad_width pad_row, pad_height pad_row))
  else
    ("RECT"%string,
     Tuple_c_w_h (pad_x pad_row, pad_y pad_row) (pad_width pad_row) (pad_height pad_row)).

(** The inner loop over the pads of one layer, appending to [results]. *)
Fixpoint pad_loop (layer_name : string) (tp_row : tp_row)
    (tp_shape : string) (tp_params : params)
    (pad_layer_df : list pad_row) (results : list overlap)
    : result (list overlap) :=
  match pad_layer_df with
  | [] => Ret results
  | pad_row :: rest =>
    let '(pad_shape, pad_params) := pad_shape_of pad_row in
    distance <- _calculate_distance tp_shape tp_params pad_shape pad_params ;;
    match distance with
    | Np.Float distance =>
      pad_loop layer_name tp_row tp_shape tp_params rest
        (if distance <? 0
         then results ++ [mk_overlap (testpoint_id tp_row) (pad_id pad_row)
                                     layer_name distance]
         else results)
    | Np.Array _ _ _ =>
      (* [if distance < 0] on an array of several elements *)
      Raise ValueError
    end
  end.

(** The loop over the test points of one layer. *)
Fixpoint tp_loop (layer_name : string) (tp_layer_df : list tp_row)
    (pad_layer_df : list pad_row) (results : list overlap)
    : result (list overlap) :=
  match tp_layer_df with
  | [] => Ret results
  | tp_row :: rest =>
    let tp_shape := "CIRCLE"%string in
    let tp_params := Tuple_c_r (tp_x tp_row, tp_y tp_row) (tp_width tp_row / 2) in
    results <- pad_loop layer_name tp_row tp_shape tp_params pad_layer_df results ;;
    tp_loop layer_name rest pad_layer_df results
  end.

(** The loop over the two layers. *)
Fixpoint layer_loop (layers : list (string * list tp_row * list pad_row))
    (results : list overlap) : result (list overlap) :=
  match layers with
  | [] => Ret results
  | (layer_name, tp_layer_df, pad_layer_df) :: rest =>
    if is_empty tp_layer_df || is_empty pad_layer_df then layer_loop rest results
    else
      results <- tp_loop layer_name tp_layer_df pad_layer_df results ;;
      layer_loop rest results
  end.

(** The matcher.  Its two arguments are the outcomes of the calls
    [get_test_point_list()] and [get_pad_list()]. *)
Definition judge_tp_pad_pin_positions
    (get_test_point_list : result (list tp_row))
    (get_pad_list : result (list pad_row)) : result (DataFrame overlap) :=
  match (tp_df <- get_test_point_list ;;
         pad_df <- get_pad_list ;;
         Ret (tp_df, pad_df)) with
  | Raise _ => Ret (mkDataFrame [] [])
  | Ret (tp_df, pad_df) =>
    if is_empty tp_df || is_empty pad_df then Ret (mkDataFrame out_columns [])
    else
      let tp_top := filter (fun r => (tp_layer r =? "SOLDERMASK_TOP")%string) tp_df in
      let tp_bottom := filter (fun r => (tp_layer r =? "SOLDERMASK_BOTTOM")%string) tp_df in
      let pad_top := filter (fun r => (pad_layer r =? "TOP")%string) pad_df in
      let pad_bottom := filter (fun r => (pad_layer r =? "BOTTOM")%string) pad_df in
      results <- layer_loop [("TOP"%string, tp_top, pad_top);
                             ("BOTTOM"%string, tp_bottom, pad_bottom)] [] ;;
      match results with
      | [] => Ret (mkDataFrame out_columns [])
      | _ :: _ => Ret (mkDataFrame out_columns results)
      end
  end.

End Dispatcher.

End Criteria_35_4.

(** ** released_crit/criteria_37/criteria_37_4.py *)

Module Criteria_37_4.
Local Open Scope float_scope.
Import Py.

(** A row of the component table ([get_component_list]). *)
Record component_row : Type := mk_component_row {
  component_id : string;
  shape_name : string;
  min_x : float;
  min_y : float;
  max_x : float;
  max_y : float;
  layer : string
}.

(** Signed distance from a point to an axis-aligned rectangle given by
    its minimum and maximum corners. *)
Definition _dist_signed_point_to_rect (p rect_min rect_max : Np.point) : float :=
  let rect_center := (fst (Np.add rect_min rect_max) / 2, snd (Np.add rect_min rect_max) / 2) in
  let rect_half := (fst (Np.sub rect_max rect_min) / 2, snd (Np.sub rect_max rect_min) / 2) in
  let delta := Np.sub (Np.abs (Np.sub p rect_center)) rect_half in
  if (fst delta <=? 0) && (snd delta <=? 0) then Np.max delta
  else
    let dist_vec := Np.maximum0 delta in
    Np.norm dist_vec.

(** Dispatcher: the test point is a circle, the component a bounding
    box whatever its tag.  Unpacking a tuple of three raises
    [ValueError]; a tuple of two unpacks whatever its members are: a
    float standing for the maximum corner is broadcast, and a tuple
    standing for the radius gives an array. *)
Definition _calculate_distance
    (tp_shape : string) (tp_params : params)
    (component_shape : string) (component_params : params) : result Np.value :=
  if (tp_shape =? "CIRCLE")%string then
    match tp_params with
    | Tuple_c_r tp_c tp_r =>
      if (component_shape =? "RECT")%string || (component_shape =? "OTHER")%string then
        match component_params with
        | Tuple_a_b component_min component_max =>
          let dist_to_center := _dist_signed_point_to_rect tp_c component_min component_max in
          Ret (dist_to_center - tp_r)
        | Tuple_c_r component_min component_max =>
          let dist_to_center :=
            _dist_signed_point_to_rect tp_c component_min (Np.broadcast component_max) in
          Ret (dist_to_center - tp_r)
        | Tuple_c_w_h _ _ _ => Raise ValueError
        end
      else if (component_shape =? "LINE")%string then
        match component_params with
        | Tuple_a_b component_min component_max =>
          let dist_to_center := _dist_signed_point_to_rect tp_c component_min component_max in
          Ret (dist_to_center - tp_r)
        | Tuple_c_r component_min component_max =>
          let dist_to_center :=
            _dist_signed_point_to_rect tp_c component_min (Np.broadcast component_max) in
          Ret (dist_to_center - tp_r)
        | Tuple_c_w_h _ _ _ => Raise ValueError
        end
      else Ret Py.inf
    | Tuple_a_b tp_c tp_r =>
      if (component_shape =? "RECT")%string || (component_shape =? "OTHER")%string then
        match component_params with
        | Tuple_a_b component_min component_max =>
          let dist_to_center := _dist_signed_point_to_rect tp_c component_min component_max in
          Ret (Np.sub_tuple dist_to_center tp_r)
        | Tuple_c_r component_min component_max =>
          let dist_to_center :=
            _dist_signed_point_to_rect tp_c component_min (Np.broadcast component_max) in
          Ret (Np.sub_tuple dist_to_center tp_r)
        | Tuple_c_w_h _ _ _ => Raise ValueError
        end
      else if (component_shape =? "LINE")%string then
        match component_params with
        | Tuple_a_b component_min component_max =>
          let dist_to_center := _dist_signed_point_to_rect tp_c component_min component_max in
          Ret (Np.sub_tuple dist_to_center tp_r)
        | Tuple_c_r component_min component_max =>
          let dist_to_center :=
            _dist_signed_point_to_rect tp_c component_min (Np.broadcast component_max) in
          Ret (Np.sub_tuple dist_to_center tp_r)
        | Tuple_c_w_h _ _ _ => Raise ValueError
        end
      else Ret Py.inf
    | Tuple_c_w_h _ _ _ => Raise ValueError
    end
  else Ret Py.inf.

(** A result record of the matcher. *)
Record overlap : Type := mk_overlap {
  ov_testpoint_id : string;
  ov_component_id : string;
  ov_layer : string;
  ov_distance : float
}.

Definition out_columns : list string :=
  ["testpoint_id"; "component_id"; "layer"; "distance"]%string.

(** The layer maps applied with [Series.map]: a raw layer outside the
    map becomes a missing value. *)
Definition tp_standard_layer (l : string) : option string :=
  if (l =? "SOLDERMASK_TOP")%string then Some "TOP"%string
  else if (l =? "SOLDERMASK_BOTTOM")%string then Some "BOTTOM"%string
  else None.

Definition component_standard_layer (l : string) : option string :=
  if (l =? "PLACE_BOUND_TOP")%string then Some "TOP"%string
  else if (l =? "PLACE_BOUND_BOTTOM")%string then Some "BOTTOM"%string
  else None.

(** [dropna] on the mapped column followed by the selection of one
    standard layer. *)
Definition select_layer {R : Type} (standard_layer : R -> option string)
    (name : string) (df : list R) : list R :=
  filter (fun r => match standard_layer r with
                   | Some l => (l =? name)%string
                   | None => false
                   end)
         (filter (fun r => match standard_layer r with
                           | Some _ => true
                           | None => false
                           end) df).

(** The inner loop over the components of one layer. *)
Fixpoint component_loop (layer_name : string) (tp_row : tp_row)
    (tp_shape : string) (tp_params : params)
    (component_layer_df : list component_row) (results : list overlap)
    : result (list overlap) :=
  match component_layer_df with
  | [] => Ret results
  | component_row :: rest =>
    if (testpoint_id tp_row =? component_id component_row)%string then
      component_loop layer_name tp_row tp_shape tp_params rest results
    else
      let component_shape_name := shape_name component_row in
      let component_shape :=
        if (component_shape_name =? "LINE")%string then "LINE"%string
        else "OTHER"%string in
      let component_params :=
        Tuple_a_b (min_x component_row, min_y component_row)
                  (max_x component_row, max_y component_row) in
      distance <- _calculate_distance tp_shape tp_params
                                      component_shape component_params ;;
      match distance with
      | Np.Float distance =>
        component_loop layer_name tp_row tp_shape tp_params rest
          (if distance <? 0
           then results ++ [mk_overlap (testpoint_id tp_row)
                                       (component_id component_row)
                                       layer_name distance]
           else results)
      | Np.Array _ _ _ =>
        (* [if distance < 0] on an array of several elements *)
        Raise ValueError
      end
  end.

(** The loop over the test points of one layer. *)
Fixpoint tp_loop (layer_name : string) (tp_layer_df : list tp_row)
    (component_layer_df : list component_row) (results : list overlap)
    : result (list overlap) :=
  match tp_layer_df with
  | [] => Ret results
  | tp_row :: rest =>
    let tp_shape := "CIRCLE"%string in
    let tp_params := Tuple_c_r (tp_x tp_row, tp_y tp_row) (tp_width tp_row / 2) in
    results <- component_loop layer_name tp_row tp_shape tp_params
                              component_layer_df results ;;
    tp_loop layer_name rest component_layer_df results
  end.

(** The loop over the two layers. *)
Fixpoint layer_loop (layers : list (string * list tp_row * list component_row))
    (results : list overlap) : result (list overlap) :=
  match layers with
  | [] => Ret results
  | (layer_name, tp_layer_df, component_layer_df) :: rest =>
    if is_empty tp_layer_df || is_empty component_layer_df
    then layer_loop rest results
    else
      results <- tp_loop layer_name tp_layer_df component_layer_df results ;;
      layer_loop rest results
  end.

(** The matcher.  Its two arguments are the outcomes of the calls
    [get_test_point_list()] and [get_component_list()]. *)
Definition judge_tp_component_coverage
    (get_test_point_list : result (list tp_row))
    (get_component_list : result (list component_row))
    : result (DataFrame overlap) :=
  match (tp_df <- get_test_point_list ;;
         component_df <- get_component_list ;;
         Ret (tp_df, component_df)) with
  | Raise _ => Ret (mkDataFrame [] [])
  | Ret (tp_df, component_df) =>
    if is_empty tp_df || is_empty component_df
    then Ret (mkDataFrame out_columns [])
    else
      let tp_std := fun r => tp_standard_layer (tp_layer r) in
      let component_std := fun r => component_standard_layer (layer r) in
      let tp_top := select_layer tp_std "TOP" tp_df in
      let tp_bottom := select_layer tp_std "BOTTOM" tp_df in
      let component_top := select_layer component_std "TOP" component_df in
      let component_bottom := select_layer component_std "BOTTOM" component_df in
      results <- layer_loop [("TOP"%string, tp_top, component_top);
                             ("BOTTOM"%string, tp_bottom, component_bottom)] [] ;;
      match results with
      | [] => Ret (mkDataFrame out_columns [])
      | _ :: _ => Ret (mkDataFrame out_columns results)
      end
  end.

End Criteria_37_4.

(** ** legacy_files/criteria_35_4.py *)

Module Legacy_35_4.
Local Open Scope float_scope.
Import Py.

(** The shapely geometries the script builds. *)
Inductive geometry : Type :=
| Buffer (center : Np.point) (distance : float)   (* Point(x, y).buffer(d, cap_style=1) *)
| LineString (a b : Np.point)
| Polygon (p1 p2 p3 p4 : Np.point).

(** Bounding boxes [(minx, miny, maxx, maxy)]. *)
Definition bbox : Type := (float * float * float * float)%type.

Definition _create_tp_shape (row : tp_row) : geometry :=
  let shape_type := match tp_shape_type row with
                    | Some s => s
                    | None => "RECT"%string
                    end in
  let x := tp_x row in
  let y := tp_y row in
  let width := tp_width row in
  let height := tp_height row in
  if (shape_type =? "CIRCLE")%string then Buffer (x, y) (width / 2)
  else if (shape_type =? "LINE")%string then LineString (x, y) (width, height)
  else
    let half_w := width / 2 in
    let half_h := height / 2 in
    Polygon (x - half_w, y - half_h) (x + half_w, y - half_h)
            (x + half_w, y + half_h) (x - half_w, y + half_h).

Definition _create_pad_shape (row : pad_row) : geometry :=
  let shape_type := match PAD_STACK_NAME row with
                    | Some s => s
                    | None => "RECT"%string
                    end in
  let x := pad_x row in
  let y := pad_y row in
  let width := pad_width row in
  let height := pad_height row in
  if (shape_type =? "CIRCLE")%string then Buffer (x, y) (width / 2)
  else
    let half_w := width / 2 in
    let half_h := height / 2 in
    Polygon (x - half_w, y - half_h) (x + half_w, y - half_h)
            (x + half_w, y + half_h) (x - half_w, y + half_h).

(** A result record of the matcher. *)
Record overlap : Type := mk_overlap {
  ov_testpoint_id : string;
  ov_pad_id : string;
  ov_distance : float
}.

Definition out_columns : list string := ["testpoint_id"; "pad_id"; "distance"]%string.

(** Two boxes meet when their closed intervals meet on both axes. *)
Definition bbox_intersects (b q : bbox) : bool :=
  let '(bminx, bminy, bmaxx, bmaxy) := b in
  let '(qminx, qminy, qmaxx, qmaxy) := q in
  (bminx <=? qmaxx) && (qminx <=? bmaxx) && (bminy <=? qmaxy) && (qminy <=? bmaxy).

Section Matcher.

(** The geometry library (shapely) and the spatial index (rtree) are
    not part of the repository: [bounds] is [shape.bounds],
    [intersects a b] is [a.intersects(b)], and [index_intersection] is
    [idx.intersection(q)] on the index holding the given [(id, box)]
    entries, listed in the order the index yields them. *)
Variable bounds : geometry -> bbox.
Variable intersects : geometry -> geometry -> bool.
Variable index_intersection : list (nat * bbox) -> bbox -> list nat.

(** [idx.insert(i, shape.bounds)] for [i, (shape, _)] in
    [enumerate(pad_shapes)], counting from [i]. *)
Fixpoint build_index (i : nat) (pad_shapes : list (geometry * string))
    (idx : list (nat * bbox)) : list (nat * bbox) :=
  match pad_shapes with
  | [] => idx
  | (shape, _) :: rest => build_index (S i) rest (idx ++ [(i, bounds shape)])
  end.

(** The loop over the candidates the index returned for a test point. *)
Fixpoint candidate_loop (tp_shape : geometry) (tp_id : string)
    (pad_shapes : list (geometry * string)) (candidate_indices : list nat)
    (results : list overlap) : result (list overlap) :=
  match candidate_indices with
  | [] => Ret results
  | i :: rest =>
    match nth_error pad_shapes i with
    | None => Raise IndexError
    | Some (pad_shape, pad_id) =>
      candidate_loop tp_shape tp_id pad_shapes rest
        (if intersects tp_shape pad_shape
         then results ++ [mk_overlap tp_id pad_id (-1)]
         else results)
    end
  end.

(** The loop over the test points. *)
Fixpoint tp_loop (tp_df : list tp_row) (pad_shapes : list (geometry * string))
    (idx : list (nat * bbox)) (results : list overlap)
    : result (list overlap) :=
  match tp_df with
  | [] => Ret results
  | tp_row :: rest =>
    let tp_shape := _create_tp_shape tp_row in
    let tp_id := testpoint_id tp_row in
    let candidate_indices := index_intersection idx (bounds tp_shape) in
    results <- candidate_loop tp_shape tp_id pad_shapes candidate_indices results ;;
    tp_loop rest pad_shapes idx results
  end.

(** The matcher.  Only the calls to the data sources are guarded. *)
Definition judge_tp_pad_pin_positions
    (get_test_point_list : result (list tp_row))
    (get_pad_list : result (list pad_row)) : result (DataFrame overlap) :=
  match (tp_df <- get_test_point_list ;;
         pad_df <- get_pad_list ;;
         Ret (tp_df, pad_df)) with
  | Raise _ => Ret (mkDataFrame [] [])
  | Ret (tp_df, pad_df) =>
    if is_empty tp_df || is_empty pad_df then Ret (mkDataFrame out_columns [])
    else
      let pad_shapes :=
        map (fun row => (_create_pad_shape row, component_id row)) pad_df in
      let idx := build_index 0 pad_shapes [] in
      results <- tp_loop tp_df pad_shapes idx [] ;;
      match results with
      | [] => Ret (mkDataFrame out_columns [])
      | _ :: _ => Ret (mkDataFrame out_columns results)
      end
  end.

(** The same matcher without the broad phase: the exact check is
    applied to every pad, in table order. *)
Fixpoint exhaustive_pad_loop (tp_shape : geometry) (tp_id : string)
    (pad_shapes : list (geometry * string)) (results : list overlap)
    : list overlap :=
  match pad_shapes with
  | [] => results
  | (pad_shape, pad_id) :: rest =>
    exhaustive_pad_loop tp_shape tp_id rest
      (if intersects tp_shape pad_shape
       then results ++ [mk_overlap tp_id pad_id (-1)]
       else results)
  end.

Fixpoint exhaustive_tp_loop (tp_df : list tp_row)
    (pad_shapes : list (geometry * string)) (results : list overlap)
    : list overlap :=
  match tp_df with
  | [] => results
  | tp_row :: rest =>
    exhaustive_tp_loop rest pad_shapes
      (exhaustive_pad_loop (_create_tp_shape tp_row) (testpoint_id tp_row)
                           pad_shapes results)
  end.

Definition exhaustive_matcher (tp_df : list tp_row) (pad_df : list pad_row)
    : list overlap :=
  exhaustive_tp_loop tp_df
    (map (fun row => (_create_pad_shape row, component_id row)) pad_df) [].

(** The pad identifiers the candidate loop reports for one test-point
    geometry, and the rows the loop over the test points adds: the two
    loops without their accumulator. *)
Fixpoint candidate_pads (tp_shape : geometry)
    (pad_shapes : list (geometry * string)) (candidate_indices : list nat)
    : result (list string) :=
  match candidate_indices with
  | [] => Ret []
  | i :: rest =>
    match nth_error pad_shapes i with
    | None => Raise IndexError
    | Some (pad_shape, pad_id) =>
      found <- candidate_pads tp_shape pad_shapes rest ;;
      Ret (if intersects tp_shape pad_shape then pad_id :: found else found)
    end
  end.

Fixpoint legacy_rows (tp_df : list tp_row) (pad_shapes : list (geometry * string))
    (idx : list (nat * bbox)) : result (list overlap) :=
  match tp_df with
  | [] => Ret []
  | tp_row :: rest =>
    let tp_shape := _create_tp_shape tp_row in
    found <- candidate_pads tp_shape pad_shapes
                            (index_intersection idx (bounds tp_shape)) ;;
    more <- legacy_rows rest pad_shapes idx ;;
    Ret (map (fun pad_id => mk_overlap (testpoint_id tp_row) pad_id (-1)) found
         ++ more)
  end.

(** What the script relies on from the two libraries: the index
    yields exactly the identifiers of the entries whose box meets the
    query box, and two geometries that intersect have boxes that
    meet. *)
Definition index_contract : Prop :=
  forall entries q i,
    In i (index_intersection entries q) <->
    exists b, In (i, b) entries /\ bbox_intersects b q = true.

Definition bounds_contract : Prop :=
  forall g h, intersects g h = true ->
              bbox_intersects (bounds h) (bounds g) = true.

End Matcher.

(** A model of the two libraries on boxes: every geometry is taken for
    its bounding box, a buffer for the box around its circle. *)
Definition box_bounds (g : geometry) : bbox :=
  match g with
  | Buffer (x, y) d => (x - d, y - d, x + d, y + d)
  | LineString (x1, y1) (x2, y2) =>
    (Py.min x1 x2, Py.min y1 y2, Py.max x1 x2, Py.max y1 y2)
  | Polygon (x1, y1) _ (x3, y3) _ =>
    (Py.min x1 x3, Py.min y1 y3, Py.max x1 x3, Py.max y1 y3)
  end.

Definition box_intersects (g h : geometry) : bool :=
  bbox_intersects (box_bounds h) (box_bounds g).

Definition scan_intersection (entries : list (nat * bbox)) (q : bbox) : list nat :=
  map fst (filter (fun e => bbox_intersects (snd e) q) entries).

(** A record as a pair (subject identifier, object identifier). *)
Definition id_pair (r : overlap) : string * string :=
  (ov_testpoint_id r, ov_pad_id r).

End Legacy_35_4.

(** ** Data-frame operations the joins use *)

Module Pandas.

Section Frames.
Variable R : Type.
Variable eqb : R -> R -> bool.
Variable leb : R -> R -> bool.

Definition mem (x : R) (l : list R) : bool := existsb (eqb x) l.

(** [drop_duplicates]: the first of several equal rows is kept. *)
Fixpoint drop_duplicates_from (seen : list R) (l : list R) : list R :=
  match l with
  | [] => []
  | x :: rest =>
    if mem x seen then drop_duplicates_from seen rest
    else x :: drop_duplicates_from (x :: seen) rest
  end.

Definition drop_duplicates (l : list R) : list R := drop_duplicates_from [] l.

(** [sort_values]: a stable sort by the order [leb]. *)
Fixpoint insert_row (x : R) (l : list R) : list R :=
  match l with
  | [] => [x]
  | y :: rest => if leb x y then x :: l else y :: insert_row x rest
  end.

Fixpoint sort_values (l : list R) : list R :=
  match l with
  | [] => []
  | x :: rest => insert_row x (sort_values rest)
  end.

End Frames.

(** Lexicographic combination of comparisons. *)
Definition lex (c1 c2 : comparison) : comparison :=
  match c1 with
  | Eq => c2
  | _ => c1
  end.

(** Order of an object column: strings by code point, missing values last. *)
Definition compare_na (a b : option string) : comparison :=
  match a, b with
  | Some x, Some y => String.compare x y
  | Some _, None => Lt
  | None, Some _ => Gt
  | None, None => Eq
  end.

(** Equality of cells when rows are compared by [drop_duplicates]:
    two missing values count as equal. *)
Definition eqb_na (a b : option string) : bool :=
  match a, b with
  | Some x, Some y => String.eqb x y
  | None, None => true
  | _, _ => false
  end.

(** The elementwise test [column == value]: a missing value equals nothing. *)
Definition cell_eq (a b : option string) : bool :=
  match a, b with
  | Some x, Some y => String.eqb x y
  | _, _ => false
  end.

Definition leb_of (c : comparison) : bool :=
  match c with
  | Gt => false
  | _ => true
  end.

(** For a comparison function: the first row does not come after the
    second. *)
Definition not_after (R : Type) (cmp : R -> R -> comparison) (a b : R) : Prop :=
  cmp a b <> Gt.

(** A comparison function that behaves as a total preorder. *)
Record order_ok (R : Type) (c : R -> R -> comparison) : Prop := mk_order_ok {
  ok_antisym : forall a b, c b a = CompOpp (c a b);
  ok_trans : forall a b d, c a b = Lt -> c b d = Lt -> c a d = Lt;
  ok_congr : forall a b d, c a b = Eq -> c a d = c b d
}.

(** [re.match(r'^\d', s)] on text whose digits are the ASCII ones. *)
Definition ascii_digit_prefix (s : string) : bool :=
  match s with
  | EmptyString => false
  | String c _ => (48 <=? nat_of_ascii c)%nat && (nat_of_ascii c <=? 57)%nat
  end.

End Pandas.

(** ** final_scripts/criteria_29/crit_29_3.py *)

Module Crit_29_3.
Import Pandas.

(** The columns read from the two source tables. *)
Record tp_net_row : Type := mk_tp_net_row {
  tp_testpoint_id : option string;
  tp_net_name : option string
}.

Record pin_net_row : Type := mk_pin_net_row {
  pin_pin_id : option string;
  pin_net_name : option string
}.

(** A result record. *)
Record match_row : Type := mk_match_row {
  m_testpoint_id : option string;
  m_pin_id : option string;
  m_net_name : option string;
  m_matching_pairs : option string
}.

Definition out_columns : list string :=
  ["testpoint_id"; "pin_id"; "net_name"; "matching_pairs"]%string.

Definition match_row_eqb (a b : match_row) : bool :=
  eqb_na (m_testpoint_id a) (m_testpoint_id b) &&
  eqb_na (m_pin_id a) (m_pin_id b) &&
  eqb_na (m_net_name a) (m_net_name b) &&
  eqb_na (m_matching_pairs a) (m_matching_pairs b).

(** [str(net)] *)
Definition str (net : option string) : string :=
  match net with
  | Some s => s
  | None => "nan"%string
  end.

Section Join.

(** [set_iter l] lists the members of the set built from [l] in the
    order the interpreter iterates over it; [re_match_digit s] tells
    whether [re.match(r'^\d', s)] finds a match. *)
Variable set_iter : forall A : Type, list A -> list A.
Variable re_match_digit : string -> bool.

Definition _sort_key (net : option string) : nat * option string :=
  if re_match_digit (str net) then (0, net) else (1, net).

(** Order of the sort keys, which are tuples. *)
Definition compare_sort_key (a b : nat * option string) : comparison :=
  lex (Nat.compare (fst a) (fst b)) (compare_na (snd a) (snd b)).

(** Order by [__sort_key], [net_name], [testpoint_id], [pin_id]. *)
Definition compare_rows (a b : match_row) : comparison :=
  lex (compare_sort_key (_sort_key (m_net_name a)) (_sort_key (m_net_name b)))
      (lex (compare_na (m_net_name a) (m_net_name b))
           (lex (compare_na (m_testpoint_id a) (m_testpoint_id b))
                (compare_na (m_pin_id a) (m_pin_id b)))).

Definition row_leb (a b : match_row) : bool := leb_of (compare_rows a b).

Fixpoint pin_loop (net_name : option string) (tp_row : tp_net_row)
    (pin_records : list pin_net_row) (result_list : list match_row)
    : list match_row :=
  match pin_records with
  | [] => result_list
  | pin_row :: rest =>
    let testpoint_id := tp_testpoint_id tp_row in
    let pin_id := pin_pin_id pin_row in
    let matching_pair :=
      match testpoint_id, pin_id with
      | Some t, Some p => Some (t ++ " - " ++ p)%string
      | _, _ => None
      end in
    pin_loop net_name tp_row rest
      (result_list ++ [mk_match_row testpoint_id pin_id net_name matching_pair])
  end.

Fixpoint tp_loop (net_name : option string) (tp_records : list tp_net_row)
    (pin_records : list pin_net_row) (result_list : list match_row)
    : list match_row :=
  match tp_records with
  | [] => result_list
  | tp_row :: rest =>
    tp_loop net_name rest pin_records
            (pin_loop net_name tp_row pin_records result_list)
  end.

Fixpoint net_loop (all_net_names : list (option string))
    (df_tp : list tp_net_row) (df_pin : list pin_net_row)
    (result_list : list match_row) : list match_row :=
  match all_net_names with
  | [] => result_list
  | net_name :: rest =>
    let tp_records := filter (fun r => cell_eq (tp_net_name r) net_name) df_tp in
    let pin_records := filter (fun r => cell_eq (pin_net_name r) net_name) df_pin in
    net_loop rest df_tp df_pin
      (if negb (is_empty tp_records) && negb (is_empty pin_records)
       then tp_loop net_name tp_records pin_records result_list
       else result_list)
  end.

Definition judge_io_connector_in_tp_network
    (df_tp : list tp_net_row) (df_pin : list pin_net_row)
    : DataFrame match_row :=
  if is_empty df_tp || is_empty df_pin then mkDataFrame out_columns []
  else
    let all_net_names :=
      set_iter (map tp_net_name df_tp ++ map pin_net_name df_pin) in
    let result_list := net_loop all_net_names df_tp df_pin [] in
    if is_empty result_list then mkDataFrame out_columns []
    else
      mkDataFrame out_columns
        (sort_values row_leb (drop_duplicates match_row_eqb result_list)).

End Join.

End Crit_29_3.

(** ** final_scripts/criteria_32/criteria_32_3.py *)

Module Criteria_32_3.
Import Pandas.
Import Py.

(** The columns kept from the two source tables. *)
Record tp_net_row : Type := mk_tp_net_row {
  tp_testpoint_id : string;
  tp_net_name : option string
}.

Record connector_net_row : Type := mk_connector_net_row {
  connector_id : string;
  connector_net_name : option string
}.

(** A result record. *)
Record match_row : Type := mk_match_row {
  m_testpoint_id : string;
  m_component_id : string;
  m_net_name : string;
  m_matching_pairs : string
}.

Definition out_columns : list string :=
  ["testpoint_id"; "component_id"; "net_name"; "matching_pairs"]%string.

Definition match_row_eqb (a b : match_row) : bool :=
  String.eqb (m_testpoint_id a) (m_testpoint_id b) &&
  String.eqb (m_component_id a) (m_component_id b) &&
  String.eqb (m_net_name a) (m_net_name b) &&
  String.eqb (m_matching_pairs a) (m_matching_pairs b).

(** [column.dropna()] *)
Fixpoint dropna (l : list (option string)) : list string :=
  match l with
  | [] => []
  | Some s :: rest => s :: dropna rest
  | None :: rest => dropna rest
  end.

Section Join.

Variable set_iter : forall A : Type, list A -> list A.
Variable re_match_digit : string -> bool.

Definition sort_key (net_name : string) : nat * string :=
  if re_match_digit net_name then (0, net_name) else (1, net_name).

Definition compare_sort_key (a b : nat * string) : comparison :=
  lex (Nat.compare (fst a) (fst b)) (String.compare (snd a) (snd b)).

(** Order by [sort_key], [net_name], [testpoint_id], [component_id]. *)
Definition compare_rows (a b : match_row) : comparison :=
  lex (compare_sort_key (sort_key (m_net_name a)) (sort_key (m_net_name b)))
      (lex (String.compare (m_net_name a) (m_net_name b))
           (lex (String.compare (m_testpoint_id a) (m_testpoint_id b))
                (String.compare (m_component_id a) (m_component_id b)))).

Definition row_leb (a b : match_row) : bool := leb_of (compare_rows a b).

(** [itertools.product(tp_ids, component_ids)], appended to the rows. *)
Fixpoint product_loop (net_name : string) (tp_ids component_ids : list string)
    (result_rows : list match_row) : list match_row :=
  match tp_ids with
  | [] => result_rows
  | tp_id :: rest =>
    product_loop net_name rest component_ids
      (result_rows ++
       map (fun comp_id =>
              mk_match_row tp_id comp_id net_name (tp_id ++ " - " ++ comp_id)%string)
           component_ids)
  end.

Fixpoint net_loop (common_net_names : list string)
    (tp_data : list tp_net_row) (connector_data : list connector_net_row)
    (result_rows : list match_row) : list match_row :=
  match common_net_names with
  | [] => result_rows
  | net_name :: rest =>
    let tp_ids :=
      map tp_testpoint_id
          (filter (fun r => cell_eq (tp_net_name r) (Some net_name)) tp_data) in
    let component_ids :=
      map connector_id
          (filter (fun r => cell_eq (connector_net_name r) (Some net_name))
                  connector_data) in
    net_loop rest tp_data connector_data
             (product_loop net_name tp_ids component_ids result_rows)
  end.

(** The join.  Its arguments are the outcomes of [get_test_point_list()]
    and [get_connector_list()], each guarded on its own. *)
Definition judge_io_connector_in_tp_network
    (get_test_point_list : result (list tp_net_row))
    (get_connector_list : result (list connector_net_row))
    : DataFrame match_row :=
  match get_test_point_list with
  | Raise _ => mkDataFrame out_columns []
  | Ret tp_df =>
    if is_empty tp_df then mkDataFrame out_columns []
    else
      match get_connector_list with
      | Raise _ => mkDataFrame out_columns []
      | Ret connector_df =>
        if is_empty connector_df then mkDataFrame out_columns []
        else
          let tp_names := dropna (map tp_net_name tp_df) in
          let connector_names := dropna (map connector_net_name connector_df) in
          let common_net_names :=
            set_iter (filter (fun n => existsb (String.eqb n) connector_names)
                             tp_names) in
          let result_rows := net_loop common_net_names tp_df connector_df [] in
          if is_empty result_rows then mkDataFrame out_columns []
          else
            mkDataFrame out_columns
              (sort_values row_leb (drop_duplicates match_row_eqb result_rows))
      end
  end.

End Join.

End Criteria_32_3.

(** ** The distance formulas *)

Module Formulas.
Local Open Scope float_scope.

(** The signed point-to-rectangle distance as the specification words it,
    for a rectangle given by its centre and half-extents: the larger of the
    two per-axis deltas when neither is positive, else the Euclidean norm
    of the deltas clamped at zero. *)
Definition signed_distance_point_to_rect
    (p center : Np.point) (half_w half_h : float) : float :=
  let delta_x := abs (fst p - fst center) - half_w in
  let delta_y := abs (snd p - snd center) - half_h in
  if (delta_x <=? 0) && (delta_y <=? 0) then Np.maximum delta_x delta_y
  else
    let clamped_x := Np.maximum delta_x 0 in
    let clamped_y := Np.maximum delta_y 0 in
    sqrt (clamped_x * clamped_x + clamped_y * clamped_y).

End Formulas.

(** ** The matchers as nested comprehensions

    What the loops of the two released matchers compute, written without
    the accumulator: used to state and prove their properties. *)

Module Overlaps_35_4.
Local Open Scope float_scope.
Import Criteria_35_4.

(** The parameter tuple built for a test point, always a circle. *)
Definition tp_circle (t : tp_row) : params :=
  Tuple_c_r (tp_x t, tp_y t) (tp_width t / 2).

(** The value the dispatcher returns for a test point and a pad. *)
Definition pad_distance (t : tp_row) (p : pad_row) : float :=
  if (PAD_SHAPE_NAME p =? "CIRCLE")%string then
    Np.norm (Np.sub (tp_x t, tp_y t) (pad_x p, pad_y p))
    - (tp_width t / 2 + pad_width p / 2)
  else if (PAD_SHAPE_NAME p =? "FIG_SHAPE SHAPE1_5X2_4")%string then Py.inf
  else
    _dist_signed_point_to_rect (tp_x t, tp_y t) (pad_x p, pad_y p)
                               (pad_width p) (pad_height p)
    - tp_width t / 2.

(** The records one pair contributes. *)
Definition overlap_of (layer_name : string) (t : tp_row) (p : pad_row)
    : list overlap :=
  if pad_distance t p <? 0
  then [mk_overlap (testpoint_id t) (pad_id p) layer_name (pad_distance t p)]
  else [].

Definition layer_overlaps (layer_name : string)
    (tps : list tp_row) (pads : list pad_row) : list overlap :=
  flat_map (fun t => flat_map (overlap_of layer_name t) pads) tps.

Definition tp_on (raw : string) (tp_df : list tp_row) : list tp_row :=
  filter (fun r => (tp_layer r =? raw)%string) tp_df.

Definition pad_on (raw : string) (pad_df : list pad_row) : list pad_row :=
  filter (fun r => (pad_layer r =? raw)%string) pad_df.

Definition overlaps (tp_df : list tp_row) (pad_df : list pad_row) : list overlap :=
  layer_overlaps "TOP" (tp_on "SOLDERMASK_TOP" tp_df) (pad_on "TOP" pad_df)
  ++ layer_overlaps "BOTTOM" (tp_on "SOLDERMASK_BOTTOM" tp_df)
                    (pad_on "BOTTOM" pad_df).

(** The logical layer of a raw layer name, per table. *)
Definition tp_logical_layer (raw : string) : option string :=
  if (raw =? "SOLDERMASK_TOP")%string then Some "TOP"%string
  else if (raw =? "SOLDERMASK_BOTTOM")%string then Some "BOTTOM"%string
  else None.

Definition pad_logical_layer (raw : string) : option string :=
  if (raw =? "TOP")%string then Some "TOP"%string
  else if (raw =? "BOTTOM")%string then Some "BOTTOM"%string
  else None.

End Overlaps_35_4.

Module Overlaps_37_4.
Local Open Scope float_scope.
Import Criteria_37_4.

(** The value the dispatcher returns for a test point and a component. *)
Definition component_distance (t : tp_row) (c : component_row) : float :=
  _dist_signed_point_to_rect (tp_x t, tp_y t) (min_x c, min_y c) (max_x c, max_y c)
  - tp_width t / 2.

(** The records one pair contributes. *)
Definition overlap_of (layer_name : string) (t : tp_row) (c : component_row)
    : list overlap :=
  if (testpoint_id t =? component_id c)%string then []
  else if component_distance t c <? 0
  then [mk_overlap (testpoint_id t) (component_id c) layer_name
                   (component_distance t c)]
  else [].

Definition layer_overlaps (layer_name : string)
    (tps : list tp_row) (components : list component_row) : list overlap :=
  flat_map (fun t => flat_map (overlap_of layer_name t) components) tps.

Definition tp_on (name : string) (tp_df : list tp_row) : list tp_row :=
  select_layer (fun r => tp_standard_layer (tp_layer r)) name tp_df.

Definition component_on (name : string) (component_df : list component_row)
    : list component_row :=
  select_layer (fun r => component_standard_layer (layer r)) name component_df.

Definition overlaps (tp_df : list tp_row) (component_df : list component_row)
    : list overlap :=
  layer_overlaps "TOP" (tp_on "TOP" tp_df) (component_on "TOP" component_df)
  ++ layer_overlaps "BOTTOM" (tp_on "BOTTOM" tp_df)
                    (component_on "BOTTOM" component_df).

End Overlaps_37_4.

(** ** The order of the join results

    The row order the specification asks of a join, on the key (net name,
    left identifier, right identifier) of a row: first the group of the net
    name, digit-leading names before the others; then the net name; then
    the left identifier; then the right identifier.  Cells are compared as
    the columns are, strings by code point and a missing value last. *)

Module JoinOrder.
Import Pandas.

Definition key : Type := (option string * option string * option string)%type.

Definition net_of (k : key) : option string := fst (fst k).
Definition left_of (k : key) : option string := snd (fst k).
Definition right_of (k : key) : option string := snd k.

Definition cell_lt (a b : option string) : Prop := compare_na a b = Lt.

Section Order.
Variable re_match_digit : string -> bool.

Definition group (net : option string) : nat :=
  if re_match_digit (Crit_29_3.str net) then 0 else 1.

Definition precedes (a b : key) : Prop :=
  group (net_of a) < group (net_of b) \/
  (group (net_of a) = group (net_of b) /\
   (cell_lt (net_of a) (net_of b) \/
    (net_of a = net_of b /\
     (cell_lt (left_of a) (left_of b) \/
      (left_of a = left_of b /\ cell_lt (right_of a) (right_of b)))))).

End Order.

Definition key_29 (r : Crit_29_3.match_row) : key :=
  (Crit_29_3.m_net_name r, Crit_29_3.m_testpoint_id r, Crit_29_3.m_pin_id r).

Definition key_32 (r : Criteria_32_3.match_row) : key :=
  (Some (Criteria_32_3.m_net_name r), Some (Criteria_32_3.m_testpoint_id r),
   Some (Criteria_32_3.m_component_id r)).

(** What a join relies on from the interpreter: iterating over a set
    visits the members of the set, in some order. *)
Definition set_iter_contract (set_iter : forall A : Type, list A -> list A) : Prop :=
  forall (A : Type) (l : list A) (x : A), In x (set_iter A l) <-> In x l.

End JoinOrder.

(** ** The rows a join is to hold, and the two joins side by side *)

Module JoinRows.

(** The label crit_29_3 gives a row: the two identifiers around [" - "]
    when both are present, nothing otherwise. *)
Definition label_29 (left_id right_id : option string) : option string :=
  match left_id, right_id with
  | Some a, Some b => Some (a ++ " - " ++ b)%string
  | _, _ => None
  end.

(** [r] pairs a test point and a pin of the tables on a net name they
    both carry. *)
Definition joined_29 (df_tp : list Crit_29_3.tp_net_row)
    (df_pin : list Crit_29_3.pin_net_row) (r : Crit_29_3.match_row) : Prop :=
  exists n t p,
    In t df_tp /\ In p df_pin /\
    Crit_29_3.tp_net_name t = Some n /\ Crit_29_3.pin_net_name p = Some n /\
    r = Crit_29_3.mk_match_row (Crit_29_3.tp_testpoint_id t) (Crit_29_3.pin_pin_id p)
          (Some n)
          (label_29 (Crit_29_3.tp_testpoint_id t) (Crit_29_3.pin_pin_id p)).

Definition joined_32 (tp_df : list Criteria_32_3.tp_net_row)
    (connector_df : list Criteria_32_3.connector_net_row)
    (r : Criteria_32_3.match_row) : Prop :=
  exists n t c,
    In t tp_df /\ In c connector_df /\
    Criteria_32_3.tp_net_name t = Some n /\
    Criteria_32_3.connector_net_name c = Some n /\
    r = Criteria_32_3.mk_match_row (Criteria_32_3.tp_testpoint_id t)
          (Criteria_32_3.connector_id c) n
          (Criteria_32_3.tp_testpoint_id t ++ " - " ++ Criteria_32_3.connector_id c)%string.

(** The tables and rows of criteria_32_3 as tables and rows of crit_29_3,
    every identifier being present. *)
Definition as_tp_29 (t : Criteria_32_3.tp_net_row) : Crit_29_3.tp_net_row :=
  Crit_29_3.mk_tp_net_row (Some (Criteria_32_3.tp_testpoint_id t))
                          (Criteria_32_3.tp_net_name t).

Definition as_pin_29 (c : Criteria_32_3.connector_net_row) : Crit_29_3.pin_net_row :=
  Crit_29_3.mk_pin_net_row (Some (Criteria_32_3.connector_id c))
                           (Criteria_32_3.connector_net_name c).

Definition as_row_29 (r : Criteria_32_3.match_row) : Crit_29_3.match_row :=
  Crit_29_3.mk_match_row (Some (Criteria_32_3.m_testpoint_id r))
                         (Some (Criteria_32_3.m_component_id r))
                         (Some (Criteria_32_3.m_net_name r))
                         (Some (Criteria_32_3.m_matching_pairs r)).

End JoinRows.

(** ** The script block of legacy_files/criteria_35_4.py *)

Module Legacy_main.
Import Py Legacy_35_4.

(** How a run of the script ends: with the filtered frame it prints and
    the count of the records it filtered out, or with an exception that
    nothing catches. *)
Inductive run : Type :=
| Report (result_df : DataFrame overlap) (filtered_count : nat)
| KeyError (column : string)
| Uncaught (e : exn).

(** [result_df[result_df['testpoint_id'] != result_df['pad_id']]] *)
Definition drop_self_pairs (records : list overlap) : list overlap :=
  filter (fun r => negb (ov_testpoint_id r =? ov_pad_id r)%string) records.

(** The block after [result_df = judge_tp_pad_pin_positions()], for the
    outcome of that call. *)
Definition main (outcome : result (DataFrame overlap)) : run :=
  match outcome with
  | Raise e => Uncaught e
  | Ret result_df =>
    let original_count := List.length (rows result_df) in
    if negb (existsb (String.eqb "testpoint_id") (columns result_df))
    then KeyError "testpoint_id"
    else
      let filtered := drop_self_pairs (rows result_df) in
      Report (mkDataFrame (columns result_df) filtered)
             (original_count - List.length filtered)
  end.

End Legacy_main.

(** ** Rows with defined geometry, and the rows of an outcome *)

Module Defined.
Local Open Scope float_scope.

(** The rows of the frame a call returned; none when it raised. *)
Definition frame_rows (R : Type) (outcome : Py.result (DataFrame R)) : list R :=
  match outcome with
  | Py.Ret df => rows df
  | Py.Raise _ => []
  end.

(** The numeric fields a matcher reads from a row are all numbers. *)
Definition defined_tp (t : tp_row) : bool :=
  negb (is_nan (tp_x t)) && negb (is_nan (tp_y t)) && negb (is_nan (tp_width t)).

Definition defined_pad (p : pad_row) : bool :=
  negb (is_nan (pad_x p)) && negb (is_nan (pad_y p)) && negb (is_nan (pad_width p))
  && ((PAD_SHAPE_NAME p =? "CIRCLE")%string || negb (is_nan (pad_height p))).

Definition defined_component (c : Criteria_37_4.component_row) : bool :=
  negb (is_nan (Criteria_37_4.min_x c)) && negb (is_nan (Criteria_37_4.min_y c))
  && negb (is_nan (Criteria_37_4.max_x c)) && negb (is_nan (Criteria_37_4.max_y c)).

End Defined.

(** ** Sample rows *)

Module Examples.
Local Open Scope float_scope.

(** A test point [TP1] on the top side, a circle of diameter 2 at the
    origin, and pads placed on it. *)
Definition tp1 : tp_row :=
  mk_tp_row "TP1" None "CIRCLE" 0 0 2 2 "SOLDERMASK_TOP".

Definition own_pad : pad_row :=
  mk_pad_row "TP1" "TP1" None "CIRCLE" 0 0 2 2 "TOP".

Definition line_pad : pad_row :=
  mk_pad_row "J1_1" "J1" None "FIG_SHAPE SHAPE1_5X2_4" (-1) 0 1 0 "TOP".

Definition touching_pad : pad_row :=
  mk_pad_row "U1_1" "U1" None "CIRCLE" 2 0 2 2 "TOP".

Definition inner_pad : pad_row :=
  mk_pad_row "U2_1" "U2" None "RECT" 0 0 2 2 "TOP".

Definition inner_component : Criteria_37_4.component_row :=
  Criteria_37_4.mk_component_row "U2" "RECTANGLE" (-1) (-1) 1 1 "PLACE_BOUND_TOP".

(** A pad whose pad and component identifiers agree. *)
Definition plain_pad : pad_row :=
  mk_pad_row "U3" "U3" None "RECT" 0 0 2 2 "TOP".

(** A second test point, on the bottom side, with the geometry of [TP1]. *)
Definition tp2 : tp_row :=
  mk_tp_row "TP2" None "CIRCLE" 0 0 2 2 "SOLDERMASK_BOTTOM".

(** Rows for the joins: test points [A] and [B], pins [X] and [Y] on the
    net [N1], and a pair on the digit-leading net [3V3]. *)
Definition iter_in_order : forall A : Type, list A -> list A := fun _ l => l.

Definition join_tp_29 : list Crit_29_3.tp_net_row :=
  [Crit_29_3.mk_tp_net_row (Some "A") (Some "N1");
   Crit_29_3.mk_tp_net_row (Some "B") (Some "N2");
   Crit_29_3.mk_tp_net_row (Some "C") (Some "3V3")]%string.

Definition join_pin_29 : list Crit_29_3.pin_net_row :=
  [Crit_29_3.mk_pin_net_row (Some "X") (Some "N1");
   Crit_29_3.mk_pin_net_row (Some "Y") (Some "N1");
   Crit_29_3.mk_pin_net_row (Some "Z") (Some "3V3");
   Crit_29_3.mk_pin_net_row (Some "W") None]%string.

Definition join_tp_32 : list Criteria_32_3.tp_net_row :=
  [Criteria_32_3.mk_tp_net_row "A" (Some "N1");
   Criteria_32_3.mk_tp_net_row "B" (Some "N2");
   Criteria_32_3.mk_tp_net_row "C" (Some "3V3")]%string.

Definition join_connector_32 : list Criteria_32_3.connector_net_row :=
  [Criteria_32_3.mk_connector_net_row "X" (Some "N1");
   Criteria_32_3.mk_connector_net_row "Y" (Some "N1");
   Criteria_32_3.mk_connector_net_row "Z" (Some "3V3");
   Criteria_32_3.mk_connector_net_row "W" None]%string.

(** Sets iterated in the reverse of list order, and a pin without
    identifier on the net [N1]. *)
Definition iter_reversed : forall A : Type, list A -> list A := fun _ l => rev l.

Definition join_pin_29_missing : list Crit_29_3.pin_net_row :=
  [Crit_29_3.mk_pin_net_row None (Some "N1");
   Crit_29_3.mk_pin_net_row (Some "X") (Some "N1")]%string.

(** A power operator for the examples: the square is the product, rounded
    once, and a finite float whose square is out of range raises
    [OverflowError], as the interpreter does. *)
Definition square_pow : Py.power :=
  fun x =>
    if is_infinity (x * x) && negb (is_infinity x) then Py.Raise Py.OverflowError
    else Py.Ret (x * x).

Definition own_component : Criteria_37_4.component_row :=
  Criteria_37_4.mk_component_row "TP1" "RECTANGLE" (-1) (-1) 1 1 "PLACE_BOUND_TOP".

End Examples.

(** * Properties *)

(** ** Facts on binary64 arithmetic *)

Module FloatFacts.
Local Open Scope float_scope.

Lemma is_nan_true (x : float) : is_nan x = true -> x = nan.
Proof.
  unfold is_nan. rewrite FloatAxioms.eqb_spec. intros H.
  apply Prim2SF_inj. change (Prim2SF nan) with S754_nan.
  destruct (Prim2SF x) as [s| s| |s m e]; try reflexivity; exfalso.
  - destruct s; discriminate H.
  - destruct s; discriminate H.
  - unfold SFeqb, SFcompare in H. destruct s.
    + rewrite Z.compare_refl, Pos.compare_cont_refl in H. discriminate H.
    + rewrite Z.compare_refl, Pos.compare_cont_refl in H. discriminate H.
Qed.

Lemma leb_zero_not_nan (x : float) : (x <=? 0) = true -> is_nan x = false.
Proof.
  intros H. destruct (is_nan x) eqn:E; [| reflexivity].
  apply is_nan_true in E. subst x. discriminate H.
Qed.

(** A float that is neither below nor above zero, nor zero, is NaN. *)
Lemma not_leb_not_gt_nan (x : float) :
  (x <=? 0) = false -> (0 <? x) = false -> x = nan.
Proof.
  rewrite leb_spec, ltb_spec. change (Prim2SF 0) with (S754_zero false).
  intros H1 H2. apply Prim2SF_inj. change (Prim2SF nan) with S754_nan.
  destruct (Prim2SF x) as [s| s| |s m e]; try reflexivity; exfalso.
  - discriminate H1.
  - destruct s; [discriminate H1 | discriminate H2].
  - destruct s; [discriminate H1 | discriminate H2].
Qed.

(** Strictly negative excludes zero and positive. *)
Lemma ltb_zero_not_geb (x : float) : (x <? 0) = true -> (0 <=? x) = false.
Proof.
  rewrite leb_spec, ltb_spec. change (Prim2SF 0) with (S754_zero false).
  destruct (Prim2SF x) as [s| s| |s m e]; try discriminate.
  - destruct s; [reflexivity | discriminate].
  - destruct s; [reflexivity | discriminate].
Qed.

Lemma add_nan_l (y : float) : nan + y = nan.
Proof. apply Prim2SF_inj. rewrite add_spec. reflexivity. Qed.

Lemma add_nan_r (x : float) : x + nan = nan.
Proof.
  apply Prim2SF_inj. rewrite add_spec. change (Prim2SF nan) with S754_nan.
  destruct (Prim2SF x); reflexivity.
Qed.

Lemma SFadd_comm (x y : spec_float) : SF64add x y = SF64add y x.
Proof.
  destruct x as [sx| sx| |sx mx ex], y as [sy| sy| |sy my ey];
    try reflexivity; try (destruct sx, sy; reflexivity).
  unfold SF64add, SFadd. rewrite (Z.min_comm ey ex). f_equal. apply Z.add_comm.
Qed.

Lemma add_comm (x y : float) : x + y = y + x.
Proof. apply Prim2SF_inj. rewrite !add_spec. apply SFadd_comm. Qed.

(** Rounding commutes with the sign. *)
Lemma binary_round_aux_opp (m e : Z) (l : location) :
  binary_round_aux prec emax true m e l =
  SFopp (binary_round_aux prec emax false m e l).
Proof.
  unfold binary_round_aux.
  destruct (shr_fexp prec emax m e l) as [mrs' e'].
  destruct (shr_fexp prec emax _ e' loc_Exact) as [mrs'' e''].
  destruct (shr_m mrs''); try reflexivity.
  destruct (e'' <=? emax - prec)%Z; reflexivity.
Qed.

Lemma binary_round_opp (m : positive) (e : Z) :
  binary_round prec emax true m e = SFopp (binary_round prec emax false m e).
Proof.
  unfold binary_round. destruct (shl_align m e _) as [mz ez].
  apply binary_round_aux_opp.
Qed.

(** The square of a float does not see its sign. *)
Lemma SFmul_opp_opp (z : spec_float) : SF64mul (SFopp z) (SFopp z) = SF64mul z z.
Proof. destruct z as [s| s| |s m e]; try reflexivity; destruct s; reflexivity. Qed.

Lemma SFopp_involutive (z : spec_float) : SFopp (SFopp z) = z.
Proof. destruct z as [s| s| |s m e]; try reflexivity; destruct s; reflexivity. Qed.

Lemma binary_normalize_opp (m e : Z) :
  SF64mul (binary_normalize prec emax (- m) e false)
          (binary_normalize prec emax (- m) e false) =
  SF64mul (binary_normalize prec emax m e false)
          (binary_normalize prec emax m e false).
Proof.
  destruct m as [|p|p]; simpl; try reflexivity.
  - rewrite binary_round_opp. apply SFmul_opp_opp.
  - rewrite binary_round_opp. symmetry. apply SFmul_opp_opp.
Qed.

Lemma SFsub_square_comm (x y : spec_float) :
  SF64mul (SF64sub x y) (SF64sub x y) = SF64mul (SF64sub y x) (SF64sub y x).
Proof.
  destruct x as [sx| sx| |sx mx ex], y as [sy| sy| |sy my ey];
    try reflexivity; try (destruct sx, sy; reflexivity).
  unfold SF64sub, SFsub. rewrite (Z.min_comm ey ex).
  rewrite <- binary_normalize_opp. rewrite Z.opp_sub_distr, Z.add_comm.
  reflexivity.
Qed.

Lemma sub_square_comm (x y : float) : (x - y) * (x - y) = (y - x) * (y - x).
Proof. apply Prim2SF_inj. rewrite !mul_spec, !sub_spec. apply SFsub_square_comm. Qed.

End FloatFacts.

Section DistanceFormulas.
Local Open Scope float_scope.




Lemma gtb_zero_not_leb (x : float) : (0 <? x) = true -> (x <=? 0) = false.
Proof.
  rewrite leb_spec, ltb_spec. change (Prim2SF 0) with (S754_zero false).
  destruct (Prim2SF x) as [s| s| |s m e]; try discriminate.
  - destruct s; [discriminate | reflexivity].
  - destruct s; [discriminate | reflexivity].
Qed.

(** C5 (amended).  On two rectangles given by centres and full sizes, with
    the per-axis gaps [|delta centre| - (sum of half-extents)]: the
    dispatcher returns their maximum when both are at most zero, and the
    positive gap when one is positive and the other at most zero.  When
    both are positive it takes the two squares [gap ** 2]: it returns the
    square root of their sum when the interpreter returns both, and raises
    what the power raised when a square is out of range. *)
Theorem calculate_distance_rect_rect :
  forall (float_pow2 : Py.power)
         (c1 : Np.point) (w1 h1 : float) (c2 : Np.point) (w2 h2 : float),
    let gap_x := abs (fst c1 - fst c2) - (w1 / 2 + w2 / 2) in
    let gap_y := abs (snd c1 - snd c2) - (h1 / 2 + h2 / 2) in
    let distance :=
      Criteria_35_4._calculate_distance float_pow2
        "RECT" (Tuple_c_w_h c1 w1 h1) "RECT" (Tuple_c_w_h c2 w2 h2) in
    ((gap_x <=? 0) = true -> (gap_y <=? 0) = true ->
     distance = Py.Ret (Py.max gap_x gap_y))
    /\ ((0 <? gap_x) = true -> (gap_y <=? 0) = true -> distance = Py.Ret gap_x)
    /\ ((gap_x <=? 0) = true -> (0 <? gap_y) = true -> distance = Py.Ret gap_y)
    /\ ((0 <? gap_x) = true -> (0 <? gap_y) = true ->
        (forall sq_x sq_y,
           float_pow2 gap_x = Py.Ret sq_x -> float_pow2 gap_y = Py.Ret sq_y ->
           distance = Py.Ret (sqrt (sq_x + sq_y)))
        /\ (forall e, float_pow2 gap_x = Py.Raise e -> distance = Py.Raise e)
        /\ (forall sq_x e,
              float_pow2 gap_x = Py.Ret sq_x -> float_pow2 gap_y = Py.Raise e ->
              distance = Py.Raise e)).
Proof.
  intros float_pow2 c1 w1 h1 c2 w2 h2 gap_x gap_y distance.
  unfold distance, Criteria_35_4._calculate_distance.
  cbn [String.eqb Ascii.eqb Bool.eqb]. cbv zeta.
  fold gap_x gap_y.
  split; [| split; [| split]].
  - intros Hx Hy. now rewrite Hx, Hy.
  - intros Gx Hy. rewrite Gx, Hy.
    rewrite (gtb_zero_not_leb Gx). reflexivity.
  - intros Hx Gy. rewrite Hx, Gy.
    rewrite (gtb_zero_not_leb Gy). cbn [andb].
    destruct (0 <? gap_x); reflexivity.
  - intros Gx Gy.
    rewrite (gtb_zero_not_leb Gx), (gtb_zero_not_leb Gy).
    cbn [andb]. rewrite Gx. cbn [andb].
    split; [| split].
    + intros sq_x sq_y Ex Ey. now rewrite Ex, Ey.
    + intros e Ex. now rewrite Ex.
    + intros sq_x e Ex Ey. now rewrite Ex, Ey.
Qed.

(** The theorem applied to the squares of side 2 centred at (0, 0) and at
    (5, 6), whose gaps are 3 and 4, with squares taken as products. *)
Lemma calculate_distance_rect_rect_witness :
  (0 <? abs (0 - 5) - (2 / 2 + 2 / 2)) = true /\
  (0 <? abs (0 - 6) - (2 / 2 + 2 / 2)) = true /\
  Examples.square_pow (abs (0 - 5) - (2 / 2 + 2 / 2)) = Py.Ret 9 /\
  Examples.square_pow (abs (0 - 6) - (2 / 2 + 2 / 2)) = Py.Ret 16 /\
  Criteria_35_4._calculate_distance Examples.square_pow
    "RECT" (Tuple_c_w_h (0, 0) 2 2) "RECT" (Tuple_c_w_h (5, 6) 2 2)
  = Py.Ret (sqrt (9 + 16)).
Proof.
  split; [reflexivity |]. split; [reflexivity |].
  split; [reflexivity |]. split; [reflexivity |].
  destruct (calculate_distance_rect_rect Examples.square_pow
              (0, 0) 2 2 (5, 6) 2 2) as [_ [_ [_ H]]].
  destruct H as [H _]; [reflexivity | reflexivity |].
  apply H; reflexivity.
Defined.

(** Two squares of side 2 whose centres are 2 ^ 700 apart on both axes: the
    gaps are positive numbers, their squares are out of range, and the
    call raises instead of returning a distance. *)
Lemma rect_rect_overflow_raises :
  (0 <? abs (0 - 0x1p+700) - (2 / 2 + 2 / 2)) = true
  /\ Examples.square_pow (abs (0 - 0x1p+700) - (2 / 2 + 2 / 2))
     = Py.Raise Py.OverflowError
  /\ Criteria_35_4._calculate_distance Examples.square_pow
       "RECT" (Tuple_c_w_h (0, 0) 2 2) "RECT" (Tuple_c_w_h (0x1p+700, 0x1p+700) 2 2)
     = Py.Raise Py.OverflowError
  /\ (forall float_pow2 : Py.power,
        float_pow2 (abs (0 - 0x1p+700) - (2 / 2 + 2 / 2))
        = Py.Raise Py.OverflowError ->
        Criteria_35_4._calculate_distance float_pow2
          "RECT" (Tuple_c_w_h (0, 0) 2 2)
          "RECT" (Tuple_c_w_h (0x1p+700, 0x1p+700) 2 2)
        = Py.Raise Py.OverflowError).
Proof.
  split; [reflexivity |]. split; [reflexivity |]. split; [reflexivity |].
  intros float_pow2 H.
  unfold Criteria_35_4._calculate_distance.
  cbn [String.eqb Ascii.eqb Bool.eqb fst snd]. cbv zeta.
  change (abs (0 - 0x1p+700) - (2 / 2 + 2 / 2) <=? 0) with false.
  change (0 <? abs (0 - 0x1p+700) - (2 / 2 + 2 / 2)) with true.
  cbn [andb]. now rewrite H.
Qed.

(** C8.  On two circles the dispatcher returns the Euclidean norm of the
    difference of the centres minus the sum of the radii, and exchanging
    the two circles does not change the value. *)
Theorem calculate_distance_circle_circle :
  forall (float_pow2 : Py.power)
         (center_A : Np.point) (r_A : float) (center_B : Np.point) (r_B : float),
    Criteria_35_4._calculate_distance float_pow2
      "CIRCLE" (Tuple_c_r center_A r_A) "CIRCLE" (Tuple_c_r center_B r_B)
    = Py.Ret (Np.norm (Np.sub center_A center_B) - (r_A + r_B))%float
    /\ Criteria_35_4._calculate_distance float_pow2
         "CIRCLE" (Tuple_c_r center_A r_A) "CIRCLE" (Tuple_c_r center_B r_B)
       = Criteria_35_4._calculate_distance float_pow2
           "CIRCLE" (Tuple_c_r center_B r_B) "CIRCLE" (Tuple_c_r center_A r_A).
Proof.
  intros float_pow2 [ax ay] rA [bx by_] rB. split; [reflexivity |].
  unfold Criteria_35_4._calculate_distance.
  cbn [String.eqb Ascii.eqb Bool.eqb].
  unfold Np.norm, Np.dot, Np.sub. cbn [fst snd].
  rewrite (FloatFacts.sub_square_comm ax bx), (FloatFacts.sub_square_comm ay by_).
  rewrite (FloatFacts.add_comm rA rB). reflexivity.
Qed.

End DistanceFormulas.

(** ** The loops of the released matchers *)

Lemma flat_map_nil_inner (A B : Type) (l : list A) :
  flat_map (fun _ : A => @nil B) l = [].
Proof. induction l as [| a l IH]; [reflexivity | exact IH]. Qed.

Lemma is_empty_true (A : Type) (l : list A) : is_empty l = true -> l = [].
Proof. destruct l; [reflexivity | discriminate]. Qed.

Section Loops_35_4.
Import Py Criteria_35_4 Overlaps_35_4.
Local Open Scope float_scope.

Variable float_pow2 : Py.power.

Lemma calculate_distance_pad (t : tp_row) (p : pad_row) :
  _calculate_distance float_pow2 "CIRCLE" (tp_circle t)
                      (fst (pad_shape_of p)) (snd (pad_shape_of p))
  = Ret (pad_distance t p).
Proof.
  unfold pad_shape_of, pad_distance, tp_circle. cbv zeta.
  destruct (PAD_SHAPE_NAME p =? "CIRCLE")%string; [reflexivity |].
  destruct (PAD_SHAPE_NAME p =? "FIG_SHAPE SHAPE1_5X2_4")%string; reflexivity.
Qed.

Lemma pad_loop_eq (layer_name : string) (t : tp_row) (pads : list pad_row) :
  forall results,
    pad_loop float_pow2 layer_name t "CIRCLE" (tp_circle t) pads results
    = Ret (results ++ flat_map (overlap_of layer_name t) pads).
Proof.
  induction pads as [| p pads IH]; intros results; cbn [pad_loop flat_map].
  - now rewrite app_nil_r.
  - pose proof (calculate_distance_pad t p) as E.
    destruct (pad_shape_of p) as [pad_shape pad_params]. cbn [fst snd] in E.
    rewrite E. cbn [bind]. rewrite IH. unfold overlap_of at 2.
    destruct (pad_distance t p <? 0).
    + now rewrite <- app_assoc.
    + reflexivity.
Qed.

Lemma tp_loop_eq (layer_name : string) (tps : list tp_row) (pads : list pad_row) :
  forall results,
    tp_loop float_pow2 layer_name tps pads results
    = Ret (results ++ layer_overlaps layer_name tps pads).
Proof.
  unfold layer_overlaps.
  induction tps as [| t tps IH]; intros results; cbn [tp_loop flat_map].
  - now rewrite app_nil_r.
  - fold (tp_circle t). rewrite pad_loop_eq. cbn [bind]. rewrite IH.
    now rewrite <- app_assoc.
Qed.

Lemma layer_overlaps_empty (layer_name : string) (tps : list tp_row)
    (pads : list pad_row) :
  is_empty tps || is_empty pads = true -> layer_overlaps layer_name tps pads = [].
Proof.
  intros H. apply orb_true_iff in H. destruct H as [H | H];
    apply is_empty_true in H; subst; unfold layer_overlaps.
  - reflexivity.
  - cbn [flat_map]. apply flat_map_nil_inner.
Qed.

Lemma layer_loop_eq (layers : list (string * list tp_row * list pad_row)) :
  forall results,
    layer_loop float_pow2 layers results
    = Ret (results ++ flat_map (fun l => layer_overlaps (fst (fst l)) (snd (fst l)) (snd l))
                               layers).
Proof.
  induction layers as [| [[layer_name tps] pads] layers IH]; intros results;
    cbn [layer_loop flat_map fst snd].
  - now rewrite app_nil_r.
  - destruct (is_empty tps || is_empty pads) eqn:E.
    + rewrite (layer_overlaps_empty layer_name tps pads E). apply IH.
    + rewrite tp_loop_eq. cbn [bind]. rewrite IH. now rewrite <- app_assoc.
Qed.

(** On tables the data sources delivered, the matcher returns the frame
    of the nested comprehension. *)
Lemma judge_tp_pad_pin_positions_eq (tp_df : list tp_row) (pad_df : list pad_row) :
  judge_tp_pad_pin_positions float_pow2 (Ret tp_df) (Ret pad_df)
  = Ret (mkDataFrame out_columns (overlaps tp_df pad_df)).
Proof.
  unfold judge_tp_pad_pin_positions. cbn [bind].
  destruct (is_empty tp_df || is_empty pad_df) eqn:E.
  - apply orb_true_iff in E. destruct E as [E | E];
      apply is_empty_true in E; subst; unfold overlaps, tp_on, pad_on.
    + reflexivity.
    + cbn [filter]. rewrite !layer_overlaps_empty; [reflexivity | |];
        apply orb_true_r.
  - rewrite layer_loop_eq. cbn [bind flat_map fst snd app].
    rewrite app_nil_r. fold (tp_on "SOLDERMASK_TOP" tp_df).
    fold (tp_on "SOLDERMASK_BOTTOM" tp_df). fold (pad_on "TOP" pad_df).
    fold (pad_on "BOTTOM" pad_df). fold (overlaps tp_df pad_df).
    destruct (overlaps tp_df pad_df); reflexivity.
Qed.

End Loops_35_4.

Section Loops_37_4.
Import Py Criteria_37_4 Overlaps_37_4.
Local Open Scope float_scope.

Lemma component_loop_eq (layer_name : string) (t : tp_row)
    (components : list component_row) :
  forall results,
    component_loop layer_name t "CIRCLE"
                   (Tuple_c_r (tp_x t, tp_y t) (tp_width t / 2)) components results
    = Ret (results ++ flat_map (overlap_of layer_name t) components).
Proof.
  induction components as [| c components IH]; intros results;
    cbn [component_loop flat_map].
  - now rewrite app_nil_r.
  - unfold overlap_of at 1.
    destruct (testpoint_id t =? component_id c)%string; [apply IH |].
    assert (E : _calculate_distance "CIRCLE"
                  (Tuple_c_r (tp_x t, tp_y t) (tp_width t / 2))
                  (if (shape_name c =? "LINE")%string then "LINE" else "OTHER")%string
                  (Tuple_a_b (min_x c, min_y c) (max_x c, max_y c))
                = Ret (component_distance t c)).
    { destruct (shape_name c =? "LINE")%string; reflexivity. }
    cbv zeta. rewrite E. cbn [bind]. rewrite IH.
    destruct (component_distance t c <? 0).
    + now rewrite <- app_assoc.
    + reflexivity.
Qed.

Lemma tp_loop_37_eq (layer_name : string) (tps : list tp_row)
    (components : list component_row) :
  forall results,
    tp_loop layer_name tps components results
    = Ret (results ++ layer_overlaps layer_name tps components).
Proof.
  unfold layer_overlaps.
  induction tps as [| t tps IH]; intros results; cbn [tp_loop flat_map].
  - now rewrite app_nil_r.
  - rewrite component_loop_eq. cbn [bind]. rewrite IH. now rewrite <- app_assoc.
Qed.

Lemma layer_overlaps_37_empty (layer_name : string) (tps : list tp_row)
    (components : list component_row) :
  is_empty tps || is_empty components = true ->
  layer_overlaps layer_name tps components = [].
Proof.
  intros H. apply orb_true_iff in H. destruct H as [H | H];
    apply is_empty_true in H; subst; unfold layer_overlaps.
  - reflexivity.
  - cbn [flat_map]. apply flat_map_nil_inner.
Qed.

Lemma layer_loop_37_eq
    (layers : list (string * list tp_row * list component_row)) :
  forall results,
    layer_loop layers results
    = Ret (results ++ flat_map (fun l => layer_overlaps (fst (fst l)) (snd (fst l)) (snd l))
                               layers).
Proof.
  induction layers as [| [[layer_name tps] components] layers IH]; intros results;
    cbn [layer_loop flat_map fst snd].
  - now rewrite app_nil_r.
  - destruct (is_empty tps || is_empty components) eqn:E.
    + rewrite (layer_overlaps_37_empty layer_name tps components E). apply IH.
    + rewrite tp_loop_37_eq. cbn [bind]. rewrite IH. now rewrite <- app_assoc.
Qed.

Lemma judge_tp_component_coverage_eq (tp_df : list tp_row)
    (component_df : list component_row) :
  judge_tp_component_coverage (Ret tp_df) (Ret component_df)
  = Ret (mkDataFrame out_columns (overlaps tp_df component_df)).
Proof.
  unfold judge_tp_component_coverage. cbn [bind].
  destruct (is_empty tp_df || is_empty component_df) eqn:E.
  - apply orb_true_iff in E. destruct E as [E | E];
      apply is_empty_true in E; subst; unfold overlaps, tp_on, component_on.
    + reflexivity.
    + unfold select_layer. cbn [filter].
      rewrite !layer_overlaps_37_empty; [reflexivity | |]; apply orb_true_r.
  - rewrite layer_loop_37_eq. cbn [bind flat_map fst snd app].
    rewrite app_nil_r. fold (tp_on "TOP" tp_df). fold (tp_on "BOTTOM" tp_df).
    fold (component_on "TOP" component_df).
    fold (component_on "BOTTOM" component_df).
    fold (overlaps tp_df component_df).
    destruct (overlaps tp_df component_df); reflexivity.
Qed.

End Loops_37_4.

(** ** Properties of the released matchers *)

Section Matchers.
Import Py Examples.
Local Open Scope float_scope.

(** The component matcher never pairs a test point with a component of
    the same identifier. *)
Lemma component_matcher_skips_self :
  forall tp_df component_df df r,
    Criteria_37_4.judge_tp_component_coverage (Ret tp_df) (Ret component_df) = Ret df ->
    In r (rows df) ->
    Criteria_37_4.ov_testpoint_id r <> Criteria_37_4.ov_component_id r.
Proof.
  intros tp_df component_df df r Hdf H.
  rewrite judge_tp_component_coverage_eq in Hdf. injection Hdf as <-.
  cbn [rows] in H. unfold Overlaps_37_4.overlaps in H.
  apply in_app_or in H.
  assert (G : forall layer_name tps cs,
             In r (Overlaps_37_4.layer_overlaps layer_name tps cs) ->
             Criteria_37_4.ov_testpoint_id r <> Criteria_37_4.ov_component_id r).
  { intros layer_name tps cs Hr. unfold Overlaps_37_4.layer_overlaps in Hr.
    apply in_flat_map in Hr. destruct Hr as [t [_ Hr]].
    apply in_flat_map in Hr. destruct Hr as [c [_ Hr]].
    unfold Overlaps_37_4.overlap_of in Hr.
    destruct (String.eqb_spec (testpoint_id t) (Criteria_37_4.component_id c))
      as [E | E]; [destruct Hr |].
    destruct (Overlaps_37_4.component_distance t c <? 0); [| destruct Hr].
    destruct Hr as [Hr | []]. subst r. exact E. }
  destruct H as [H | H]; eapply G; exact H.
Qed.

(** C3.  The pad matcher has no test for equal identifiers: for the test
    point [TP1] and a pad whose identifier is also [TP1], lying on it on
    the same side, it returns the record pairing [TP1] with [TP1].  The
    component matcher, given a component [TP1] around the same test point,
    skips the pair and returns no record. *)
Theorem pad_matcher_reports_self_pair :
  forall float_pow2 : Py.power,
    Criteria_35_4.judge_tp_pad_pin_positions float_pow2 (Ret [tp1]) (Ret [own_pad])
    = Ret (mkDataFrame Criteria_35_4.out_columns
             [Criteria_35_4.mk_overlap "TP1" "TP1" "TOP" (-2)])
    /\ Criteria_37_4.judge_tp_component_coverage (Ret [tp1]) (Ret [own_component])
       = Ret (mkDataFrame Criteria_37_4.out_columns []).
Proof.
  intros float_pow2. split; vm_compute; reflexivity.
Qed.

(** C4.  For a circle against a segment the dispatcher reaches its last
    line and returns infinity, whatever the parameters.  So the test point
    [TP1], whose centre lies on the line pad [J1_1], at point-to-segment
    distance 0 and hence at distance -1 once the radius is taken off, is
    not reported. *)
Theorem calculate_distance_circle_line :
  forall float_pow2 : Py.power,
    (forall c r a b,
       Criteria_35_4._calculate_distance float_pow2 "CIRCLE" (Tuple_c_r c r)
                                         "LINE" (Tuple_a_b a b)
       = Ret infinity)
    /\ Criteria_35_4._dist_point_to_segment (0, 0) (-1, 0) (1, 0) - 1 = -1
    /\ Criteria_35_4.judge_tp_pad_pin_positions float_pow2 (Ret [tp1]) (Ret [line_pad])
       = Ret (mkDataFrame Criteria_35_4.out_columns []).
Proof.
  intros float_pow2. split; [reflexivity |]. split; vm_compute; reflexivity.
Qed.

(** When a data source raises, each matcher returns the frame
    [pd.DataFrame()], which has neither columns nor rows. *)
Lemma source_failure_bare_frame :
  forall (float_pow2 : Py.power) (e : exn) (pad_df : list pad_row)
         (component_df : list Criteria_37_4.component_row),
    Criteria_35_4.judge_tp_pad_pin_positions float_pow2 (Raise e) (Ret pad_df)
    = Ret (mkDataFrame [] [])
    /\ Criteria_37_4.judge_tp_component_coverage (Raise e) (Ret component_df)
       = Ret (mkDataFrame [] []).
Proof. intros float_pow2 e pad_df component_df. split; reflexivity. Qed.

(** C10.  When the test-point table or the other table is empty, each
    matcher returns, without raising, the frame with its declared columns
    and no row. *)
Theorem empty_table_empty_result :
  forall (float_pow2 : Py.power) (tp_df : list tp_row) (pad_df : list pad_row)
         (component_df : list Criteria_37_4.component_row),
    (tp_df = [] \/ pad_df = [] ->
     Criteria_35_4.judge_tp_pad_pin_positions float_pow2 (Ret tp_df) (Ret pad_df)
     = Ret (mkDataFrame ["testpoint_id"; "pad_id"; "layer"; "distance"]%string []))
    /\ (tp_df = [] \/ component_df = [] ->
        Criteria_37_4.judge_tp_component_coverage (Ret tp_df) (Ret component_df)
        = Ret (mkDataFrame
                 ["testpoint_id"; "component_id"; "layer"; "distance"]%string [])).
Proof.
  intros float_pow2 tp_df pad_df component_df. split; intros [H | H]; subst.
  - reflexivity.
  - unfold Criteria_35_4.judge_tp_pad_pin_positions. cbn [bind is_empty].
    now rewrite orb_true_r.
  - reflexivity.
  - unfold Criteria_37_4.judge_tp_component_coverage. cbn [bind is_empty].
    now rewrite orb_true_r.
Qed.

(** The theorem applied to a test-point table with one row and empty pad
    and component tables. *)
Lemma empty_table_empty_result_witness :
  Criteria_35_4.judge_tp_pad_pin_positions square_pow (Ret [tp1]) (Ret [])
  = Ret (mkDataFrame ["testpoint_id"; "pad_id"; "layer"; "distance"]%string [])
  /\ Criteria_37_4.judge_tp_component_coverage (Ret [tp1]) (Ret [])
     = Ret (mkDataFrame
              ["testpoint_id"; "component_id"; "layer"; "distance"]%string []).
Proof.
  destruct (empty_table_empty_result square_pow [tp1] [] []) as [H1 H2].
  split; [apply H1 | apply H2]; right; reflexivity.
Defined.

(** Membership in the comprehension of one layer. *)
Lemma in_layer_overlaps_35 (layer_name : string) (tps : list tp_row)
    (pads : list pad_row) (r : Criteria_35_4.overlap) :
  In r (Overlaps_35_4.layer_overlaps layer_name tps pads) <->
  exists t p, In t tps /\ In p pads /\
              (Overlaps_35_4.pad_distance t p <? 0) = true /\
              r = Criteria_35_4.mk_overlap (testpoint_id t) (pad_id p) layer_name
                    (Overlaps_35_4.pad_distance t p).
Proof.
  unfold Overlaps_35_4.layer_overlaps. rewrite in_flat_map. split.
  - intros [t [Ht H]]. apply in_flat_map in H. destruct H as [p [Hp H]].
    unfold Overlaps_35_4.overlap_of in H.
    destruct (Overlaps_35_4.pad_distance t p <? 0) eqn:E; [| destruct H].
    destruct H as [H | []]. exists t, p. auto.
  - intros [t [p [Ht [Hp [E H]]]]]. exists t. split; [exact Ht |].
    apply in_flat_map. exists p. split; [exact Hp |].
    unfold Overlaps_35_4.overlap_of. rewrite E. left. now symmetry.
Qed.

Lemma in_layer_overlaps_37 (layer_name : string) (tps : list tp_row)
    (cs : list Criteria_37_4.component_row) (r : Criteria_37_4.overlap) :
  In r (Overlaps_37_4.layer_overlaps layer_name tps cs) <->
  exists t c, In t tps /\ In c cs /\
              testpoint_id t <> Criteria_37_4.component_id c /\
              (Overlaps_37_4.component_distance t c <? 0) = true /\
              r = Criteria_37_4.mk_overlap (testpoint_id t)
                    (Criteria_37_4.component_id c) layer_name
                    (Overlaps_37_4.component_distance t c).
Proof.
  unfold Overlaps_37_4.layer_overlaps. rewrite in_flat_map. split.
  - intros [t [Ht H]]. apply in_flat_map in H. destruct H as [c [Hc H]].
    unfold Overlaps_37_4.overlap_of in H.
    destruct (String.eqb_spec (testpoint_id t) (Criteria_37_4.component_id c))
      as [N | N]; [destruct H |].
    destruct (Overlaps_37_4.component_distance t c <? 0) eqn:E; [| destruct H].
    destruct H as [H | []]. exists t, c. auto.
  - intros [t [c [Ht [Hc [N [E H]]]]]]. exists t. split; [exact Ht |].
    apply in_flat_map. exists c. split; [exact Hc |].
    unfold Overlaps_37_4.overlap_of.
    destruct (String.eqb_spec (testpoint_id t) (Criteria_37_4.component_id c))
      as [N' | _]; [contradiction |].
    rewrite E. left. now symmetry.
Qed.

Lemma in_select_layer (R : Type) (std : R -> option string) (name : string)
    (df : list R) (x : R) :
  In x (Criteria_37_4.select_layer std name df) <-> In x df /\ std x = Some name.
Proof.
  unfold Criteria_37_4.select_layer. rewrite !filter_In. split.
  - intros [[H _] E]. split; [exact H |].
    destruct (std x) as [l |]; [| discriminate].
    apply String.eqb_eq in E. now subst.
  - intros [H E]. rewrite E. rewrite String.eqb_refl. auto.
Qed.

Lemma filter_filter_implied (A : Type) (f g : A -> bool) (l : list A) :
  (forall x, f x = true -> g x = true) -> filter f (filter g l) = filter f l.
Proof.
  intros H. induction l as [| x l IH]; [reflexivity |].
  cbn [filter]. destruct (g x) eqn:G.
  - cbn [filter]. now rewrite IH.
  - destruct (f x) eqn:F; [| exact IH].
    apply H in F. congruence.
Qed.

Lemma geb_zero_not_ltb (d : float) : (0 <=? d) = true -> (d <? 0) = false.
Proof.
  intros H. destruct (d <? 0) eqn:E; [| reflexivity].
  apply FloatFacts.ltb_zero_not_geb in E. congruence.
Qed.

(** C7.  Every record either matcher returns has a strictly negative
    distance field.  And when the dispatcher returns for a pair a distance
    that is zero or positive, the loop body leaves the result list as it
    was: the pair is not reported. *)
Theorem overlap_records_strictly_negative :
  forall (float_pow2 : Py.power) (tp_df : list tp_row) (pad_df : list pad_row)
         (component_df : list Criteria_37_4.component_row),
    (forall df r,
       Criteria_35_4.judge_tp_pad_pin_positions float_pow2 (Ret tp_df) (Ret pad_df) = Ret df ->
       In r (rows df) -> (Criteria_35_4.ov_distance r <? 0) = true)
    /\ (forall df r,
          Criteria_37_4.judge_tp_component_coverage (Ret tp_df) (Ret component_df)
          = Ret df ->
          In r (rows df) -> (Criteria_37_4.ov_distance r <? 0) = true)
    /\ (forall layer_name t p (d : float) results,
          Criteria_35_4._calculate_distance float_pow2 "CIRCLE" (Overlaps_35_4.tp_circle t)
            (fst (Criteria_35_4.pad_shape_of p)) (snd (Criteria_35_4.pad_shape_of p))
          = Ret d ->
          (0 <=? d) = true ->
          Criteria_35_4.pad_loop float_pow2 layer_name t "CIRCLE" (Overlaps_35_4.tp_circle t)
                                 [p] results
          = Ret results)
    /\ (forall layer_name t c (d : float) results,
          Criteria_37_4._calculate_distance "CIRCLE"
            (Tuple_c_r (tp_x t, tp_y t) (tp_width t / 2))
            (if (Criteria_37_4.shape_name c =? "LINE")%string then "LINE" else "OTHER")
            (Tuple_a_b (Criteria_37_4.min_x c, Criteria_37_4.min_y c)
                       (Criteria_37_4.max_x c, Criteria_37_4.max_y c))
          = Ret d ->
          (0 <=? d) = true ->
          Criteria_37_4.component_loop layer_name t "CIRCLE"
            (Tuple_c_r (tp_x t, tp_y t) (tp_width t / 2)) [c] results
          = Ret results).
Proof.
  intros float_pow2 tp_df pad_df component_df. repeat split.
  - intros df r Hdf H. rewrite judge_tp_pad_pin_positions_eq in Hdf.
    injection Hdf as <-. cbn [rows] in H. unfold Overlaps_35_4.overlaps in H.
    apply in_app_or in H.
    destruct H as [H | H]; apply in_layer_overlaps_35 in H;
      destruct H as [t [p [_ [_ [E ->]]]]]; exact E.
  - intros df r Hdf H. rewrite judge_tp_component_coverage_eq in Hdf.
    injection Hdf as <-. cbn [rows] in H. unfold Overlaps_37_4.overlaps in H.
    apply in_app_or in H.
    destruct H as [H | H]; apply in_layer_overlaps_37 in H;
      destruct H as [t [c [_ [_ [_ [E ->]]]]]]; exact E.
  - intros layer_name t p d results Hd Hpos.
    rewrite calculate_distance_pad in Hd. injection Hd as Hd.
    rewrite pad_loop_eq. cbn [flat_map]. unfold Overlaps_35_4.overlap_of.
    rewrite Hd, (geb_zero_not_ltb Hpos). now rewrite !app_nil_r.
  - intros layer_name t c d results Hd Hpos.
    assert (Hd' : Overlaps_37_4.component_distance t c = d).
    { destruct (Criteria_37_4.shape_name c =? "LINE")%string;
        injection Hd as Hd; exact Hd. }
    rewrite component_loop_eq. cbn [flat_map]. unfold Overlaps_37_4.overlap_of.
    rewrite Hd', (geb_zero_not_ltb Hpos).
    destruct (testpoint_id t =? Criteria_37_4.component_id c)%string;
      now rewrite !app_nil_r.
Qed.

(** The theorem applied to [TP1] with a pad inside it (reported at
    distance -2), a pad touching it (distance 0, not reported), and a
    component around it (reported at distance -2). *)
Lemma overlap_records_strictly_negative_witness :
  (Criteria_35_4.ov_distance (Criteria_35_4.mk_overlap "TP1" "U2_1" "TOP" (-2)) <? 0)
  = true
  /\ (Criteria_37_4.ov_distance (Criteria_37_4.mk_overlap "TP1" "U2" "TOP" (-2)) <? 0)
     = true
  /\ Criteria_35_4.pad_loop square_pow "TOP" tp1 "CIRCLE" (Overlaps_35_4.tp_circle tp1)
                            [touching_pad] []
     = Ret [].
Proof.
  destruct (overlap_records_strictly_negative square_pow
              [tp1] [inner_pad] [inner_component])
    as [H1 [H2 [H3 _]]].
  split; [| split].
  - eapply H1; [vm_compute; reflexivity | left; reflexivity].
  - eapply H2; [vm_compute; reflexivity | left; reflexivity].
  - eapply (H3 "TOP"%string tp1 touching_pad 0); vm_compute; reflexivity.
Defined.

(** C6.  Every record a matcher returns comes from a test-point row and
    an object row whose raw layers both normalize to the record's layer,
    which is TOP or BOTTOM: no record pairs the two sides.  And rows whose
    raw layer does not normalize can be deleted from the tables without
    changing what the matcher returns. *)
Theorem overlap_records_same_layer :
  forall (float_pow2 : Py.power) (tp_df : list tp_row) (pad_df : list pad_row)
         (component_df : list Criteria_37_4.component_row),
    (forall df r,
       Criteria_35_4.judge_tp_pad_pin_positions float_pow2 (Ret tp_df) (Ret pad_df) = Ret df ->
       In r (rows df) ->
       exists t p,
         In t tp_df /\ In p pad_df /\
         testpoint_id t = Criteria_35_4.ov_testpoint_id r /\
         pad_id p = Criteria_35_4.ov_pad_id r /\
         Overlaps_35_4.tp_logical_layer (tp_layer t) = Some (Criteria_35_4.ov_layer r) /\
         Overlaps_35_4.pad_logical_layer (pad_layer p) = Some (Criteria_35_4.ov_layer r) /\
         (Criteria_35_4.ov_layer r = "TOP" \/ Criteria_35_4.ov_layer r = "BOTTOM")%string)
    /\ (forall df r,
          Criteria_37_4.judge_tp_component_coverage (Ret tp_df) (Ret component_df)
          = Ret df ->
          In r (rows df) ->
          exists t c,
            In t tp_df /\ In c component_df /\
            testpoint_id t = Criteria_37_4.ov_testpoint_id r /\
            Criteria_37_4.component_id c = Criteria_37_4.ov_component_id r /\
            Criteria_37_4.tp_standard_layer (tp_layer t)
            = Some (Criteria_37_4.ov_layer r) /\
            Criteria_37_4.component_standard_layer (Criteria_37_4.layer c)
            = Some (Criteria_37_4.ov_layer r) /\
            (Criteria_37_4.ov_layer r = "TOP" \/ Criteria_37_4.ov_layer r = "BOTTOM")%string)
    /\ Criteria_35_4.judge_tp_pad_pin_positions float_pow2
         (Ret (filter (fun t => match Overlaps_35_4.tp_logical_layer (tp_layer t) with
                                | Some _ => true
                                | None => false
                                end) tp_df))
         (Ret (filter (fun p => match Overlaps_35_4.pad_logical_layer (pad_layer p) with
                                | Some _ => true
                                | None => false
                                end) pad_df))
       = Criteria_35_4.judge_tp_pad_pin_positions float_pow2 (Ret tp_df) (Ret pad_df)
    /\ Criteria_37_4.judge_tp_component_coverage
         (Ret (filter (fun t => match Criteria_37_4.tp_standard_layer (tp_layer t) with
                                | Some _ => true
                                | None => false
                                end) tp_df))
         (Ret (filter (fun c => match Criteria_37_4.component_standard_layer
                                        (Criteria_37_4.layer c) with
                                | Some _ => true
                                | None => false
                                end) component_df))
       = Criteria_37_4.judge_tp_component_coverage (Ret tp_df) (Ret component_df).
Proof.
  intros float_pow2 tp_df pad_df component_df. split; [| split; [| split]].
  - intros df r Hdf H. rewrite judge_tp_pad_pin_positions_eq in Hdf.
    injection Hdf as <-. cbn [rows] in H. unfold Overlaps_35_4.overlaps in H.
    apply in_app_or in H.
    destruct H as [H | H]; apply in_layer_overlaps_35 in H;
      destruct H as [t [p [Ht [Hp [_ ->]]]]];
      unfold Overlaps_35_4.tp_on, Overlaps_35_4.pad_on in Ht, Hp;
      apply filter_In in Ht; apply filter_In in Hp;
      destruct Ht as [Ht Et]; destruct Hp as [Hp Ep];
      apply String.eqb_eq in Et; apply String.eqb_eq in Ep;
      exists t, p; cbn [Criteria_35_4.ov_testpoint_id Criteria_35_4.ov_pad_id
                          Criteria_35_4.ov_layer];
      rewrite Et, Ep; repeat split; auto.
  - intros df r Hdf H. rewrite judge_tp_component_coverage_eq in Hdf.
    injection Hdf as <-. cbn [rows] in H. unfold Overlaps_37_4.overlaps in H.
    apply in_app_or in H.
    destruct H as [H | H]; apply in_layer_overlaps_37 in H;
      destruct H as [t [c [Ht [Hc [_ [_ ->]]]]]];
      unfold Overlaps_37_4.tp_on, Overlaps_37_4.component_on in Ht, Hc;
      apply in_select_layer in Ht; apply in_select_layer in Hc;
      destruct Ht as [Ht Et]; destruct Hc as [Hc Ec];
      exists t, c; cbn [Criteria_37_4.ov_testpoint_id Criteria_37_4.ov_component_id
                          Criteria_37_4.ov_layer];
      repeat split; auto.
  - rewrite !judge_tp_pad_pin_positions_eq. do 2 f_equal.
    unfold Overlaps_35_4.overlaps, Overlaps_35_4.tp_on, Overlaps_35_4.pad_on.
    rewrite !(filter_filter_implied (fun r : tp_row => (tp_layer r =? _)%string)),
      !(filter_filter_implied (fun r : pad_row => (pad_layer r =? _)%string));
      [reflexivity | | | |]; intros x E; apply String.eqb_eq in E; now rewrite E.
  - rewrite !judge_tp_component_coverage_eq. do 2 f_equal.
    unfold Overlaps_37_4.overlaps, Overlaps_37_4.tp_on, Overlaps_37_4.component_on,
      Criteria_37_4.select_layer.
    assert (F : forall (R : Type) (f : R -> bool) (l : list R),
               filter f (filter f l) = filter f l)
      by (intros; apply filter_filter_implied; auto).
    rewrite !F. reflexivity.
Qed.

(** The theorem applied to [TP1] with a pad inside it and a component
    around it, all on the top side. *)
Lemma overlap_records_same_layer_witness :
  (exists t p,
     In t [tp1] /\ In p [inner_pad] /\
     testpoint_id t = "TP1"%string /\ pad_id p = "U2_1"%string /\
     Overlaps_35_4.tp_logical_layer (tp_layer t) = Some "TOP"%string /\
     Overlaps_35_4.pad_logical_layer (pad_layer p) = Some "TOP"%string /\
     ("TOP" = "TOP" \/ "TOP" = "BOTTOM")%string)
  /\ (exists t c,
        In t [tp1] /\ In c [inner_component] /\
        testpoint_id t = "TP1"%string /\ Criteria_37_4.component_id c = "U2"%string /\
        Criteria_37_4.tp_standard_layer (tp_layer t) = Some "TOP"%string /\
        Criteria_37_4.component_standard_layer (Criteria_37_4.layer c)
        = Some "TOP"%string /\
        ("TOP" = "TOP" \/ "TOP" = "BOTTOM")%string).
Proof.
  destruct (overlap_records_same_layer square_pow
              [tp1] [inner_pad] [inner_component])
    as [H1 [H2 _]].
  split.
  - apply (H1 (mkDataFrame Criteria_35_4.out_columns
                 [Criteria_35_4.mk_overlap "TP1" "U2_1" "TOP" (-2)])
              (Criteria_35_4.mk_overlap "TP1" "U2_1" "TOP" (-2)));
      [vm_compute; reflexivity | left; reflexivity].
  - apply (H2 (mkDataFrame Criteria_37_4.out_columns
                 [Criteria_37_4.mk_overlap "TP1" "U2" "TOP" (-2)])
              (Criteria_37_4.mk_overlap "TP1" "U2" "TOP" (-2)));
      [vm_compute; reflexivity | left; reflexivity].
Defined.

End Matchers.

(** ** The legacy matcher and its broad phase *)

Section LegacyMatcher.
Import Py Legacy_35_4.
Local Open Scope float_scope.

Variable bounds : geometry -> bbox.
Variable intersects : geometry -> geometry -> bool.
Variable index_intersection : list (nat * bbox) -> bbox -> list nat.

Lemma build_index_spec (pad_shapes : list (geometry * string)) :
  forall (i : nat) (idx : list (nat * bbox)) (j : nat) (b : bbox),
    In (j, b) (build_index bounds i pad_shapes idx) <->
    In (j, b) idx \/
    exists g pid, nth_error pad_shapes (j - i) = Some (g, pid) /\
                  (i <= j)%nat /\ b = bounds g.
Proof.
  induction pad_shapes as [| [g0 pid0] rest IH]; intros i idx j b; cbn [build_index].
  - split; [auto |]. intros [H | [g [pid [H _]]]]; [exact H |].
    destruct (j - i)%nat; discriminate H.
  - rewrite IH, in_app_iff. cbn [In]. split.
    + intros [[H | [H | []]] | [g [pid [H [Hle ->]]]]].
      * left. exact H.
      * injection H as <- <-. right. exists g0, pid0.
        rewrite Nat.sub_diag. auto.
      * right. exists g, pid. replace (j - i)%nat with (S (j - S i)) by lia.
        repeat split; [exact H | lia].
    + intros [H | [g [pid [H [Hle ->]]]]]; [auto |].
      destruct (Nat.eq_dec i j) as [<- | N].
      * rewrite Nat.sub_diag in H. injection H as <- <-. auto.
      * right. exists g, pid. replace (j - i)%nat with (S (j - S i)) in H by lia.
        repeat split; [exact H | lia].
Qed.

Lemma candidate_loop_eq (tp_shape : geometry) (tp_id : string)
    (pad_shapes : list (geometry * string)) (candidate_indices : list nat) :
  forall results,
    candidate_loop intersects tp_shape tp_id pad_shapes candidate_indices results
    = (found <- candidate_pads intersects tp_shape pad_shapes candidate_indices ;;
       Ret (results ++ map (fun pad_id => mk_overlap tp_id pad_id (-1)) found)).
Proof.
  induction candidate_indices as [| i rest IH]; intros results;
    cbn [candidate_loop candidate_pads bind map].
  - now rewrite app_nil_r.
  - destruct (nth_error pad_shapes i) as [[pad_shape pad_id] |]; [| reflexivity].
    rewrite IH.
    destruct (candidate_pads intersects tp_shape pad_shapes rest) as [found | e];
      [| reflexivity].
    cbn [bind]. destruct (intersects tp_shape pad_shape); [| reflexivity].
    cbn [map]. now rewrite <- app_assoc.
Qed.

Lemma legacy_tp_loop_eq (tp_df : list tp_row)
    (pad_shapes : list (geometry * string)) (idx : list (nat * bbox)) :
  forall results,
    tp_loop bounds intersects index_intersection tp_df pad_shapes idx results
    = (found <- legacy_rows bounds intersects index_intersection tp_df pad_shapes idx ;;
       Ret (results ++ found)).
Proof.
  induction tp_df as [| t rest IH]; intros results;
    cbn [tp_loop legacy_rows bind].
  - now rewrite app_nil_r.
  - rewrite candidate_loop_eq.
    destruct (candidate_pads intersects (_create_tp_shape t) pad_shapes _)
      as [found | e]; [| reflexivity].
    cbn [bind]. rewrite IH.
    destruct (legacy_rows bounds intersects index_intersection rest pad_shapes idx)
      as [more | e]; [| reflexivity].
    cbn [bind]. now rewrite <- app_assoc.
Qed.

(** When every candidate is the index of a pad, the candidate loop
    returns, with the pads among the candidates that pass the exact
    check. *)
Lemma candidate_pads_valid (tp_shape : geometry)
    (pad_shapes : list (geometry * string)) (candidate_indices : list nat) :
  (forall i, In i candidate_indices -> nth_error pad_shapes i <> None) ->
  exists found,
    candidate_pads intersects tp_shape pad_shapes candidate_indices = Ret found /\
    forall pid, In pid found <->
                exists i g, In i candidate_indices /\
                            nth_error pad_shapes i = Some (g, pid) /\
                            intersects tp_shape g = true.
Proof.
  induction candidate_indices as [| i rest IH]; intros Hvalid; cbn [candidate_pads].
  - exists []. split; [reflexivity |]. intros pid. split; [intros [] |].
    intros [i [g [[] _]]].
  - destruct (nth_error pad_shapes i) as [[g0 pid0] |] eqn:E.
    2: { exfalso. apply (Hvalid i); [left; reflexivity | exact E]. }
    destruct IH as [found [Hf Hin]].
    { intros j Hj. apply Hvalid. right. exact Hj. }
    rewrite Hf. cbn [bind].
    exists (if intersects tp_shape g0 then pid0 :: found else found).
    split; [reflexivity |]. intros pid. split.
    + intros H. destruct (intersects tp_shape g0) eqn:I.
      * destruct H as [<- | H].
        -- exists i, g0. repeat split; auto. left. reflexivity.
        -- apply Hin in H. destruct H as [j [g [Hj H]]]. exists j, g.
           split; [right; exact Hj | exact H].
      * apply Hin in H. destruct H as [j [g [Hj H]]]. exists j, g.
        split; [right; exact Hj | exact H].
    + intros [j [g [[<- | Hj] [Hn I]]]].
      * rewrite E in Hn. injection Hn as <- <-. rewrite I. left. reflexivity.
      * assert (In pid found) by (apply Hin; exists j, g; auto).
        destruct (intersects tp_shape g0); [right |]; assumption.
Qed.

Hypothesis index_ok : index_contract index_intersection.
Hypothesis bounds_ok : bounds_contract bounds intersects.

(** With the index built over all the pads, the pads the candidate loop
    reports are exactly the pads that pass the exact check. *)
Lemma candidate_pads_indexed (tp_shape : geometry)
    (pad_shapes : list (geometry * string)) :
  exists found,
    candidate_pads intersects tp_shape pad_shapes
      (index_intersection (build_index bounds 0 pad_shapes []) (bounds tp_shape))
    = Ret found /\
    forall pid, In pid found <->
                exists g, In (g, pid) pad_shapes /\ intersects tp_shape g = true.
Proof.
  destruct (candidate_pads_valid tp_shape pad_shapes
              (index_intersection (build_index bounds 0 pad_shapes [])
                                  (bounds tp_shape)))
    as [found [Hf Hin]].
  { intros i Hi. apply index_ok in Hi. destruct Hi as [b [Hi _]].
    apply build_index_spec in Hi. destruct Hi as [[] | [g [pid [Hn _]]]].
    rewrite Nat.sub_0_r in Hn. congruence. }
  exists found. split; [exact Hf |]. intros pid. rewrite Hin. split.
  - intros [i [g [_ [Hn I]]]]. exists g. split; [| exact I].
    eapply nth_error_In. exact Hn.
  - intros [g [Hg I]]. apply In_nth_error in Hg. destruct Hg as [i Hn].
    exists i, g. repeat split; auto. apply index_ok. exists (bounds g).
    split; [| apply bounds_ok; exact I].
    apply build_index_spec. right. exists g, pid. rewrite Nat.sub_0_r.
    repeat split; [exact Hn | lia].
Qed.

Lemma legacy_rows_indexed (tp_df : list tp_row)
    (pad_shapes : list (geometry * string)) :
  exists found,
    legacy_rows bounds intersects index_intersection tp_df pad_shapes
                (build_index bounds 0 pad_shapes [])
    = Ret found /\
    forall r, In r found <->
              exists t g pid, In t tp_df /\ In (g, pid) pad_shapes /\
                              intersects (_create_tp_shape t) g = true /\
                              r = mk_overlap (testpoint_id t) pid (-1).
Proof.
  induction tp_df as [| t rest IH]; cbn [legacy_rows].
  - exists []. split; [reflexivity |]. intros r. split; [intros [] |].
    intros [t [g [pid [[] _]]]].
  - destruct (candidate_pads_indexed (_create_tp_shape t) pad_shapes)
      as [found [Hf Hin]].
    destruct IH as [more [Hm Hmore]]. rewrite Hf, Hm. cbn [bind].
    eexists. split; [reflexivity |]. intros r. rewrite in_app_iff, in_map_iff. split.
    + intros [[pid [<- Hp]] | H].
      * apply Hin in Hp. destruct Hp as [g [Hg I]].
        exists t, g, pid. repeat split; auto. left. reflexivity.
      * apply Hmore in H. destruct H as [t' [g [pid [Ht H]]]].
        exists t', g, pid. split; [right; exact Ht | exact H].
    + intros [t' [g [pid [[<- | Ht] [Hg [I ->]]]]]].
      * left. exists pid. split; [reflexivity |]. apply Hin. exists g. auto.
      * right. apply Hmore. exists t', g, pid. auto.
Qed.

Lemma in_exhaustive_pad_loop (tp_shape : geometry) (tp_id : string)
    (pad_shapes : list (geometry * string)) :
  forall results r,
    In r (exhaustive_pad_loop intersects tp_shape tp_id pad_shapes results) <->
    In r results \/
    exists g pid, In (g, pid) pad_shapes /\ intersects tp_shape g = true /\
                  r = mk_overlap tp_id pid (-1).
Proof.
  induction pad_shapes as [| [g0 pid0] rest IH]; intros results r;
    cbn [exhaustive_pad_loop].
  - split; [auto |]. intros [H | [g [pid [[] _]]]]. exact H.
  - rewrite IH. split.
    + intros [H | [g [pid [Hg H]]]].
      * destruct (intersects tp_shape g0) eqn:I; [| auto].
        apply in_app_or in H. destruct H as [H | [<- | []]]; [auto |].
        right. exists g0, pid0. repeat split; auto. left. reflexivity.
      * right. exists g, pid. split; [right; exact Hg | exact H].
    + intros [H | [g [pid [[Hg | Hg] [I ->]]]]].
      * left. destruct (intersects tp_shape g0); [apply in_or_app; left |]; exact H.
      * injection Hg as <- <-. left. rewrite I. apply in_or_app. right.
        left. reflexivity.
      * right. exists g, pid. auto.
Qed.

Lemma in_exhaustive_tp_loop (pad_shapes : list (geometry * string))
    (tp_df : list tp_row) :
  forall results r,
    In r (exhaustive_tp_loop intersects tp_df pad_shapes results) <->
    In r results \/
    exists t g pid, In t tp_df /\ In (g, pid) pad_shapes /\
                    intersects (_create_tp_shape t) g = true /\
                    r = mk_overlap (testpoint_id t) pid (-1).
Proof.
  induction tp_df as [| t rest IH]; intros results r; cbn [exhaustive_tp_loop].
  - split; [auto |]. intros [H | [t [g [pid [[] _]]]]]. exact H.
  - rewrite IH, in_exhaustive_pad_loop. split.
    + intros [[H | [g [pid [Hg [I ->]]]]] | [t' [g [pid [Ht H]]]]].
      * auto.
      * right. exists t, g, pid. repeat split; auto. left. reflexivity.
      * right. exists t', g, pid. split; [right; exact Ht | exact H].
    + intros [H | [t' [g [pid [[<- | Ht] [Hg [I ->]]]]]]].
      * auto.
      * left. right. exists g, pid. auto.
      * right. exists t', g, pid. auto.
Qed.

(** C1, amended.  Provided the index yields exactly the entries whose box
    meets the query box, and intersecting geometries have boxes that meet,
    the index-accelerated matcher returns, and its records are those of
    the nested loop that applies the same exact intersection check to
    every test point and every pad. *)
Theorem broad_phase_keeps_result_set :
  forall (tp_df : list tp_row) (pad_df : list pad_row),
  exists df,
    judge_tp_pad_pin_positions bounds intersects index_intersection
                               (Ret tp_df) (Ret pad_df) = Ret df /\
    forall r, In r (rows df) <-> In r (exhaustive_matcher intersects tp_df pad_df).
Proof.
  intros tp_df pad_df. unfold judge_tp_pad_pin_positions, exhaustive_matcher.
  cbn [bind].
  set (pad_shapes := map (fun row => (_create_pad_shape row, component_id row)) pad_df).
  destruct (is_empty tp_df || is_empty pad_df) eqn:E.
  - eexists. split; [reflexivity |]. cbn [rows]. intros r.
    rewrite in_exhaustive_tp_loop. split; [intros [] |].
    intros [[] | [t [g [pid [Ht [Hg _]]]]]].
    apply orb_true_iff in E. destruct E as [E | E]; apply is_empty_true in E.
    + subst tp_df. destruct Ht.
    + subst pad_df. destruct Hg.
  - rewrite legacy_tp_loop_eq.
    destruct (legacy_rows_indexed tp_df pad_shapes) as [found [Hf Hin]].
    rewrite Hf. cbn [bind app].
    exists (mkDataFrame out_columns found). split.
    + destruct found; reflexivity.
    + cbn [rows]. intros r. rewrite Hin, in_exhaustive_tp_loop. split.
      * intros H. right. exact H.
      * intros [[] | H]. exact H.
Qed.

End LegacyMatcher.

Section LegacyAgainstReleased.
Import Py Legacy_35_4 Examples.
Local Open Scope float_scope.

(** The box model meets the two contracts. *)
Lemma scan_intersection_contract : index_contract scan_intersection.
Proof.
  intros entries q i. unfold scan_intersection. rewrite in_map_iff. split.
  - intros [[j b] [<- H]]. apply filter_In in H. exists b. exact H.
  - intros [b H]. exists (i, b). split; [reflexivity |]. apply filter_In. exact H.
Qed.

Lemma box_bounds_contract : bounds_contract box_bounds box_intersects.
Proof. intros g h H. exact H. Qed.

(** The theorem applied to the box model and to the test points [TP1]
    and [TP2] with one pad. *)
Lemma broad_phase_keeps_result_set_witness :
  index_contract scan_intersection /\
  bounds_contract box_bounds box_intersects /\
  exists df,
    judge_tp_pad_pin_positions box_bounds box_intersects scan_intersection
                               (Ret [tp1; tp2]) (Ret [inner_pad]) = Ret df /\
    forall r, In r (rows df)
              <-> In r (exhaustive_matcher box_intersects [tp1; tp2] [inner_pad]).
Proof.
  split; [exact scan_intersection_contract |].
  split; [exact box_bounds_contract |].
  exact (broad_phase_keeps_result_set scan_intersection_contract
           box_bounds_contract [tp1; tp2] [inner_pad]).
Defined.

(** Two test points of one geometry get the same pads from the legacy
    matcher, whatever the geometry library and the index do. *)
Lemma legacy_same_geometry_same_pads
    (bounds : geometry -> bbox) (intersects : geometry -> geometry -> bool)
    (index_intersection : list (nat * bbox) -> bbox -> list nat)
    (t1 t2 : tp_row) (pad_df : list pad_row) (df : DataFrame overlap) :
  _create_tp_shape t1 = _create_tp_shape t2 ->
  judge_tp_pad_pin_positions bounds intersects index_intersection
                             (Ret [t1; t2]) (Ret pad_df) = Ret df ->
  exists found,
    rows df = map (fun pid => mk_overlap (testpoint_id t1) pid (-1)) found
              ++ map (fun pid => mk_overlap (testpoint_id t2) pid (-1)) found.
Proof.
  intros Hshape. unfold judge_tp_pad_pin_positions. cbn [bind is_empty orb].
  destruct (is_empty pad_df).
  - intros H. injection H as <-. exists []. reflexivity.
  - rewrite legacy_tp_loop_eq. cbn [legacy_rows]. rewrite <- Hshape.
    destruct (candidate_pads intersects (_create_tp_shape t1) _ _) as [found | e];
      [| discriminate].
    cbn [bind app]. rewrite app_nil_r. intros H. exists found.
    destruct (map _ found ++ map _ found);
      injection H as <-; reflexivity.
Qed.

(** C1, as stated, fails.  [TP1] lies on the top side and [TP2], of the
    same geometry, on the bottom side; the pad [U3] lies under both, on
    the top side.  On boxes the legacy matcher reports both test points,
    the released matcher only [TP1]; and whatever the geometry library and
    the index do, the two sets of identifier pairs differ. *)
Lemma legacy_matcher_ignores_layers :
  judge_tp_pad_pin_positions box_bounds box_intersects scan_intersection
    (Ret [tp1; tp2]) (Ret [plain_pad])
  = Ret (mkDataFrame out_columns
           [mk_overlap "TP1" "U3" (-1); mk_overlap "TP2" "U3" (-1)])
  /\ Criteria_35_4.judge_tp_pad_pin_positions square_pow (Ret [tp1; tp2]) (Ret [plain_pad])
     = Ret (mkDataFrame Criteria_35_4.out_columns
              [Criteria_35_4.mk_overlap "TP1" "U3" "TOP" (-2)])
  /\ (forall float_pow2 bounds intersects index_intersection df_legacy df_released,
        judge_tp_pad_pin_positions bounds intersects index_intersection
          (Ret [tp1; tp2]) (Ret [plain_pad]) = Ret df_legacy ->
        Criteria_35_4.judge_tp_pad_pin_positions float_pow2 (Ret [tp1; tp2]) (Ret [plain_pad])
        = Ret df_released ->
        ~ (forall pair, In pair (map id_pair (rows df_legacy)) <->
                        In pair (map Criteria_35_4.id_pair (rows df_released)))).
Proof.
  split; [vm_compute; reflexivity |]. split; [vm_compute; reflexivity |].
  intros float_pow2 bounds intersects index_intersection df_legacy df_released
    Hl Hr Heq.
  assert (Er : rows df_released = [Criteria_35_4.mk_overlap "TP1" "U3" "TOP" (-2)]).
  { assert (E : Criteria_35_4.judge_tp_pad_pin_positions float_pow2 (Ret [tp1; tp2])
                                                        (Ret [plain_pad])
                = Ret (mkDataFrame Criteria_35_4.out_columns
                         [Criteria_35_4.mk_overlap "TP1" "U3" "TOP" (-2)]))
      by (vm_compute; reflexivity).
    rewrite E in Hr. injection Hr as <-. reflexivity. }
  apply legacy_same_geometry_same_pads in Hl; [| reflexivity].
  destruct Hl as [found El]. rewrite El, Er in Heq. clear El Er Hr.
  assert (H1 : In ("TP1", "U3")%string
                  (map id_pair
                     (map (fun pid => mk_overlap (testpoint_id tp1) pid (-1)) found
                      ++ map (fun pid => mk_overlap (testpoint_id tp2) pid (-1)) found))).
  { apply Heq. left. reflexivity. }
  assert (Hf : In "U3"%string found).
  { apply in_map_iff in H1. destruct H1 as [r [Hp Hr]].
    apply in_app_or in Hr.
    destruct Hr as [Hr | Hr]; apply in_map_iff in Hr; destruct Hr as [pid [<- Hpid]];
      injection Hp as Hp; [now subst pid | discriminate]. }
  assert (H2 : In ("TP2", "U3")%string
                  (map Criteria_35_4.id_pair
                     [Criteria_35_4.mk_overlap "TP1" "U3" "TOP" (-2)])).
  { apply Heq. apply in_map_iff. exists (mk_overlap "TP2" "U3" (-1)).
    split; [reflexivity |]. apply in_or_app. right.
    apply in_map_iff. exists "U3"%string. split; [reflexivity | exact Hf]. }
  destruct H2 as [H2 | []]. discriminate H2.
Qed.

End LegacyAgainstReleased.

(** ** Orders given by comparison functions *)

Section Comparisons.
Import Pandas.

Lemma ok_congr_r (R : Type) (c : R -> R -> comparison) (H : order_ok c) :
  forall a b d, c a b = Eq -> c d a = c d b.
Proof.
  intros a b d E. rewrite (ok_antisym H a d), (ok_antisym H b d).
  f_equal. apply (ok_congr H). exact E.
Qed.

Lemma lex_Lt (c1 c2 : comparison) :
  lex c1 c2 = Lt <-> c1 = Lt \/ (c1 = Eq /\ c2 = Lt).
Proof. destruct c1; cbn; intuition congruence. Qed.

Lemma lex_Eq (c1 c2 : comparison) : lex c1 c2 = Eq <-> c1 = Eq /\ c2 = Eq.
Proof. destruct c1; cbn; intuition congruence. Qed.

Lemma order_ok_lex (R : Type) (c1 c2 : R -> R -> comparison) :
  order_ok c1 -> order_ok c2 -> order_ok (fun a b => lex (c1 a b) (c2 a b)).
Proof.
  intros H1 H2. constructor.
  - intros a b. rewrite (ok_antisym H1 a b), (ok_antisym H2 a b).
    destruct (c1 a b); reflexivity.
  - intros a b d Hab Hbd. apply lex_Lt in Hab. apply lex_Lt in Hbd. apply lex_Lt.
    destruct Hab as [Hab | [Eab Hab]], Hbd as [Hbd | [Ebd Hbd]].
    + left. eapply (ok_trans H1); eassumption.
    + left. rewrite <- (ok_congr_r H1 _ _ a Ebd). exact Hab.
    + left. rewrite (ok_congr H1 _ _ d Eab). exact Hbd.
    + right. split.
      * rewrite (ok_congr H1 _ _ d Eab). exact Ebd.
      * eapply (ok_trans H2); eassumption.
  - intros a b d E. apply lex_Eq in E. destruct E as [E1 E2].
    now rewrite (ok_congr H1 _ _ d E1), (ok_congr H2 _ _ d E2).
Qed.

Lemma order_ok_by (R K : Type) (f : R -> K) (c : K -> K -> comparison) :
  order_ok c -> order_ok (fun a b => c (f a) (f b)).
Proof.
  intros H. constructor.
  - intros a b. apply (ok_antisym H).
  - intros a b d. apply (ok_trans H).
  - intros a b d. apply (ok_congr H).
Qed.

Lemma string_compare_refl (s : string) : String.compare s s = Eq.
Proof.
  destruct (String.compare s s) eqn:E; [reflexivity | |];
    pose proof (String.compare_antisym s s) as A; rewrite E in A; discriminate A.
Qed.

Lemma string_compare_trans (a b d : string) :
  String.compare a b = Lt -> String.compare b d = Lt -> String.compare a d = Lt.
Proof.
  intros H1 H2.
  apply OrderedTypeEx.String_as_OT.cmp_lt.
  apply OrderedTypeEx.String_as_OT.lt_trans with b;
    apply OrderedTypeEx.String_as_OT.cmp_lt; assumption.
Qed.

Lemma order_ok_string : order_ok String.compare.
Proof.
  constructor.
  - intros a b. apply String.compare_antisym.
  - apply string_compare_trans.
  - intros a b d E. apply String.compare_eq_iff in E. now subst.
Qed.

Lemma compare_na_Eq (a b : option string) : compare_na a b = Eq <-> a = b.
Proof.
  destruct a as [x |], b as [y |]; cbn; split; intros H;
    try discriminate; try reflexivity.
  - apply String.compare_eq_iff in H. now subst.
  - injection H as <-. apply string_compare_refl.
Qed.

Lemma order_ok_na : order_ok compare_na.
Proof.
  constructor.
  - intros [x |] [y |]; cbn; try reflexivity. apply String.compare_antisym.
  - intros [x |] [y |] [z |]; cbn; try discriminate; try reflexivity.
    apply string_compare_trans.
  - intros a b d E. apply compare_na_Eq in E. now subst.
Qed.

Lemma order_ok_nat : order_ok Nat.compare.
Proof.
  constructor.
  - intros a b. apply Nat.compare_antisym.
  - intros a b d H1 H2. apply Nat.compare_lt_iff in H1, H2.
    apply Nat.compare_lt_iff. lia.
  - intros a b d E. apply Nat.compare_eq_iff in E. now subst.
Qed.

End Comparisons.

(** ** Facts on [drop_duplicates] and [sort_values] *)

Section FrameFacts.
Import Pandas.

Variable R : Type.
Variable eqb : R -> R -> bool.
Hypothesis eqb_eq : forall a b, eqb a b = true <-> a = b.

Lemma mem_In (x : R) (l : list R) : mem eqb x l = true <-> In x l.
Proof.
  unfold mem. rewrite existsb_exists. split.
  - intros [y [Hy E]]. apply eqb_eq in E. now subst.
  - intros H. exists x. split; [exact H | now apply eqb_eq].
Qed.

Lemma in_drop_duplicates_from (l : list R) :
  forall seen x,
    In x (drop_duplicates_from eqb seen l) <-> In x l /\ ~ In x seen.
Proof.
  induction l as [| y l IH]; intros seen x; cbn [drop_duplicates_from].
  - cbn. tauto.
  - destruct (mem eqb y seen) eqn:M.
    + apply mem_In in M. rewrite IH. cbn [In]. split.
      * intros [H N]. auto.
      * intros [[<- | H] N]; [contradiction | auto].
    + assert (N : ~ In y seen).
      { intros H. apply mem_In in H. congruence. }
      cbn [In]. rewrite IH. cbn [In]. split.
      * intros [<- | [H N']]; [auto |]. split; [auto |]. intros H'. apply N'. auto.
      * intros [[<- | H] N']; [auto |].
        destruct (eqb y x) eqn:E; [apply eqb_eq in E; auto |].
        right. split; [exact H |]. intros [-> | H']; [| contradiction].
        assert (eqb x x = true) by now apply eqb_eq. congruence.
Qed.

Lemma nodup_drop_duplicates_from (l : list R) :
  forall seen, NoDup (drop_duplicates_from eqb seen l).
Proof.
  induction l as [| y l IH]; intros seen; cbn [drop_duplicates_from].
  - constructor.
  - destruct (mem eqb y seen); [apply IH |]. constructor; [| apply IH].
    rewrite in_drop_duplicates_from. intros [_ N]. apply N. left. reflexivity.
Qed.

Lemma in_drop_duplicates (l : list R) (x : R) :
  In x (drop_duplicates eqb l) <-> In x l.
Proof.
  unfold drop_duplicates. rewrite in_drop_duplicates_from. cbn. tauto.
Qed.

Lemma nodup_drop_duplicates (l : list R) : NoDup (drop_duplicates eqb l).
Proof. apply nodup_drop_duplicates_from. Qed.

Variable cmp : R -> R -> comparison.
Hypothesis cmp_ok : order_ok cmp.

Let leb (a b : R) : bool := leb_of (cmp a b).

Lemma insert_row_perm (x : R) (l : list R) :
  Permutation (insert_row leb x l) (x :: l).
Proof.
  induction l as [| y l IH]; cbn [insert_row]; [reflexivity |].
  destruct (leb x y); [reflexivity |].
  rewrite IH. apply perm_swap.
Qed.

Lemma sort_values_perm (l : list R) : Permutation (sort_values leb l) l.
Proof.
  induction l as [| x l IH]; cbn [sort_values]; [reflexivity |].
  rewrite insert_row_perm. now constructor.
Qed.

Lemma not_after_trans (a b d : R) : not_after cmp a b -> not_after cmp b d -> not_after cmp a d.
Proof.
  unfold not_after. intros H1 H2.
  destruct (cmp a b) eqn:E1; [| | congruence].
  - rewrite (ok_congr cmp_ok _ _ d E1). exact H2.
  - destruct (cmp b d) eqn:E2; [| | congruence].
    + rewrite <- (ok_congr_r cmp_ok _ _ a E2), E1. discriminate.
    + rewrite (ok_trans cmp_ok _ _ _ E1 E2). discriminate.
Qed.

Lemma insert_row_sorted (x : R) (l : list R) :
  StronglySorted (not_after cmp) l -> StronglySorted (not_after cmp) (insert_row leb x l).
Proof.
  induction l as [| y l IH]; intros S; cbn [insert_row].
  - repeat constructor.
  - apply StronglySorted_inv in S. destruct S as [S F].
    unfold leb at 1, leb_of. destruct (cmp x y) eqn:E.
    + constructor; [constructor; assumption |]. constructor.
      * unfold not_after. congruence.
      * eapply Forall_impl; [| exact F]. intros z Hz.
        apply not_after_trans with y; [unfold not_after; congruence | exact Hz].
    + constructor; [constructor; assumption |]. constructor.
      * unfold not_after. congruence.
      * eapply Forall_impl; [| exact F]. intros z Hz.
        apply not_after_trans with y; [unfold not_after; congruence | exact Hz].
    + constructor; [apply IH; exact S |].
      apply Forall_forall. intros z Hz.
      apply (Permutation_in _ (insert_row_perm x l)) in Hz.
      destruct Hz as [<- | Hz].
      * unfold not_after. rewrite (ok_antisym cmp_ok x y), E. discriminate.
      * rewrite Forall_forall in F. apply F. exact Hz.
Qed.

Lemma sort_values_sorted (l : list R) :
  StronglySorted (not_after cmp) (sort_values leb l).
Proof.
  induction l as [| x l IH]; cbn [sort_values]; [constructor |].
  apply insert_row_sorted. exact IH.
Qed.

(** A sorted list without repetition, on which rows that compare equal
    are equal, is strictly sorted. *)
Lemma sorted_strict (l : list R) :
  StronglySorted (not_after cmp) l -> NoDup l ->
  (forall a b, In a l -> In b l -> cmp a b = Eq -> a = b) ->
  StronglySorted (fun a b => cmp a b = Lt) l.
Proof.
  induction l as [| x l IH]; intros S N Heq; [constructor |].
  apply StronglySorted_inv in S. destruct S as [S F].
  inversion N as [| ? ? Nx Nl]; subst.
  constructor.
  - apply IH; [exact S | exact Nl |].
    intros a b Ha Hb. apply Heq; right; assumption.
  - apply Forall_forall. intros z Hz. rewrite Forall_forall in F.
    specialize (F z Hz). unfold not_after in F.
    destruct (cmp x z) eqn:E; [| reflexivity | congruence].
    exfalso. apply Nx. rewrite (Heq x z); auto.
    + left. reflexivity.
    + right. exact Hz.
Qed.

(** The frame a join returns after [drop_duplicates] and [sort_values]. *)
Lemma sorted_frame (l : list R) :
  (forall a b, In a l -> In b l -> cmp a b = Eq -> a = b) ->
  let out := sort_values leb (drop_duplicates eqb l) in
  (forall x, In x out <-> In x l) /\
  NoDup out /\
  StronglySorted (fun a b => cmp a b = Lt) out.
Proof.
  intros Heq out.
  assert (P : Permutation out (drop_duplicates eqb l)) by apply sort_values_perm.
  assert (I : forall x, In x out <-> In x l).
  { intros x. rewrite <- (in_drop_duplicates l x). split; apply Permutation_in;
      [exact P | symmetry; exact P]. }
  split; [exact I |]. split.
  - apply (Permutation_NoDup (Permutation_sym P)). apply nodup_drop_duplicates.
  - apply sorted_strict.
    + apply sort_values_sorted.
    + apply (Permutation_NoDup (Permutation_sym P)). apply nodup_drop_duplicates.
    + intros a b Ha Hb. apply Heq; apply I; assumption.
Qed.

End FrameFacts.

(** ** The net-name joins *)

Lemma StronglySorted_impl (A : Type) (P Q : A -> A -> Prop) (l : list A) :
  (forall a b, In a l -> In b l -> P a b -> Q a b) ->
  StronglySorted P l -> StronglySorted Q l.
Proof.
  induction l as [| x l IH]; intros H S; [constructor |].
  apply StronglySorted_inv in S. destruct S as [S F]. constructor.
  - apply IH; [| exact S]. intros a b Ha Hb. apply H; right; assumption.
  - rewrite Forall_forall in *. intros z Hz. apply H.
    + left. reflexivity.
    + right. exact Hz.
    + apply F. exact Hz.
Qed.

Lemma cell_eq_true (a b : option string) :
  Pandas.cell_eq a b = true <-> exists s, a = Some s /\ b = Some s.
Proof.
  destruct a as [x |], b as [y |]; cbn; split; intros H; try discriminate;
    try (destruct H as (? & ? & ?); discriminate).
  - apply String.eqb_eq in H. subst. eauto.
  - destruct H as [s [H1 H2]]. injection H1 as ->. injection H2 as ->.
    apply String.eqb_refl.
Qed.

Lemma eqb_na_eq (a b : option string) : Pandas.eqb_na a b = true <-> a = b.
Proof.
  destruct a as [x |], b as [y |]; cbn; split; intros H; try discriminate;
    try reflexivity.
  - apply String.eqb_eq in H. now subst.
  - injection H as ->. apply String.eqb_refl.
Qed.

Section Join_29_3.
Import Pandas Crit_29_3 JoinOrder.

Variable set_iter : forall A : Type, list A -> list A.
Variable re_match_digit : string -> bool.

(** The row the loop body appends for a net name, a test point and a pin. *)
Let row (n : option string) (t : tp_net_row) (p : pin_net_row) : match_row :=
  mk_match_row (tp_testpoint_id t) (pin_pin_id p) n
    match tp_testpoint_id t, pin_pin_id p with
    | Some a, Some b => Some (a ++ " - " ++ b)%string
    | _, _ => None
    end.

Lemma in_pin_loop (n : option string) (t : tp_net_row) (pins : list pin_net_row) :
  forall acc r,
    In r (pin_loop n t pins acc) <->
    In r acc \/ exists p, In p pins /\ r = row n t p.
Proof.
  induction pins as [| p pins IH]; intros acc r; cbn [pin_loop].
  - split; [auto |]. intros [H | [p [[] _]]]. exact H.
  - rewrite IH, in_app_iff. cbn [In]. split.
    + intros [[H | [<- | []]] | [q [Hq ->]]]; eauto.
    + intros [H | [q [[<- | Hq] ->]]]; eauto.
Qed.

Lemma in_tp_loop_29 (n : option string) (pins : list pin_net_row)
    (tps : list tp_net_row) :
  forall acc r,
    In r (tp_loop n tps pins acc) <->
    In r acc \/ exists t p, In t tps /\ In p pins /\ r = row n t p.
Proof.
  induction tps as [| t tps IH]; intros acc r; cbn [tp_loop].
  - split; [auto |]. intros [H | [t [p [[] _]]]]. exact H.
  - rewrite IH, in_pin_loop. cbn [In]. split.
    + intros [[H | [p [Hp ->]]] | [t' [p [Ht [Hp ->]]]]]; eauto 8.
    + intros [H | [t' [p [[<- | Ht] [Hp ->]]]]]; eauto 8.
Qed.

Lemma in_net_loop_29 (df_tp : list tp_net_row) (df_pin : list pin_net_row)
    (names : list (option string)) :
  forall acc r,
    In r (net_loop names df_tp df_pin acc) <->
    In r acc \/
    exists n t p, In n names /\ In t df_tp /\ In p df_pin /\
                  cell_eq (tp_net_name t) n = true /\
                  cell_eq (pin_net_name p) n = true /\ r = row n t p.
Proof.
  induction names as [| n names IH]; intros acc r; cbn [net_loop].
  - split; [auto |]. intros [H | [n [t [p [[] _]]]]]. exact H.
  - rewrite IH. clear IH.
    set (tps := filter (fun x => cell_eq (tp_net_name x) n) df_tp).
    set (pins := filter (fun x => cell_eq (pin_net_name x) n) df_pin).
    assert (Hstep : In r (if negb (is_empty tps) && negb (is_empty pins)
                          then tp_loop n tps pins acc else acc) <->
                    In r acc \/ exists t p, In t tps /\ In p pins /\ r = row n t p).
    { destruct tps as [| t0 tps'] eqn:Et; cbn [is_empty negb andb].
      - split; [auto |]. intros [H | [t [p [[] _]]]]. exact H.
      - destruct pins as [| p0 pins'] eqn:Ep; cbn [is_empty negb andb].
        + split; [auto |]. intros [H | [t [p [_ [[] _]]]]]. exact H.
        + apply in_tp_loop_29. }
    rewrite Hstep. clear Hstep. unfold tps, pins. cbn [In]. split.
    + intros [[H | [t [p [Ht [Hp ->]]]]] | [m [t [p [Hm H]]]]].
      * auto.
      * apply filter_In in Ht, Hp. destruct Ht as [Ht Et], Hp as [Hp Ep].
        right. exists n, t, p. auto 8.
      * right. exists m, t, p. auto.
    + intros [H | [m [t [p [[<- | Hm] [Ht [Hp [Et [Ep ->]]]]]]]]].
      * auto.
      * left. right. exists t, p. rewrite !filter_In. auto.
      * right. exists m, t, p. auto 8.
Qed.

Hypothesis set_iter_ok : set_iter_contract set_iter.

(** The rows collected before [drop_duplicates], as a set. *)
Lemma in_result_list_29 (df_tp : list tp_net_row) (df_pin : list pin_net_row)
    (r : match_row) :
  In r (net_loop (set_iter (map tp_net_name df_tp ++ map pin_net_name df_pin))
                 df_tp df_pin []) <->
  exists s t p, In t df_tp /\ In p df_pin /\
                tp_net_name t = Some s /\ pin_net_name p = Some s /\
                r = row (Some s) t p.
Proof.
  rewrite in_net_loop_29. split.
  - intros [[] | [n [t [p [_ [Ht [Hp [Et [Ep ->]]]]]]]]].
    apply cell_eq_true in Et, Ep.
    destruct Et as [s [Et ->]]. destruct Ep as [s' [Ep Es]].
    injection Es as <-. exists s, t, p. auto 8.
  - intros [s [t [p [Ht [Hp [Et [Ep ->]]]]]]]. right.
    exists (Some s), t, p. repeat split; auto.
    + apply set_iter_ok. apply in_or_app. left. rewrite <- Et. now apply in_map.
    + apply cell_eq_true. eauto.
    + apply cell_eq_true. eauto.
Qed.

Lemma match_row_eqb_eq_29 (a b : match_row) : match_row_eqb a b = true <-> a = b.
Proof.
  unfold match_row_eqb. rewrite !andb_true_iff, !eqb_na_eq.
  destruct a, b; cbn. split.
  - intros [[[-> ->] ->] ->]. reflexivity.
  - intros H. injection H as -> -> -> ->. auto.
Qed.

Lemma compare_rows_ok_29 : order_ok (compare_rows re_match_digit).
Proof.
  unfold compare_rows, compare_sort_key.
  repeat apply order_ok_lex;
    try (apply (order_ok_by (fun r => fst (_sort_key re_match_digit (m_net_name r)))
                            order_ok_nat));
    try (apply (order_ok_by (fun r => snd (_sort_key re_match_digit (m_net_name r)))
                            order_ok_na));
    try (apply (order_ok_by m_net_name order_ok_na));
    try (apply (order_ok_by m_testpoint_id order_ok_na));
    apply (order_ok_by m_pin_id order_ok_na).
Qed.

Lemma sort_key_fst_29 (n : option string) :
  fst (_sort_key re_match_digit n) = group re_match_digit n.
Proof. unfold _sort_key, group. destruct (re_match_digit (str n)); reflexivity. Qed.

Lemma sort_key_snd_29 (n : option string) : snd (_sort_key re_match_digit n) = n.
Proof. unfold _sort_key. destruct (re_match_digit (str n)); reflexivity. Qed.

Lemma compare_rows_Lt_29 (a b : match_row) :
  compare_rows re_match_digit a b = Lt ->
  precedes re_match_digit (key_29 a) (key_29 b).
Proof.
  unfold compare_rows, compare_sort_key, precedes, key_29, net_of, left_of,
    right_of, cell_lt. cbn [fst snd].
  rewrite !sort_key_fst_29, !sort_key_snd_29, !lex_Lt, !lex_Eq.
  rewrite Nat.compare_lt_iff, Nat.compare_eq_iff, !compare_na_Eq.
  intros [[H | [H1 H2]] | [[H1 H2] [H3 | [H3 [H4 | [H4 H5]]]]]]; auto 8.
Qed.

Lemma compare_rows_Eq_29 (a b : match_row) :
  compare_rows re_match_digit a b = Eq ->
  m_net_name a = m_net_name b /\ m_testpoint_id a = m_testpoint_id b /\
  m_pin_id a = m_pin_id b.
Proof.
  unfold compare_rows. rewrite !lex_Eq, !compare_na_Eq. tauto.
Qed.

(** The join of crit_29_3: its rows are the rows [row (Some s) t p] for
    a test point [t] and a pin [p] on the net [s], without repetition and
    in the order of the specification. *)
Lemma join_29_3_rows (df_tp : list tp_net_row) (df_pin : list pin_net_row) :
  let out := rows (judge_io_connector_in_tp_network set_iter re_match_digit
                     df_tp df_pin) in
  (forall r, In r out <->
             exists s t p, In t df_tp /\ In p df_pin /\
                           tp_net_name t = Some s /\ pin_net_name p = Some s /\
                           r = row (Some s) t p) /\
  NoDup out /\
  StronglySorted (fun a b => precedes re_match_digit (key_29 a) (key_29 b)) out.
Proof.
  intros out.
  set (result_list :=
         net_loop (set_iter (map tp_net_name df_tp ++ map pin_net_name df_pin))
                  df_tp df_pin []).
  assert (Hin : forall r, In r result_list <->
                exists s t p, In t df_tp /\ In p df_pin /\
                              tp_net_name t = Some s /\ pin_net_name p = Some s /\
                              r = row (Some s) t p)
    by (intros r; apply in_result_list_29).
  assert (Hout : out = sort_values (row_leb re_match_digit)
                         (drop_duplicates match_row_eqb
                            (if is_empty df_tp || is_empty df_pin then []
                             else result_list))).
  { unfold out, judge_io_connector_in_tp_network.
    destruct (is_empty df_tp || is_empty df_pin); [reflexivity |].
    fold result_list. destruct result_list; reflexivity. }
  assert (Hsame : forall r, In r (if is_empty df_tp || is_empty df_pin then []
                                  else result_list) <-> In r result_list).
  { intros r. destruct (is_empty df_tp || is_empty df_pin) eqn:E; [| tauto].
    split; [intros [] |]. intros H. apply Hin in H.
    destruct H as [s [t [p [Ht [Hp _]]]]].
    apply orb_true_iff in E. destruct E as [E | E]; apply is_empty_true in E;
      subst; contradiction. }
  destruct (@sorted_frame _ _ match_row_eqb_eq_29 _ compare_rows_ok_29
              (if is_empty df_tp || is_empty df_pin then [] else result_list))
    as [I [N S]].
  { intros a b Ha Hb E. apply Hsame, Hin in Ha. apply Hsame, Hin in Hb.
    destruct Ha as [s [t [p [_ [_ [_ [_ ->]]]]]]].
    destruct Hb as [s' [t' [p' [_ [_ [_ [_ ->]]]]]]].
    apply compare_rows_Eq_29 in E. unfold row in *. cbn in E.
    destruct E as [-> [-> ->]]. reflexivity. }
  rewrite Hout. split; [| split].
  - intros r. rewrite I, Hsame. apply Hin.
  - exact N.
  - eapply StronglySorted_impl; [| exact S].
    intros a b _ _. apply compare_rows_Lt_29.
Qed.

End Join_29_3.

Section Join_32_3.
Import Py Pandas Criteria_32_3 JoinOrder.

Variable set_iter : forall A : Type, list A -> list A.
Variable re_match_digit : string -> bool.

Lemma in_dropna (l : list (option string)) (s : string) :
  In s (dropna l) <-> In (Some s) l.
Proof.
  induction l as [| [x |] l IH]; cbn [dropna In].
  - tauto.
  - rewrite IH. split; intros [H | H]; auto; left; congruence.
  - rewrite IH. split; [auto |]. intros [H | H]; [discriminate | exact H].
Qed.

Lemma in_product_loop (n : string) (component_ids : list string)
    (tp_ids : list string) :
  forall acc r,
    In r (product_loop n tp_ids component_ids acc) <->
    In r acc \/
    exists l c, In l tp_ids /\ In c component_ids /\
                r = mk_match_row l c n (l ++ " - " ++ c)%string.
Proof.
  induction tp_ids as [| l tp_ids IH]; intros acc r; cbn [product_loop].
  - split; [auto |]. intros [H | [l [c [[] _]]]]. exact H.
  - rewrite IH, in_app_iff, in_map_iff. cbn [In]. split.
    + intros [[H | [c [<- Hc]]] | [l' [c [Hl [Hc ->]]]]]; eauto 8.
    + intros [H | [l' [c [[<- | Hl] [Hc ->]]]]]; eauto 8.
Qed.

Lemma in_net_loop_32 (tp_data : list tp_net_row)
    (connector_data : list connector_net_row) (names : list string) :
  forall acc r,
    In r (net_loop names tp_data connector_data acc) <->
    In r acc \/
    exists n t c, In n names /\ In t tp_data /\ In c connector_data /\
                  tp_net_name t = Some n /\ connector_net_name c = Some n /\
                  r = mk_match_row (tp_testpoint_id t) (connector_id c) n
                        (tp_testpoint_id t ++ " - " ++ connector_id c)%string.
Proof.
  induction names as [| n names IH]; intros acc r; cbn [net_loop].
  - split; [auto |]. intros [H | [n [t [c [[] _]]]]]. exact H.
  - rewrite IH, in_product_loop. clear IH. cbn [In]. split.
    + intros [[H | [l [c [Hl [Hc ->]]]]] | [m [t [c [Hm H]]]]].
      * auto.
      * apply in_map_iff in Hl, Hc.
        destruct Hl as [t [<- Ht]]. destruct Hc as [c' [<- Hc]].
        apply filter_In in Ht, Hc. destruct Ht as [Ht Et], Hc as [Hc Ec].
        apply cell_eq_true in Et, Ec.
        destruct Et as [s [Et Es]]. injection Es as <-.
        destruct Ec as [s [Ec Es]]. injection Es as <-.
        right. exists n, t, c'. auto 8.
      * right. exists m, t, c. auto.
    + intros [H | [m [t [c [[<- | Hm] [Ht [Hc [Et [Ec ->]]]]]]]]].
      * auto.
      * left. right. exists (tp_testpoint_id t), (connector_id c).
        repeat split; apply in_map; apply filter_In; split; auto;
          apply cell_eq_true; eauto.
      * right. exists m, t, c. auto 8.
Qed.

Hypothesis set_iter_ok : set_iter_contract set_iter.

Lemma in_result_rows_32 (tp_df : list tp_net_row)
    (connector_df : list connector_net_row) (r : match_row) :
  In r (net_loop
          (set_iter (filter (fun n => existsb (String.eqb n)
                                        (dropna (map connector_net_name connector_df)))
                            (dropna (map tp_net_name tp_df))))
          tp_df connector_df []) <->
  exists n t c, In t tp_df /\ In c connector_df /\
                tp_net_name t = Some n /\ connector_net_name c = Some n /\
                r = mk_match_row (tp_testpoint_id t) (connector_id c) n
                      (tp_testpoint_id t ++ " - " ++ connector_id c)%string.
Proof.
  rewrite in_net_loop_32. split.
  - intros [[] | [n [t [c [_ H]]]]]. exists n, t, c. exact H.
  - intros [n [t [c [Ht [Hc [Et [Ec ->]]]]]]]. right. exists n, t, c.
    repeat split; auto. apply set_iter_ok. apply filter_In. split.
    + apply in_dropna. rewrite <- Et. now apply in_map.
    + apply existsb_exists. exists n. split; [| apply String.eqb_refl].
      apply in_dropna. rewrite <- Ec. now apply in_map.
Qed.

Lemma match_row_eqb_eq_32 (a b : match_row) : match_row_eqb a b = true <-> a = b.
Proof.
  unfold match_row_eqb. rewrite !andb_true_iff, !String.eqb_eq.
  destruct a, b; cbn. split.
  - intros [[[-> ->] ->] ->]. reflexivity.
  - intros H. injection H as -> -> -> ->. auto.
Qed.

Lemma compare_rows_ok_32 : order_ok (compare_rows re_match_digit).
Proof.
  unfold compare_rows, compare_sort_key.
  repeat apply order_ok_lex;
    try (apply (order_ok_by (fun r => fst (sort_key re_match_digit (m_net_name r)))
                            order_ok_nat));
    try (apply (order_ok_by (fun r => snd (sort_key re_match_digit (m_net_name r)))
                            order_ok_string));
    try (apply (order_ok_by m_net_name order_ok_string));
    try (apply (order_ok_by m_testpoint_id order_ok_string));
    apply (order_ok_by m_component_id order_ok_string).
Qed.

Lemma sort_key_fst_32 (n : string) :
  fst (sort_key re_match_digit n) = group re_match_digit (Some n).
Proof. unfold sort_key, group. cbn. destruct (re_match_digit n); reflexivity. Qed.

Lemma sort_key_snd_32 (n : string) : snd (sort_key re_match_digit n) = n.
Proof. unfold sort_key. destruct (re_match_digit n); reflexivity. Qed.

Lemma string_compare_Eq (a b : string) : String.compare a b = Eq <-> a = b.
Proof.
  split; [apply String.compare_eq_iff |]. intros ->. apply string_compare_refl.
Qed.

Lemma compare_rows_Lt_32 (a b : match_row) :
  compare_rows re_match_digit a b = Lt ->
  precedes re_match_digit (key_32 a) (key_32 b).
Proof.
  unfold compare_rows, compare_sort_key, precedes, key_32, net_of, left_of,
    right_of, cell_lt. cbn [fst snd compare_na].
  rewrite !sort_key_fst_32, !sort_key_snd_32, !lex_Lt, !lex_Eq.
  rewrite Nat.compare_lt_iff, Nat.compare_eq_iff, !string_compare_Eq.
  intros [[H | [H1 H2]] | [[H1 H2] [H3 | [H3 [H4 | [H4 H5]]]]]]; auto 8.
  - right. split; [exact H1 |]. right. split; [now rewrite H3 |]. auto.
  - right. split; [exact H1 |]. right. split; [now rewrite H3 |]. right.
    split; [now rewrite H4 | exact H5].
Qed.

Lemma compare_rows_Eq_32 (a b : match_row) :
  compare_rows re_match_digit a b = Eq ->
  m_net_name a = m_net_name b /\ m_testpoint_id a = m_testpoint_id b /\
  m_component_id a = m_component_id b.
Proof.
  unfold compare_rows. rewrite !lex_Eq, !string_compare_Eq. tauto.
Qed.

(** The join of criteria_32_3: its rows pair the test points and the
    connectors on a common net, without repetition and in the order of the
    specification. *)
Lemma join_32_3_rows (tp_df : list tp_net_row)
    (connector_df : list connector_net_row) :
  let out := rows (judge_io_connector_in_tp_network set_iter re_match_digit
                     (Ret tp_df) (Ret connector_df)) in
  (forall r, In r out <->
             exists n t c, In t tp_df /\ In c connector_df /\
                           tp_net_name t = Some n /\ connector_net_name c = Some n /\
                           r = mk_match_row (tp_testpoint_id t) (connector_id c) n
                                 (tp_testpoint_id t ++ " - " ++ connector_id c)%string) /\
  NoDup out /\
  StronglySorted (fun a b => precedes re_match_digit (key_32 a) (key_32 b)) out.
Proof.
  intros out.
  set (result_rows :=
         net_loop
           (set_iter (filter (fun n => existsb (String.eqb n)
                                         (dropna (map connector_net_name connector_df)))
                             (dropna (map tp_net_name tp_df))))
           tp_df connector_df []).
  assert (Hin : forall r, In r result_rows <->
                exists n t c, In t tp_df /\ In c connector_df /\
                              tp_net_name t = Some n /\ connector_net_name c = Some n /\
                              r = mk_match_row (tp_testpoint_id t) (connector_id c) n
                                    (tp_testpoint_id t ++ " - " ++ connector_id c)%string)
    by (intros r; apply in_result_rows_32).
  assert (Hout : out = sort_values (row_leb re_match_digit)
                         (drop_duplicates match_row_eqb
                            (if is_empty tp_df || is_empty connector_df then []
                             else result_rows))).
  { unfold out, judge_io_connector_in_tp_network.
    destruct (is_empty tp_df); [reflexivity |].
    destruct (is_empty connector_df); [reflexivity |]. cbn [orb].
    fold result_rows. destruct result_rows; reflexivity. }
  assert (Hsame : forall r, In r (if is_empty tp_df || is_empty connector_df then []
                                  else result_rows) <-> In r result_rows).
  { intros r. destruct (is_empty tp_df || is_empty connector_df) eqn:E; [| tauto].
    split; [intros [] |]. intros H. apply Hin in H.
    destruct H as [n [t [c [Ht [Hc _]]]]].
    apply orb_true_iff in E. destruct E as [E | E]; apply is_empty_true in E;
      subst; contradiction. }
  destruct (@sorted_frame _ _ match_row_eqb_eq_32 _ compare_rows_ok_32
              (if is_empty tp_df || is_empty connector_df then [] else result_rows))
    as [I [N S]].
  { intros a b Ha Hb E. apply Hsame, Hin in Ha. apply Hsame, Hin in Hb.
    destruct Ha as [n [t [c [_ [_ [_ [_ ->]]]]]]].
    destruct Hb as [n' [t' [c' [_ [_ [_ [_ ->]]]]]]].
    apply compare_rows_Eq_32 in E. cbn in E.
    destruct E as [-> [-> ->]]. reflexivity. }
  rewrite Hout. split; [| split].
  - intros r. rewrite I, Hsame. apply Hin.
  - exact N.
  - eapply StronglySorted_impl; [| exact S].
    intros a b _ _. apply compare_rows_Lt_32.
Qed.

End Join_32_3.

Section Joins.
Import Py Pandas JoinOrder Examples.

Example join_29_3_example :
  Crit_29_3.judge_io_connector_in_tp_network iter_in_order ascii_digit_prefix
    join_tp_29 join_pin_29
  = mkDataFrame ["testpoint_id"; "pin_id"; "net_name"; "matching_pairs"]%string
      [Crit_29_3.mk_match_row (Some "C") (Some "Z") (Some "3V3") (Some "C - Z");
       Crit_29_3.mk_match_row (Some "A") (Some "X") (Some "N1") (Some "A - X");
       Crit_29_3.mk_match_row (Some "A") (Some "Y") (Some "N1") (Some "A - Y")]%string.
Proof. vm_compute. reflexivity. Qed.

Example join_32_3_example :
  Criteria_32_3.judge_io_connector_in_tp_network iter_in_order ascii_digit_prefix
    (Ret join_tp_32) (Ret join_connector_32)
  = mkDataFrame ["testpoint_id"; "component_id"; "net_name"; "matching_pairs"]%string
      [Criteria_32_3.mk_match_row "C" "Z" "3V3" "C - Z";
       Criteria_32_3.mk_match_row "A" "X" "N1" "A - X";
       Criteria_32_3.mk_match_row "A" "Y" "N1" "A - Y"]%string.
Proof. vm_compute. reflexivity. Qed.

(** C9 (amended).  Whatever the order in which the sets of net names are
    iterated, each join returns exactly the rows pairing a left identifier
    and a right identifier that share a net name, a row whose net name is
    missing contributing nothing; the label is the two identifiers joined
    by [" - "], and in crit_29_3, whose identifiers may be missing, it is
    missing when one of them is; no row occurs twice; and the rows are in
    increasing order for: digit-leading net names first, then the net
    name, then the left identifier, then the right identifier, a missing
    identifier coming after every present one. *)
Theorem net_join_result :
  forall (set_iter : forall A : Type, list A -> list A)
         (re_match_digit : string -> bool),
    set_iter_contract set_iter ->
    (forall (df_tp : list Crit_29_3.tp_net_row)
            (df_pin : list Crit_29_3.pin_net_row),
       let out := rows (Crit_29_3.judge_io_connector_in_tp_network
                          set_iter re_match_digit df_tp df_pin) in
       columns (Crit_29_3.judge_io_connector_in_tp_network
                  set_iter re_match_digit df_tp df_pin)
       = ["testpoint_id"; "pin_id"; "net_name"; "matching_pairs"]%string /\
       (forall r,
          In r out <->
          exists left_id right_id net_name,
            In (Crit_29_3.mk_tp_net_row left_id (Some net_name)) df_tp /\
            In (Crit_29_3.mk_pin_net_row right_id (Some net_name)) df_pin /\
            r = Crit_29_3.mk_match_row left_id right_id (Some net_name)
                  match left_id, right_id with
                  | Some l, Some r => Some (l ++ " - " ++ r)%string
                  | _, _ => None
                  end) /\
       NoDup out /\
       StronglySorted (fun a b => precedes re_match_digit (key_29 a) (key_29 b)) out)
    /\ (forall (tp_df : list Criteria_32_3.tp_net_row)
               (connector_df : list Criteria_32_3.connector_net_row),
          let out := rows (Criteria_32_3.judge_io_connector_in_tp_network
                             set_iter re_match_digit (Ret tp_df) (Ret connector_df)) in
          columns (Criteria_32_3.judge_io_connector_in_tp_network
                     set_iter re_match_digit (Ret tp_df) (Ret connector_df))
          = ["testpoint_id"; "component_id"; "net_name"; "matching_pairs"]%string /\
          (forall r,
             In r out <->
             exists left_id right_id net_name,
               In (Criteria_32_3.mk_tp_net_row left_id (Some net_name)) tp_df /\
               In (Criteria_32_3.mk_connector_net_row right_id (Some net_name))
                  connector_df /\
               r = Criteria_32_3.mk_match_row left_id right_id net_name
                     (left_id ++ " - " ++ right_id)%string) /\
          NoDup out /\
          StronglySorted (fun a b => precedes re_match_digit (key_32 a) (key_32 b)) out).
Proof.
  intros set_iter re_match_digit Hset. split.
  - intros df_tp df_pin out.
    destruct (join_29_3_rows re_match_digit Hset df_tp df_pin) as [I [N S]].
    fold out in I, N, S. split.
    { unfold Crit_29_3.judge_io_connector_in_tp_network.
      destruct (is_empty df_tp || is_empty df_pin); [reflexivity |].
      destruct (is_empty _); reflexivity. }
    split; [| split; assumption].
    intros r. rewrite I. split.
    + intros [s [t [p [Ht [Hp [Et [Ep ->]]]]]]].
      destruct t as [l tn], p as [rr pn]. cbn in *. subst.
      exists l, rr, s. auto.
    + intros [l [rr [n [Ht [Hp ->]]]]].
      exists n, (Crit_29_3.mk_tp_net_row l (Some n)),
        (Crit_29_3.mk_pin_net_row rr (Some n)). auto 8.
  - intros tp_df connector_df out.
    destruct (join_32_3_rows re_match_digit Hset tp_df connector_df) as [I [N S]].
    fold out in I, N, S. split.
    { unfold Criteria_32_3.judge_io_connector_in_tp_network.
      destruct (is_empty tp_df); [reflexivity |].
      destruct (is_empty connector_df); [reflexivity |].
      destruct (is_empty _); reflexivity. }
    split; [| split; assumption].
    intros r. rewrite I. split.
    + intros [n [t [c [Ht [Hc [Et [Ec ->]]]]]]].
      destruct t as [l tn], c as [rr cn]. cbn in *. subst.
      exists l, rr, n. auto.
    + intros [l [rr [n [Ht [Hc ->]]]]].
      exists n, (Criteria_32_3.mk_tp_net_row l (Some n)),
        (Criteria_32_3.mk_connector_net_row rr (Some n)). auto 8.
Qed.

Lemma iter_in_order_contract : set_iter_contract iter_in_order.
Proof. intros A l x. reflexivity. Qed.

(** The theorem applied to sets iterated in list order, ASCII digits, and
    the sample tables, the pin table holding a pin without identifier. *)
Lemma net_join_result_witness :
  set_iter_contract iter_in_order /\
  NoDup (rows (Crit_29_3.judge_io_connector_in_tp_network
                 iter_in_order ascii_digit_prefix join_tp_29 join_pin_29_missing)) /\
  NoDup (rows (Criteria_32_3.judge_io_connector_in_tp_network
                 iter_in_order ascii_digit_prefix
                 (Ret join_tp_32) (Ret join_connector_32))).
Proof.
  split; [exact iter_in_order_contract |].
  destruct (net_join_result ascii_digit_prefix iter_in_order_contract) as [H29 H32].
  split.
  - exact (proj1 (proj2 (proj2 (H29 join_tp_29 join_pin_29_missing)))).
  - exact (proj1 (proj2 (proj2 (H32 join_tp_32 join_connector_32)))).
Defined.

(** C9, as stated, fails on crit_29_3.  The test point [A] and a pin
    without identifier share the net [N1]: the join returns a row for
    the pair, whose right identifier and label are both missing, after
    the row of [A] and the pin [X]. *)
Lemma net_join_row_without_label :
  Crit_29_3.judge_io_connector_in_tp_network iter_in_order ascii_digit_prefix
    join_tp_29 join_pin_29_missing
  = mkDataFrame ["testpoint_id"; "pin_id"; "net_name"; "matching_pairs"]%string
      [Crit_29_3.mk_match_row (Some "A") (Some "X") (Some "N1") (Some "A - X");
       Crit_29_3.mk_match_row (Some "A") None (Some "N1") None]%string.
Proof. vm_compute. reflexivity. Qed.

End Joins.

(** ** Further facts on binary64 arithmetic *)

Module FloatMore.
Local Open Scope float_scope.

Lemma is_nan_nan : is_nan nan = true.
Proof. reflexivity. Qed.

Lemma ltb_nan_l (y : float) : (nan <? y) = false.
Proof. rewrite ltb_spec. reflexivity. Qed.

Lemma sub_nan_l (y : float) : nan - y = nan.
Proof. apply Prim2SF_inj. rewrite sub_spec. reflexivity. Qed.

Lemma sub_nan_r (x : float) : x - nan = nan.
Proof.
  apply Prim2SF_inj. rewrite sub_spec. change (Prim2SF nan) with S754_nan.
  destruct (Prim2SF x); reflexivity.
Qed.

Lemma mul_nan_l (y : float) : nan * y = nan.
Proof. apply Prim2SF_inj. rewrite mul_spec. reflexivity. Qed.

Lemma div_nan_l (y : float) : nan / y = nan.
Proof. apply Prim2SF_inj. rewrite div_spec. reflexivity. Qed.

(** A rounded magnitude with the positive sign is not below zero. *)
Lemma binary_round_aux_not_neg (m e : Z) (l : location) :
  SFltb (binary_round_aux prec emax false m e l) (S754_zero false) = false.
Proof.
  unfold binary_round_aux.
  destruct (shr_fexp prec emax m e l) as [mrs' e'].
  destruct (shr_fexp prec emax _ e' loc_Exact) as [mrs'' e''].
  destruct (shr_m mrs''); try reflexivity.
  destruct (e'' <=? emax - prec)%Z; reflexivity.
Qed.

(** A square root is never below zero: it is positive, a zero, or NaN. *)
Lemma sqrt_not_neg (x : float) : (sqrt x <? 0) = false.
Proof.
  rewrite ltb_spec, sqrt_spec. change (Prim2SF 0) with (S754_zero false).
  destruct (Prim2SF x) as [s | s | | s m e]; try reflexivity.
  - destruct s; reflexivity.
  - destruct s; [reflexivity |].
    unfold SF64sqrt, SFsqrt.
    destruct (SFsqrt_core_binary prec emax (Z.pos m) e) as [[mz ez] lz].
    apply binary_round_aux_not_neg.
Qed.

Lemma SFabs_opp (z : spec_float) : SFabs (SFopp z) = SFabs z.
Proof. destruct z; reflexivity. Qed.

Lemma SFabs_binary_normalize_opp (m e : Z) :
  SFabs (binary_normalize prec emax (- m) e false)
  = SFabs (binary_normalize prec emax m e false).
Proof.
  destruct m as [| p | p]; simpl; try reflexivity.
  - rewrite FloatFacts.binary_round_opp. apply SFabs_opp.
  - rewrite FloatFacts.binary_round_opp. symmetry. apply SFabs_opp.
Qed.

Lemma SFabs_sub_comm (x y : spec_float) :
  SFabs (SF64sub x y) = SFabs (SF64sub y x).
Proof.
  destruct x as [sx | sx | | sx mx ex], y as [sy | sy | | sy my ey];
    try reflexivity; try (destruct sx, sy; reflexivity).
  unfold SF64sub, SFsub. rewrite (Z.min_comm ey ex).
  rewrite <- SFabs_binary_normalize_opp. rewrite Z.opp_sub_distr, Z.add_comm.
  reflexivity.
Qed.

(** The magnitude of a difference does not depend on the order. *)
Lemma abs_sub_comm (x y : float) : abs (x - y) = abs (y - x).
Proof. apply Prim2SF_inj. rewrite !abs_spec, !sub_spec. apply SFabs_sub_comm. Qed.

End FloatMore.

(** ** Further properties of the distance functions *)

Section DistanceMore.
Import Py Criteria_35_4.
Local Open Scope float_scope.

Lemma norm_not_neg (v : Np.point) : (Np.norm v <? 0) = false.
Proof. apply FloatMore.sqrt_not_neg. Qed.

Lemma py_min_cases (a b : float) : Py.min a b = a \/ Py.min a b = b.
Proof. unfold Py.min. destruct (b <? a); auto. Qed.

Lemma py_min_not_neg (a b : float) :
  (a <? 0) = false -> (b <? 0) = false -> (Py.min a b <? 0) = false.
Proof. intros Ha Hb. destruct (py_min_cases a b) as [E | E]; now rewrite E. Qed.

(** The dispatcher gives the same distance whichever of two shapes is the
    subject, when both are rectangles and when one is a rectangle and the
    other a circle. *)
Theorem calculate_distance_rect_symmetric :
  forall (float_pow2 : Py.power)
         (c1 : Np.point) (w1 h1 : float) (c2 : Np.point) (w2 h2 : float)
         (c : Np.point) (r : float),
    _calculate_distance float_pow2
      "RECT" (Tuple_c_w_h c1 w1 h1) "RECT" (Tuple_c_w_h c2 w2 h2)
    = _calculate_distance float_pow2
        "RECT" (Tuple_c_w_h c2 w2 h2) "RECT" (Tuple_c_w_h c1 w1 h1)
    /\ _calculate_distance float_pow2
         "RECT" (Tuple_c_w_h c1 w1 h1) "CIRCLE" (Tuple_c_r c r)
       = _calculate_distance float_pow2
           "CIRCLE" (Tuple_c_r c r) "RECT" (Tuple_c_w_h c1 w1 h1).
Proof.
  intros float_pow2 [x1 y1] w1 h1 [x2 y2] w2 h2 c r. split; [| reflexivity].
  unfold _calculate_distance. cbn [String.eqb Ascii.eqb Bool.eqb fst snd]. cbv zeta.
  rewrite (FloatMore.abs_sub_comm x2 x1), (FloatMore.abs_sub_comm y2 y1).
  rewrite (FloatFacts.add_comm (w2 / 2) (w1 / 2)), (FloatFacts.add_comm (h2 / 2) (h1 / 2)).
  reflexivity.
Qed.

(** The distance from a point to a segment is never negative. *)
Lemma dist_point_to_segment_not_negative :
  forall p a b : Np.point, (_dist_point_to_segment p a b <? 0) = false.
Proof.
  intros p a b. unfold _dist_point_to_segment.
  destruct (Np.array_equal a b); apply norm_not_neg.
Qed.

(** The signed distance from a point to a rectangle is negative only for
    a point inside: both per-axis deltas are then at most zero and the
    distance is the larger of the two.  This holds for the version on
    centre and size and for the version on corners. *)
Theorem dist_signed_negative_inside :
  forall (p c : Np.point) (w h : float) (rect_min rect_max : Np.point),
    ((Criteria_35_4._dist_signed_point_to_rect p c w h <? 0) = true ->
     (abs (fst p - fst c) - w / 2 <=? 0) = true /\
     (abs (snd p - snd c) - h / 2 <=? 0) = true /\
     Criteria_35_4._dist_signed_point_to_rect p c w h
     = Np.maximum (abs (fst p - fst c) - w / 2) (abs (snd p - snd c) - h / 2))
    /\ ((Criteria_37_4._dist_signed_point_to_rect p rect_min rect_max <? 0) = true ->
        (abs (fst p - (fst rect_min + fst rect_max) / 2)
         - (fst rect_max - fst rect_min) / 2 <=? 0) = true /\
        (abs (snd p - (snd rect_min + snd rect_max) / 2)
         - (snd rect_max - snd rect_min) / 2 <=? 0) = true).
Proof.
  intros p c w h rect_min rect_max. split.
  - unfold Criteria_35_4._dist_signed_point_to_rect. cbv zeta.
    unfold Np.sub, Np.abs. cbn [fst snd].
    destruct (abs (fst p - fst c) - w / 2 <=? 0) eqn:Ex;
      destruct (abs (snd p - snd c) - h / 2 <=? 0) eqn:Ey; cbn [andb];
      try (rewrite norm_not_neg; discriminate).
    intros _. repeat split; reflexivity.
  - unfold Criteria_37_4._dist_signed_point_to_rect. cbv zeta.
    unfold Np.sub, Np.abs, Np.add. cbn [fst snd].
    destruct (abs (fst p - (fst rect_min + fst rect_max) / 2)
              - (fst rect_max - fst rect_min) / 2 <=? 0) eqn:Ex;
      destruct (abs (snd p - (snd rect_min + snd rect_max) / 2)
                - (snd rect_max - snd rect_min) / 2 <=? 0) eqn:Ey; cbn [andb];
      try (rewrite norm_not_neg; discriminate).
    intros _. split; reflexivity.
Qed.

(** The theorem applied to the point (1, 1) and the rectangle centred at
    the origin with sides 4 and 6, whose corners are (-2, -3) and (2, 3). *)
Lemma dist_signed_negative_inside_witness :
  (Criteria_35_4._dist_signed_point_to_rect (1, 1) (0, 0) 4 6 <? 0) = true /\
  (Criteria_37_4._dist_signed_point_to_rect (1, 1) (-2, -3) (2, 3) <? 0) = true /\
  Criteria_35_4._dist_signed_point_to_rect (1, 1) (0, 0) 4 6
  = Np.maximum (abs (1 - 0) - 4 / 2) (abs (1 - 0) - 6 / 2).
Proof.
  split; [reflexivity |]. split; [reflexivity |].
  destruct (dist_signed_negative_inside (1, 1) (0, 0) 4 6 (-2, -3) (2, 3))
    as [H _].
  destruct H as [_ [_ E]]; [reflexivity | exact E].
Defined.

(** A segment is judged to overlap a rectangle only through an endpoint:
    when the dispatcher returns a negative distance for a segment against
    a rectangle, one endpoint of the segment has a negative signed distance
    to the rectangle, and the distance returned is the smaller of the two
    endpoint distances. *)
Theorem calculate_distance_line_rect_negative :
  forall (float_pow2 : Py.power) (tp_a tp_b pad_c : Np.point) (pad_w pad_h d : float),
    _calculate_distance float_pow2 "LINE" (Tuple_a_b tp_a tp_b)
                        "RECT" (Tuple_c_w_h pad_c pad_w pad_h) = Ret d ->
    (d <? 0) = true ->
    d = Py.min (_dist_signed_point_to_rect tp_a pad_c pad_w pad_h)
               (_dist_signed_point_to_rect tp_b pad_c pad_w pad_h)
    /\ ((_dist_signed_point_to_rect tp_a pad_c pad_w pad_h <? 0) = true \/
        (_dist_signed_point_to_rect tp_b pad_c pad_w pad_h <? 0) = true).
Proof.
  intros float_pow2 tp_a tp_b pad_c pad_w pad_h d.
  unfold _calculate_distance. cbn [String.eqb Ascii.eqb Bool.eqb]. cbv zeta.
  set (dist_a := _dist_signed_point_to_rect tp_a pad_c pad_w pad_h).
  set (dist_b := _dist_signed_point_to_rect tp_b pad_c pad_w pad_h).
  destruct (Py.min dist_a dist_b <? 0) eqn:E.
  - intros H _. injection H as <-. split; [reflexivity |].
    destruct (py_min_cases dist_a dist_b) as [M | M]; rewrite M in E; auto.
  - intros H Hd. injection H as <-. exfalso. cbn [fold_left] in Hd.
    assert (N : forall m q a b, (m <? 0) = false ->
                (Py.min m (_dist_point_to_segment q a b) <? 0) = false)
      by (intros; apply py_min_not_neg;
          [assumption | apply dist_point_to_segment_not_negative]).
    rewrite N in Hd; [discriminate |]. do 3 apply N. exact E.
Qed.

(** The theorem applied to the segment from (0, 0) to (5, 0) and the
    square of side 2 centred at the origin. *)
Lemma calculate_distance_line_rect_negative_witness :
  _calculate_distance Examples.square_pow "LINE" (Tuple_a_b (0, 0) (5, 0))
                      "RECT" (Tuple_c_w_h (0, 0) 2 2) = Ret (-1) /\
  (-1 <? 0) = true /\
  -1 = Py.min (_dist_signed_point_to_rect (0, 0) (0, 0) 2 2)
              (_dist_signed_point_to_rect (5, 0) (0, 0) 2 2).
Proof.
  assert (E : _calculate_distance Examples.square_pow "LINE" (Tuple_a_b (0, 0) (5, 0))
                                  "RECT" (Tuple_c_w_h (0, 0) 2 2) = Ret (-1))
    by (vm_compute; reflexivity).
  split; [exact E |]. split; [reflexivity |].
  exact (proj1 (@calculate_distance_line_rect_negative Examples.square_pow
                  _ _ _ _ _ _ E eq_refl)).
Defined.

(** A segment that crosses a square with both endpoints outside it is at
    distance 1 for the dispatcher. *)
Example crossing_segment_not_overlapping :
  _calculate_distance Examples.square_pow "LINE" (Tuple_a_b (-2, 0) (2, 0))
                      "RECT" (Tuple_c_w_h (0, 0) 2 2) = Ret 1.
Proof. vm_compute. reflexivity. Qed.

End DistanceMore.

(** ** Parameter tuples of another form than the tag asks for

    The dispatchers unpack a tuple by its length alone.  These examples
    fix what the embedding says of a tuple of two whose second member is
    of the other kind. *)

Section OtherTuples.
Import Py Examples.
Local Open Scope float_scope.

(** A tuple where a radius is expected: the numpy float it is subtracted
    from is broadcast, and the dispatcher returns an array. *)
Example dispatcher_returns_array :
  forall float_pow2 : Py.power,
    Criteria_35_4._calculate_distance float_pow2
      "RECT" (Tuple_c_w_h (0, 0) 2 2) "CIRCLE" (Tuple_a_b (3, 0) (1, 2))
    = Ret (Np.Array 1 0 [])
    /\ Criteria_35_4._calculate_distance float_pow2
         "CIRCLE" (Tuple_a_b (0, 0) (1, 2)) "CIRCLE" (Tuple_a_b (3, 4) (1, 2))
       = Ret (Np.Array 4 3 [4; 3])
    /\ Criteria_37_4._calculate_distance
         "CIRCLE" (Tuple_a_b (1, 1) (1, 2)) "OTHER" (Tuple_a_b (0, 0) (4, 4))
       = Ret (Np.Array (-2) (-3) []).
Proof. intros float_pow2. repeat split; vm_compute; reflexivity. Qed.

(** A float where a point is expected is read as the point with that
    float for both coordinates. *)
Example dispatcher_broadcasts_float :
  forall float_pow2 : Py.power,
    Criteria_35_4._calculate_distance float_pow2
      "LINE" (Tuple_c_r (0, 0) 4) "RECT" (Tuple_c_w_h (4, 0) 2 2)
    = Ret (sqrt 2)
    /\ Criteria_35_4._calculate_distance float_pow2
         "LINE" (Tuple_c_r (0, 0) 4) "CIRCLE" (Tuple_c_r (4, 0) 1)
       = Ret (sqrt 8 - 1)
    /\ Criteria_37_4._calculate_distance
         "CIRCLE" (Tuple_c_r (1, 1) 1) "OTHER" (Tuple_c_r (0, 0) 4)
       = Ret (-2).
Proof. intros float_pow2. repeat split; vm_compute; reflexivity. Qed.

(** A float added to a tuple is a [TypeError]; a pair of tags without a
    case is infinity whatever the tuples are, once the first is unpacked;
    and a loop that meets an array cannot test its sign. *)
Example dispatcher_mismatch_errors :
  forall float_pow2 : Py.power,
    Criteria_35_4._calculate_distance float_pow2
      "CIRCLE" (Tuple_c_r (0, 0) 1) "CIRCLE" (Tuple_a_b (3, 4) (1, 2))
    = Raise TypeError
    /\ Criteria_35_4._calculate_distance float_pow2
         "CIRCLE" (Tuple_a_b (0, 0) (1, 2)) "LINE" (Tuple_a_b (3, 4) (1, 2))
       = Ret infinity
    /\ Criteria_35_4._calculate_distance float_pow2
         "CIRCLE" (Tuple_c_w_h (0, 0) 1 2) "LINE" (Tuple_a_b (3, 4) (1, 2))
       = Raise ValueError
    /\ Criteria_35_4.pad_loop float_pow2 "TOP" tp1
         "CIRCLE" (Tuple_a_b (0, 0) (1, 2)) [plain_pad] []
       = Raise ValueError.
Proof. intros float_pow2. repeat split; vm_compute; reflexivity. Qed.

End OtherTuples.

(** ** Further properties of the released matchers *)

Section MatchersMore.
Import Py Defined Examples.
Local Open Scope float_scope.

Variable float_pow2 : Py.power.

Lemma ltb_of_nan (d : float) : d = nan -> (d <? 0) = false.
Proof. intros ->. reflexivity. Qed.

Lemma mul_nan_r (x : float) : x * nan = nan.
Proof.
  apply Prim2SF_inj. rewrite mul_spec. change (Prim2SF nan) with S754_nan.
  destruct (Prim2SF x); reflexivity.
Qed.

Lemma norm_nan_l (y : float) : Np.norm (nan, y) = nan.
Proof.
  unfold Np.norm, Np.dot. cbn [fst snd].
  rewrite FloatMore.mul_nan_l, FloatFacts.add_nan_l. reflexivity.
Qed.

Lemma norm_nan_r (x : float) : Np.norm (x, nan) = nan.
Proof.
  unfold Np.norm, Np.dot. cbn [fst snd].
  rewrite FloatMore.mul_nan_l, FloatFacts.add_nan_r. reflexivity.
Qed.

Lemma maximum_nan_l (y : float) : Np.maximum nan y = nan.
Proof. unfold Np.maximum. now rewrite orb_true_r. Qed.

(** A NaN per-axis delta makes the signed distance NaN. *)
Lemma signed_distance_nan_x (p c : Np.point) (half_w half_h : float) :
  abs (fst p - fst c) - half_w = nan ->
  Formulas.signed_distance_point_to_rect p c half_w half_h = nan.
Proof.
  intros E. unfold Formulas.signed_distance_point_to_rect. cbv zeta. rewrite E.
  cbn [andb]. change (nan <=? 0) with false. cbn [andb].
  rewrite maximum_nan_l, FloatMore.mul_nan_l, FloatFacts.add_nan_l. reflexivity.
Qed.

Lemma signed_distance_nan_y (p c : Np.point) (half_w half_h : float) :
  abs (snd p - snd c) - half_h = nan ->
  Formulas.signed_distance_point_to_rect p c half_w half_h = nan.
Proof.
  intros E. unfold Formulas.signed_distance_point_to_rect. cbv zeta. rewrite E.
  change (nan <=? 0) with false. rewrite andb_false_r.
  rewrite maximum_nan_l, FloatMore.mul_nan_l, FloatFacts.add_nan_r. reflexivity.
Qed.

Lemma defined_false (a b : float) (rest : bool) :
  negb (is_nan a) && rest = false -> a = nan \/ rest = false.
Proof.
  destruct (is_nan a) eqn:E; cbn.
  - intros _. left. now apply FloatFacts.is_nan_true.
  - intros H. right. exact H.
Qed.

Lemma is_nan_false_or (a : float) : is_nan a = true -> a = nan.
Proof. apply FloatFacts.is_nan_true. Qed.

(** Rewriting with the propagation of NaN through the operations. *)
Ltac nan_calc :=
  repeat first
    [ rewrite FloatMore.sub_nan_l | rewrite FloatMore.sub_nan_r
    | rewrite FloatMore.div_nan_l
    | rewrite FloatFacts.add_nan_l | rewrite FloatFacts.add_nan_r
    | rewrite FloatMore.mul_nan_l | rewrite mul_nan_r
    | rewrite norm_nan_l | rewrite norm_nan_r
    | progress change (abs nan) with nan ];
  try reflexivity.

(** A test point with an undefined field overlaps no pad. *)
Lemma undefined_tp_no_overlap (layer_name : string) (t : tp_row) (p : pad_row) :
  defined_tp t = false -> Overlaps_35_4.overlap_of layer_name t p = [].
Proof.
  intros H. unfold Overlaps_35_4.overlap_of.
  assert (N : (Overlaps_35_4.pad_distance t p <? 0) = false); [| now rewrite N].
  unfold defined_tp in H. rewrite !andb_false_iff, !negb_false_iff in H.
  unfold Overlaps_35_4.pad_distance.
  destruct (PAD_SHAPE_NAME p =? "CIRCLE")%string.
  - apply ltb_of_nan. unfold Np.sub. cbn [fst snd].
    destruct H as [[H | H] | H]; apply is_nan_false_or in H; rewrite H; nan_calc.
  - destruct (PAD_SHAPE_NAME p =? "FIG_SHAPE SHAPE1_5X2_4")%string; [reflexivity |].
    apply ltb_of_nan.
    change (Criteria_35_4._dist_signed_point_to_rect (tp_x t, tp_y t)
              (pad_x p, pad_y p) (pad_width p) (pad_height p))
      with (Formulas.signed_distance_point_to_rect (tp_x t, tp_y t)
              (pad_x p, pad_y p) (pad_width p / 2) (pad_height p / 2)).
    destruct H as [[H | H] | H]; apply is_nan_false_or in H.
    + rewrite signed_distance_nan_x; [apply FloatMore.sub_nan_l |].
      cbn [fst snd]. rewrite H. nan_calc.
    + rewrite signed_distance_nan_y; [apply FloatMore.sub_nan_l |].
      cbn [fst snd]. rewrite H. nan_calc.
    + rewrite H. nan_calc.
Qed.

(** A pad with an undefined field overlaps no test point. *)
Lemma undefined_pad_no_overlap (layer_name : string) (t : tp_row) (p : pad_row) :
  defined_pad p = false -> Overlaps_35_4.overlap_of layer_name t p = [].
Proof.
  intros H. unfold Overlaps_35_4.overlap_of.
  assert (N : (Overlaps_35_4.pad_distance t p <? 0) = false); [| now rewrite N].
  unfold defined_pad in H. rewrite !andb_false_iff, !negb_false_iff in H.
  unfold Overlaps_35_4.pad_distance.
  destruct (PAD_SHAPE_NAME p =? "CIRCLE")%string.
  - apply ltb_of_nan. unfold Np.sub. cbn [fst snd].
    destruct H as [[[H | H] | H] | H]; [| | | discriminate H];
      apply is_nan_false_or in H; rewrite H; nan_calc.
  - destruct (PAD_SHAPE_NAME p =? "FIG_SHAPE SHAPE1_5X2_4")%string; [reflexivity |].
    apply ltb_of_nan.
    change (Criteria_35_4._dist_signed_point_to_rect (tp_x t, tp_y t)
              (pad_x p, pad_y p) (pad_width p) (pad_height p))
      with (Formulas.signed_distance_point_to_rect (tp_x t, tp_y t)
              (pad_x p, pad_y p) (pad_width p / 2) (pad_height p / 2)).
    cbn [orb] in H. rewrite negb_false_iff in H.
    destruct H as [[[H | H] | H] | H]; apply is_nan_false_or in H.
    + rewrite signed_distance_nan_x; [apply FloatMore.sub_nan_l |].
      cbn [fst snd]. rewrite H. nan_calc.
    + rewrite signed_distance_nan_y; [apply FloatMore.sub_nan_l |].
      cbn [fst snd]. rewrite H. nan_calc.
    + rewrite signed_distance_nan_x; [apply FloatMore.sub_nan_l |].
      rewrite H. nan_calc.
    + rewrite signed_distance_nan_y; [apply FloatMore.sub_nan_l |].
      rewrite H. nan_calc.
Qed.

Lemma flat_map_filter_skip (A B : Type) (f : A -> list B) (g : A -> bool)
    (l : list A) :
  (forall x, g x = false -> f x = []) -> flat_map f (filter g l) = flat_map f l.
Proof.
  intros H. induction l as [| x l IH]; [reflexivity |].
  cbn [filter flat_map]. destruct (g x) eqn:G.
  - cbn [flat_map]. now rewrite IH.
  - rewrite (H x G). exact IH.
Qed.

Lemma flat_map_all_nil (A B : Type) (f : A -> list B) (l : list A) :
  (forall x, f x = []) -> flat_map f l = [].
Proof.
  intros H. induction l as [| x l IH]; [reflexivity |].
  cbn [flat_map]. now rewrite H, IH.
Qed.

Lemma filter_swap (A : Type) (f g : A -> bool) (l : list A) :
  filter f (filter g l) = filter g (filter f l).
Proof.
  induction l as [| x l IH]; [reflexivity |]. cbn [filter].
  destruct (f x) eqn:F, (g x) eqn:G; cbn [filter]; rewrite ?F, ?G, IH; reflexivity.
Qed.

Lemma layer_overlaps_35_defined (layer_name : string) (tps : list tp_row)
    (pads : list pad_row) :
  Overlaps_35_4.layer_overlaps layer_name (filter defined_tp tps)
                               (filter defined_pad pads)
  = Overlaps_35_4.layer_overlaps layer_name tps pads.
Proof.
  unfold Overlaps_35_4.layer_overlaps.
  rewrite flat_map_filter_skip.
  - apply flat_map_ext. intros t. apply flat_map_filter_skip.
    intros p. apply undefined_pad_no_overlap.
  - intros t H. apply flat_map_all_nil. intros p.
    now apply undefined_tp_no_overlap.
Qed.

Lemma undefined_tp_no_overlap_37 (layer_name : string) (t : tp_row)
    (c : Criteria_37_4.component_row) :
  defined_tp t = false -> Overlaps_37_4.overlap_of layer_name t c = [].
Proof.
  intros H. unfold Overlaps_37_4.overlap_of.
  destruct (testpoint_id t =? Criteria_37_4.component_id c)%string; [reflexivity |].
  assert (N : (Overlaps_37_4.component_distance t c <? 0) = false); [| now rewrite N].
  unfold defined_tp in H. rewrite !andb_false_iff, !negb_false_iff in H.
  unfold Overlaps_37_4.component_distance. apply ltb_of_nan.
  change (Criteria_37_4._dist_signed_point_to_rect (tp_x t, tp_y t)
            (Criteria_37_4.min_x c, Criteria_37_4.min_y c)
            (Criteria_37_4.max_x c, Criteria_37_4.max_y c))
    with (Formulas.signed_distance_point_to_rect (tp_x t, tp_y t)
            ((Criteria_37_4.min_x c + Criteria_37_4.max_x c) / 2,
             (Criteria_37_4.min_y c + Criteria_37_4.max_y c) / 2)
            ((Criteria_37_4.max_x c - Criteria_37_4.min_x c) / 2)
            ((Criteria_37_4.max_y c - Criteria_37_4.min_y c) / 2)).
  destruct H as [[H | H] | H]; apply is_nan_false_or in H.
  - rewrite signed_distance_nan_x; [apply FloatMore.sub_nan_l |].
    cbn [fst snd]. rewrite H. nan_calc.
  - rewrite signed_distance_nan_y; [apply FloatMore.sub_nan_l |].
    cbn [fst snd]. rewrite H. nan_calc.
  - rewrite H. nan_calc.
Qed.

Lemma undefined_component_no_overlap (layer_name : string) (t : tp_row)
    (c : Criteria_37_4.component_row) :
  defined_component c = false -> Overlaps_37_4.overlap_of layer_name t c = [].
Proof.
  intros H. unfold Overlaps_37_4.overlap_of.
  destruct (testpoint_id t =? Criteria_37_4.component_id c)%string; [reflexivity |].
  assert (N : (Overlaps_37_4.component_distance t c <? 0) = false); [| now rewrite N].
  unfold defined_component in H. rewrite !andb_false_iff, !negb_false_iff in H.
  unfold Overlaps_37_4.component_distance. apply ltb_of_nan.
  change (Criteria_37_4._dist_signed_point_to_rect (tp_x t, tp_y t)
            (Criteria_37_4.min_x c, Criteria_37_4.min_y c)
            (Criteria_37_4.max_x c, Criteria_37_4.max_y c))
    with (Formulas.signed_distance_point_to_rect (tp_x t, tp_y t)
            ((Criteria_37_4.min_x c + Criteria_37_4.max_x c) / 2,
             (Criteria_37_4.min_y c + Criteria_37_4.max_y c) / 2)
            ((Criteria_37_4.max_x c - Criteria_37_4.min_x c) / 2)
            ((Criteria_37_4.max_y c - Criteria_37_4.min_y c) / 2)).
  destruct H as [[[H | H] | H] | H]; apply is_nan_false_or in H.
  - rewrite signed_distance_nan_x; [apply FloatMore.sub_nan_l |].
    cbn [fst snd]. rewrite H. nan_calc.
  - rewrite signed_distance_nan_y; [apply FloatMore.sub_nan_l |].
    cbn [fst snd]. rewrite H. nan_calc.
  - rewrite signed_distance_nan_x; [apply FloatMore.sub_nan_l |].
    cbn [fst snd]. rewrite H. nan_calc.
  - rewrite signed_distance_nan_y; [apply FloatMore.sub_nan_l |].
    cbn [fst snd]. rewrite H. nan_calc.
Qed.

Lemma layer_overlaps_37_defined (layer_name : string) (tps : list tp_row)
    (cs : list Criteria_37_4.component_row) :
  Overlaps_37_4.layer_overlaps layer_name (filter defined_tp tps)
                               (filter defined_component cs)
  = Overlaps_37_4.layer_overlaps layer_name tps cs.
Proof.
  unfold Overlaps_37_4.layer_overlaps.
  rewrite flat_map_filter_skip.
  - apply flat_map_ext. intros t. apply flat_map_filter_skip.
    intros c. apply undefined_component_no_overlap.
  - intros t H. apply flat_map_all_nil. intros c.
    now apply undefined_tp_no_overlap_37.
Qed.

(** Rows with an undefined coordinate or size never take part in an
    overlap: deleting from the tables the test points whose [x], [y] or
    [width] is NaN, the pads whose [x], [y], [width] or (unless circular)
    [height] is NaN, and the components with a NaN corner, does not change
    what a matcher returns. *)
Theorem undefined_geometry_excluded :
  forall (tp_df : list tp_row) (pad_df : list pad_row)
         (component_df : list Criteria_37_4.component_row),
    Criteria_35_4.judge_tp_pad_pin_positions float_pow2
      (Ret (filter defined_tp tp_df)) (Ret (filter defined_pad pad_df))
    = Criteria_35_4.judge_tp_pad_pin_positions float_pow2 (Ret tp_df) (Ret pad_df)
    /\ Criteria_37_4.judge_tp_component_coverage
         (Ret (filter defined_tp tp_df)) (Ret (filter defined_component component_df))
       = Criteria_37_4.judge_tp_component_coverage (Ret tp_df) (Ret component_df).
Proof.
  intros tp_df pad_df component_df. split.
  - rewrite !judge_tp_pad_pin_positions_eq. do 2 f_equal.
    unfold Overlaps_35_4.overlaps, Overlaps_35_4.tp_on, Overlaps_35_4.pad_on.
    rewrite !(filter_swap _ defined_tp), !(filter_swap _ defined_pad).
    now rewrite !layer_overlaps_35_defined.
  - rewrite !judge_tp_component_coverage_eq. do 2 f_equal.
    unfold Overlaps_37_4.overlaps, Overlaps_37_4.tp_on, Overlaps_37_4.component_on,
      Criteria_37_4.select_layer.
    rewrite !(filter_swap _ defined_tp), !(filter_swap _ defined_component).
    now rewrite !layer_overlaps_37_defined.
Qed.

End MatchersMore.

(** ** The structure of the matchers' results *)

Section MatcherStructure.
Import Py Defined Examples.
Local Open Scope float_scope.

Variable float_pow2 : Py.power.

Lemma in_overlaps_35 (tp_df : list tp_row) (pad_df : list pad_row)
    (r : Criteria_35_4.overlap) :
  In r (Overlaps_35_4.overlaps tp_df pad_df) <->
  exists t p layer_name,
    In t tp_df /\ In p pad_df /\
    ((layer_name = "TOP" /\ tp_layer t = "SOLDERMASK_TOP" /\ pad_layer p = "TOP") \/
     (layer_name = "BOTTOM" /\ tp_layer t = "SOLDERMASK_BOTTOM"
      /\ pad_layer p = "BOTTOM"))%string /\
    (Overlaps_35_4.pad_distance t p <? 0) = true /\
    r = Criteria_35_4.mk_overlap (testpoint_id t) (pad_id p) layer_name
          (Overlaps_35_4.pad_distance t p).
Proof.
  unfold Overlaps_35_4.overlaps, Overlaps_35_4.tp_on, Overlaps_35_4.pad_on.
  rewrite in_app_iff, !in_layer_overlaps_35. split.
  - intros [[t [p [Ht [Hp H]]]] | [t [p [Ht [Hp H]]]]];
      apply filter_In in Ht; apply filter_In in Hp;
      destruct Ht as [Ht Et], Hp as [Hp Ep];
      apply String.eqb_eq in Et; apply String.eqb_eq in Ep.
    + exists t, p, "TOP"%string. destruct H as [D ->].
      split; [exact Ht |]. split; [exact Hp |]. split; [left; auto |]. auto.
    + exists t, p, "BOTTOM"%string. destruct H as [D ->].
      split; [exact Ht |]. split; [exact Hp |]. split; [right; auto |]. auto.
  - intros [t [p [layer_name [Ht [Hp [[[-> [Et Ep]] | [-> [Et Ep]]] H]]]]]];
      [left | right]; exists t, p; rewrite !filter_In, Et, Ep; auto.
Qed.

Lemma in_overlaps_37 (tp_df : list tp_row)
    (component_df : list Criteria_37_4.component_row)
    (r : Criteria_37_4.overlap) :
  In r (Overlaps_37_4.overlaps tp_df component_df) <->
  exists t c layer_name,
    In t tp_df /\ In c component_df /\
    (layer_name = "TOP" \/ layer_name = "BOTTOM")%string /\
    Criteria_37_4.tp_standard_layer (tp_layer t) = Some layer_name /\
    Criteria_37_4.component_standard_layer (Criteria_37_4.layer c) = Some layer_name /\
    testpoint_id t <> Criteria_37_4.component_id c /\
    (Overlaps_37_4.component_distance t c <? 0) = true /\
    r = Criteria_37_4.mk_overlap (testpoint_id t) (Criteria_37_4.component_id c)
          layer_name (Overlaps_37_4.component_distance t c).
Proof.
  unfold Overlaps_37_4.overlaps, Overlaps_37_4.tp_on, Overlaps_37_4.component_on.
  rewrite in_app_iff, !in_layer_overlaps_37. split.
  - intros [[t [c [Ht [Hc H]]]] | [t [c [Ht [Hc H]]]]];
      apply in_select_layer in Ht; apply in_select_layer in Hc;
      destruct Ht as [Ht Et], Hc as [Hc Ec].
    + exists t, c, "TOP"%string. destruct H as [N [D ->]]. auto 10.
    + exists t, c, "BOTTOM"%string. destruct H as [N [D ->]]. auto 10.
  - intros [t [c [layer_name [Ht [Hc [[-> | ->] [Et [Ec H]]]]]]]];
      [left | right]; exists t, c; rewrite !in_select_layer; auto.
Qed.

(** The pad matcher is sound and complete: it returns a frame with the
    declared columns whose records are exactly those of the pairs of a
    test point and a pad lying on the same side, TOP or BOTTOM, for which
    the dispatcher returns a negative distance; the record carries the two
    identifiers, the side and that distance. *)
Theorem pad_matcher_sound_complete :
  forall (tp_df : list tp_row) (pad_df : list pad_row),
  exists df,
    Criteria_35_4.judge_tp_pad_pin_positions float_pow2 (Ret tp_df) (Ret pad_df) = Ret df /\
    columns df = ["testpoint_id"; "pad_id"; "layer"; "distance"]%string /\
    forall r,
      In r (rows df) <->
      exists t p layer_name (d : float),
        In t tp_df /\ In p pad_df /\
        ((layer_name = "TOP" /\ tp_layer t = "SOLDERMASK_TOP"
          /\ pad_layer p = "TOP") \/
         (layer_name = "BOTTOM" /\ tp_layer t = "SOLDERMASK_BOTTOM"
          /\ pad_layer p = "BOTTOM"))%string /\
        Criteria_35_4._calculate_distance float_pow2
          "CIRCLE" (Tuple_c_r (tp_x t, tp_y t) (tp_width t / 2))
          (fst (Criteria_35_4.pad_shape_of p)) (snd (Criteria_35_4.pad_shape_of p))
        = Ret d /\
        (d <? 0) = true /\
        r = Criteria_35_4.mk_overlap (testpoint_id t) (pad_id p) layer_name d.
Proof.
  intros tp_df pad_df. eexists. split; [apply judge_tp_pad_pin_positions_eq |].
  split; [reflexivity |]. cbn [rows]. intros r. rewrite in_overlaps_35. split.
  - intros [t [p [layer_name [Ht [Hp [Hl [Hd ->]]]]]]].
    exists t, p, layer_name, (Overlaps_35_4.pad_distance t p).
    repeat split; auto. apply calculate_distance_pad.
  - intros [t [p [layer_name [d [Ht [Hp [Hl [Hc [Hd ->]]]]]]]]].
    pose proof (calculate_distance_pad float_pow2 t p) as E.
    unfold Overlaps_35_4.tp_circle in E. rewrite E in Hc. injection Hc as <-.
    exists t, p, layer_name. auto 8.
Qed.

(** The component matcher is sound and complete: its records are exactly
    those of the pairs of a test point and a component whose layers map to
    the same side, whose identifiers differ, and for which the dispatcher
    returns a negative distance. *)
Theorem component_matcher_sound_complete :
  forall (tp_df : list tp_row) (component_df : list Criteria_37_4.component_row),
  exists df,
    Criteria_37_4.judge_tp_component_coverage (Ret tp_df) (Ret component_df)
    = Ret df /\
    columns df = ["testpoint_id"; "component_id"; "layer"; "distance"]%string /\
    forall r,
      In r (rows df) <->
      exists t c layer_name (d : float),
        In t tp_df /\ In c component_df /\
        (layer_name = "TOP" \/ layer_name = "BOTTOM")%string /\
        Criteria_37_4.tp_standard_layer (tp_layer t) = Some layer_name /\
        Criteria_37_4.component_standard_layer (Criteria_37_4.layer c)
        = Some layer_name /\
        testpoint_id t <> Criteria_37_4.component_id c /\
        Criteria_37_4._calculate_distance
          "CIRCLE" (Tuple_c_r (tp_x t, tp_y t) (tp_width t / 2))
          (if (Criteria_37_4.shape_name c =? "LINE")%string then "LINE" else "OTHER")
          (Tuple_a_b (Criteria_37_4.min_x c, Criteria_37_4.min_y c)
                     (Criteria_37_4.max_x c, Criteria_37_4.max_y c))
        = Ret d /\
        (d <? 0) = true /\
        r = Criteria_37_4.mk_overlap (testpoint_id t) (Criteria_37_4.component_id c)
              layer_name d.
Proof.
  intros tp_df component_df. eexists.
  split; [apply judge_tp_component_coverage_eq |].
  split; [reflexivity |]. cbn [rows]. intros r. rewrite in_overlaps_37.
  assert (E : forall t c,
             Criteria_37_4._calculate_distance
               "CIRCLE" (Tuple_c_r (tp_x t, tp_y t) (tp_width t / 2))
               (if (Criteria_37_4.shape_name c =? "LINE")%string
                then "LINE" else "OTHER")
               (Tuple_a_b (Criteria_37_4.min_x c, Criteria_37_4.min_y c)
                          (Criteria_37_4.max_x c, Criteria_37_4.max_y c))
             = Ret (Overlaps_37_4.component_distance t c)).
  { intros t c. destruct (Criteria_37_4.shape_name c =? "LINE")%string; reflexivity. }
  split.
  - intros [t [c [layer_name [Ht [Hc [Hl [Et [Ec [N [Hd ->]]]]]]]]]].
    exists t, c, layer_name, (Overlaps_37_4.component_distance t c).
    repeat split; auto.
  - intros [t [c [layer_name [d [Ht [Hc [Hl [Et [Ec [N [Hcalc [Hd ->]]]]]]]]]]]].
    rewrite E in Hcalc. injection Hcalc as <-.
    exists t, c, layer_name. auto 10.
Qed.

(** No exception leaves a matcher.  When a data source raises, the frame
    returned has neither columns nor rows; on delivered tables the frame
    has the declared columns. *)
Theorem matchers_never_raise :
  (forall e get_pad_list,
     Criteria_35_4.judge_tp_pad_pin_positions float_pow2 (Raise e) get_pad_list
     = Ret (mkDataFrame [] []))
  /\ (forall tp_df e,
        Criteria_35_4.judge_tp_pad_pin_positions float_pow2 (Ret tp_df) (Raise e)
        = Ret (mkDataFrame [] []))
  /\ (forall tp_df pad_df, exists records,
        Criteria_35_4.judge_tp_pad_pin_positions float_pow2 (Ret tp_df) (Ret pad_df)
        = Ret (mkDataFrame ["testpoint_id"; "pad_id"; "layer"; "distance"]%string
                           records))
  /\ (forall e get_component_list,
        Criteria_37_4.judge_tp_component_coverage (Raise e) get_component_list
        = Ret (mkDataFrame [] []))
  /\ (forall tp_df e,
        Criteria_37_4.judge_tp_component_coverage (Ret tp_df) (Raise e)
        = Ret (mkDataFrame [] []))
  /\ (forall tp_df component_df, exists records,
        Criteria_37_4.judge_tp_component_coverage (Ret tp_df) (Ret component_df)
        = Ret (mkDataFrame
                 ["testpoint_id"; "component_id"; "layer"; "distance"]%string
                 records)).
Proof.
  repeat split; try reflexivity.
  - intros tp_df pad_df. eexists. apply judge_tp_pad_pin_positions_eq.
  - intros tp_df component_df. eexists. apply judge_tp_component_coverage_eq.
Qed.

Lemma filter_filter_disjoint (A : Type) (f g : A -> bool) (l : list A) :
  (forall x, f x = true -> g x = false) -> filter f (filter g l) = [].
Proof.
  intros H. induction l as [| x l IH]; [reflexivity |].
  cbn [filter]. destruct (g x) eqn:G; [| exact IH].
  cbn [filter]. destruct (f x) eqn:F; [| exact IH].
  apply H in F. congruence.
Qed.

(** The two sides are matched independently: the records a matcher
    returns are those it returns on the rows of the top side alone,
    followed by those it returns on the rows of the bottom side alone. *)
Theorem matcher_result_by_side :
  forall (tp_df : list tp_row) (pad_df : list pad_row),
    frame_rows (Criteria_35_4.judge_tp_pad_pin_positions float_pow2 (Ret tp_df) (Ret pad_df))
    = frame_rows
        (Criteria_35_4.judge_tp_pad_pin_positions float_pow2
           (Ret (filter (fun r => (tp_layer r =? "SOLDERMASK_TOP")%string) tp_df))
           (Ret (filter (fun r => (pad_layer r =? "TOP")%string) pad_df)))
      ++ frame_rows
           (Criteria_35_4.judge_tp_pad_pin_positions float_pow2
              (Ret (filter (fun r => (tp_layer r =? "SOLDERMASK_BOTTOM")%string) tp_df))
              (Ret (filter (fun r => (pad_layer r =? "BOTTOM")%string) pad_df))).
Proof.
  intros tp_df pad_df. rewrite !judge_tp_pad_pin_positions_eq.
  cbn [frame_rows rows].
  unfold Overlaps_35_4.overlaps, Overlaps_35_4.tp_on, Overlaps_35_4.pad_on.
  rewrite !(filter_filter_implied (fun r : tp_row => (tp_layer r =? "SOLDERMASK_TOP")%string)
              (fun r : tp_row => (tp_layer r =? "SOLDERMASK_TOP")%string)) by auto.
  rewrite !(filter_filter_implied
              (fun r : tp_row => (tp_layer r =? "SOLDERMASK_BOTTOM")%string)
              (fun r : tp_row => (tp_layer r =? "SOLDERMASK_BOTTOM")%string)) by auto.
  rewrite !(filter_filter_implied (fun r : pad_row => (pad_layer r =? "TOP")%string)
              (fun r : pad_row => (pad_layer r =? "TOP")%string)) by auto.
  rewrite !(filter_filter_implied (fun r : pad_row => (pad_layer r =? "BOTTOM")%string)
              (fun r : pad_row => (pad_layer r =? "BOTTOM")%string)) by auto.
  rewrite (filter_filter_disjoint
             (fun r : tp_row => (tp_layer r =? "SOLDERMASK_BOTTOM")%string)
             (fun r : tp_row => (tp_layer r =? "SOLDERMASK_TOP")%string)).
  2: { intros x E. apply String.eqb_eq in E. now rewrite E. }
  rewrite (filter_filter_disjoint
             (fun r : tp_row => (tp_layer r =? "SOLDERMASK_TOP")%string)
             (fun r : tp_row => (tp_layer r =? "SOLDERMASK_BOTTOM")%string)).
  2: { intros x E. apply String.eqb_eq in E. now rewrite E. }
  unfold Overlaps_35_4.layer_overlaps at 2 3. cbn [flat_map].
  now rewrite app_nil_r.
Qed.

(** Every pair is judged on its own: a record is returned for two tables
    exactly when it is returned for one row of each alone. *)
Theorem matcher_result_by_pair :
  forall (tp_df : list tp_row) (pad_df : list pad_row)
         (component_df : list Criteria_37_4.component_row),
    (forall r,
       In r (frame_rows (Criteria_35_4.judge_tp_pad_pin_positions float_pow2
                           (Ret tp_df) (Ret pad_df))) <->
       exists t p, In t tp_df /\ In p pad_df /\
                   In r (frame_rows (Criteria_35_4.judge_tp_pad_pin_positions float_pow2
                                       (Ret [t]) (Ret [p]))))
    /\ (forall r,
          In r (frame_rows (Criteria_37_4.judge_tp_component_coverage
                              (Ret tp_df) (Ret component_df))) <->
          exists t c, In t tp_df /\ In c component_df /\
                      In r (frame_rows (Criteria_37_4.judge_tp_component_coverage
                                          (Ret [t]) (Ret [c])))).
Proof.
  intros tp_df pad_df component_df. split; intros r.
  - rewrite judge_tp_pad_pin_positions_eq. cbn [frame_rows rows].
    rewrite in_overlaps_35. split.
    + intros [t [p [layer_name [Ht [Hp H]]]]]. exists t, p.
      repeat split; auto. rewrite judge_tp_pad_pin_positions_eq.
      cbn [frame_rows rows]. apply in_overlaps_35.
      exists t, p, layer_name. cbn [In]. auto.
    + intros [t [p [Ht [Hp H]]]]. rewrite judge_tp_pad_pin_positions_eq in H.
      cbn [frame_rows rows] in H. apply in_overlaps_35 in H.
      destruct H as [t' [p' [layer_name [[<- | []] [[<- | []] H]]]]].
      exists t, p, layer_name. auto.
  - rewrite judge_tp_component_coverage_eq. cbn [frame_rows rows].
    rewrite in_overlaps_37. split.
    + intros [t [c [layer_name [Ht [Hc H]]]]]. exists t, c.
      repeat split; auto. rewrite judge_tp_component_coverage_eq.
      cbn [frame_rows rows]. apply in_overlaps_37.
      exists t, c, layer_name. cbn [In]. auto.
    + intros [t [c [Ht [Hc H]]]]. rewrite judge_tp_component_coverage_eq in H.
      cbn [frame_rows rows] in H. apply in_overlaps_37 in H.
      destruct H as [t' [c' [layer_name [[<- | []] [[<- | []] H]]]]].
      exists t, c, layer_name. auto.
Qed.

Lemma length_flat_map_le (A B : Type) (f : A -> list B) (n : nat) (l : list A) :
  (forall x, List.length (f x) <= n) -> List.length (flat_map f l) <= List.length l * n.
Proof.
  intros H. induction l as [| x l IH]; [cbn; lia |].
  cbn [flat_map List.length]. rewrite length_app. specialize (H x). lia.
Qed.

Lemma length_two_filters (A : Type) (f g : A -> bool) (l : list A) :
  (forall x, f x = true -> g x = false) ->
  List.length (filter f l) + List.length (filter g l) <= List.length l.
Proof.
  intros H. induction l as [| x l IH]; [cbn; lia |].
  cbn [filter]. destruct (f x) eqn:F.
  - rewrite (H x F). cbn [List.length]. lia.
  - destruct (g x); cbn [List.length]; lia.
Qed.

(** A matcher returns at most one record per pair of a test point and a
    pad (or component): the number of records is at most the product of
    the sizes of the two tables. *)
Theorem matcher_result_size :
  forall (tp_df : list tp_row) (pad_df : list pad_row)
         (component_df : list Criteria_37_4.component_row),
    List.length (frame_rows (Criteria_35_4.judge_tp_pad_pin_positions float_pow2
                          (Ret tp_df) (Ret pad_df)))
    <= List.length tp_df * List.length pad_df
    /\ List.length (frame_rows (Criteria_37_4.judge_tp_component_coverage
                             (Ret tp_df) (Ret component_df)))
       <= List.length tp_df * List.length component_df.
Proof.
  intros tp_df pad_df component_df. split.
  - rewrite judge_tp_pad_pin_positions_eq. cbn [frame_rows rows].
    unfold Overlaps_35_4.overlaps. rewrite length_app.
    assert (B : forall layer_name tps pads,
               List.length (Overlaps_35_4.layer_overlaps layer_name tps pads)
               <= List.length tps * List.length pads).
    { intros layer_name tps pads. unfold Overlaps_35_4.layer_overlaps.
      apply length_flat_map_le. intros t.
      rewrite <- (Nat.mul_1_r (List.length pads)). apply length_flat_map_le.
      intros p. unfold Overlaps_35_4.overlap_of.
      destruct (_ <? 0); cbn; lia. }
    pose proof (B "TOP"%string (Overlaps_35_4.tp_on "SOLDERMASK_TOP" tp_df)
                  (Overlaps_35_4.pad_on "TOP" pad_df)) as B1.
    pose proof (B "BOTTOM"%string (Overlaps_35_4.tp_on "SOLDERMASK_BOTTOM" tp_df)
                  (Overlaps_35_4.pad_on "BOTTOM" pad_df)) as B2.
    assert (T : List.length (Overlaps_35_4.tp_on "SOLDERMASK_TOP" tp_df)
                + List.length (Overlaps_35_4.tp_on "SOLDERMASK_BOTTOM" tp_df)
                <= List.length tp_df).
    { apply length_two_filters. intros x E. apply String.eqb_eq in E. now rewrite E. }
    assert (P : List.length (Overlaps_35_4.pad_on "TOP" pad_df)
                + List.length (Overlaps_35_4.pad_on "BOTTOM" pad_df)
                <= List.length pad_df).
    { apply length_two_filters. intros x E. apply String.eqb_eq in E. now rewrite E. }
    nia.
  - rewrite judge_tp_component_coverage_eq. cbn [frame_rows rows].
    unfold Overlaps_37_4.overlaps. rewrite length_app.
    assert (B : forall layer_name tps cs,
               List.length (Overlaps_37_4.layer_overlaps layer_name tps cs)
               <= List.length tps * List.length cs).
    { intros layer_name tps cs. unfold Overlaps_37_4.layer_overlaps.
      apply length_flat_map_le. intros t.
      rewrite <- (Nat.mul_1_r (List.length cs)). apply length_flat_map_le.
      intros c. unfold Overlaps_37_4.overlap_of.
      destruct (_ =? _)%string; [cbn; lia |]. destruct (_ <? 0); cbn; lia. }
    pose proof (B "TOP"%string (Overlaps_37_4.tp_on "TOP" tp_df)
                  (Overlaps_37_4.component_on "TOP" component_df)) as B1.
    pose proof (B "BOTTOM"%string (Overlaps_37_4.tp_on "BOTTOM" tp_df)
                  (Overlaps_37_4.component_on "BOTTOM" component_df)) as B2.
    assert (F : forall (R : Type) (std : R -> option string) (df : list R),
               List.length (Criteria_37_4.select_layer std "TOP" df)
               + List.length (Criteria_37_4.select_layer std "BOTTOM" df) <= List.length df).
    { intros R std df. unfold Criteria_37_4.select_layer.
      etransitivity; [apply length_two_filters | apply filter_length_le].
      intros x E. destruct (std x) as [l |]; [| discriminate].
      apply String.eqb_eq in E. now subst. }
    pose proof (F _ (fun r => Criteria_37_4.tp_standard_layer (tp_layer r)) tp_df) as T.
    pose proof (F _ (fun r => Criteria_37_4.component_standard_layer
                                (Criteria_37_4.layer r)) component_df) as P.
    unfold Overlaps_37_4.tp_on, Overlaps_37_4.component_on in *.
    nia.
Qed.

End MatcherStructure.

(** ** Further properties of the legacy matcher *)

Section LegacyMore.
Import Py Legacy_35_4 Legacy_main Examples.
Local Open Scope float_scope.

Variable bounds : geometry -> bbox.
Variable intersects : geometry -> geometry -> bool.
Variable index_intersection : list (nat * bbox) -> bbox -> list nat.

Lemma candidate_pads_sound (tp_shape : geometry)
    (pad_shapes : list (geometry * string)) (candidate_indices : list nat) :
  forall found,
    candidate_pads intersects tp_shape pad_shapes candidate_indices = Ret found ->
    forall pid, In pid found ->
                exists g, In (g, pid) pad_shapes /\ intersects tp_shape g = true.
Proof.
  induction candidate_indices as [| i rest IH]; intros found H pid Hpid;
    cbn [candidate_pads] in H.
  - injection H as <-. destruct Hpid.
  - destruct (nth_error pad_shapes i) as [[g0 pid0] |] eqn:E; [| discriminate].
    destruct (candidate_pads intersects tp_shape pad_shapes rest) as [found' | e];
      [| discriminate].
    cbn [bind] in H. injection H as <-.
    destruct (intersects tp_shape g0) eqn:I.
    + destruct Hpid as [<- | Hpid]; [| eapply IH; eauto].
      exists g0. split; [eapply nth_error_In; exact E | exact I].
    + eapply IH; eauto.
Qed.

Lemma legacy_rows_sound (tp_df : list tp_row)
    (pad_shapes : list (geometry * string)) (idx : list (nat * bbox)) :
  forall found,
    legacy_rows bounds intersects index_intersection tp_df pad_shapes idx = Ret found ->
    forall r, In r found ->
              exists t g pid, In t tp_df /\ In (g, pid) pad_shapes /\
                              intersects (_create_tp_shape t) g = true /\
                              r = mk_overlap (testpoint_id t) pid (-1).
Proof.
  induction tp_df as [| t rest IH]; intros found H r Hr; cbn [legacy_rows] in H.
  - injection H as <-. destruct Hr.
  - destruct (candidate_pads intersects (_create_tp_shape t) pad_shapes _)
      as [hits | e] eqn:C; [| discriminate].
    destruct (legacy_rows bounds intersects index_intersection rest pad_shapes idx)
      as [more | e]; [| discriminate].
    cbn [bind] in H. injection H as <-. apply in_app_or in Hr.
    destruct Hr as [Hr | Hr].
    + apply in_map_iff in Hr. destruct Hr as [pid [<- Hpid]].
      destruct (candidate_pads_sound _ _ _ C pid Hpid) as [g [Hg I]].
      exists t, g, pid. repeat split; auto. left. reflexivity.
    + destruct (IH more eq_refl r Hr) as [t' [g [pid [Ht H]]]].
      exists t', g, pid. split; [right; exact Ht | exact H].
Qed.

(** Whatever the index returns, the legacy matcher invents no record:
    when it returns a frame, every record has the distance -1.0 and pairs
    the identifier of a test point with the component identifier of a pad
    whose geometries pass the exact intersection check. *)
Theorem legacy_records_sound :
  forall (tp_df : list tp_row) (pad_df : list pad_row) (df : DataFrame overlap)
         (r : overlap),
    judge_tp_pad_pin_positions bounds intersects index_intersection
                               (Ret tp_df) (Ret pad_df) = Ret df ->
    In r (rows df) ->
    ov_distance r = -1 /\
    exists t p,
      In t tp_df /\ In p pad_df /\
      ov_testpoint_id r = testpoint_id t /\ ov_pad_id r = component_id p /\
      intersects (_create_tp_shape t) (_create_pad_shape p) = true.
Proof.
  intros tp_df pad_df df r. unfold judge_tp_pad_pin_positions. cbn [bind].
  destruct (is_empty tp_df || is_empty pad_df).
  - intros H. injection H as <-. intros [].
  - rewrite legacy_tp_loop_eq.
    destruct (legacy_rows bounds intersects index_intersection tp_df _ _)
      as [found | e] eqn:L; [| discriminate].
    cbn [bind app]. intros H Hr.
    assert (Hf : In r found).
    { destruct found; injection H as <-; exact Hr. }
    destruct (legacy_rows_sound _ _ _ L r Hf) as [t [g [pid [Ht [Hg [I ->]]]]]].
    split; [reflexivity |]. apply in_map_iff in Hg.
    destruct Hg as [p [Ep Hp]]. injection Ep as <- <-.
    exists t, p. auto.
Qed.

(** The script filters the frame before printing it: what a run reports
    holds the records of the matcher whose two identifiers differ and no
    other, and the count reported is the number of records left out.
    When a data source raised, the matcher hands over a frame without
    columns and the run ends in a [KeyError]. *)
Theorem legacy_script_report :
  (forall (outcome : result (DataFrame overlap)) (result_df : DataFrame overlap)
          (filtered_count : nat),
     main outcome = Report result_df filtered_count ->
     (forall r, In r (rows result_df) <->
                In r (Defined.frame_rows outcome)
                /\ ov_testpoint_id r <> ov_pad_id r)
     /\ (List.length (rows result_df) + filtered_count
         = List.length (Defined.frame_rows outcome))%nat)
  /\ (forall e get_pad_list,
        main (judge_tp_pad_pin_positions bounds intersects index_intersection
                (Raise e) get_pad_list)
        = KeyError "testpoint_id")
  /\ (forall tp_df e,
        main (judge_tp_pad_pin_positions bounds intersects index_intersection
                (Ret tp_df) (Raise e))
        = KeyError "testpoint_id").
Proof.
  split; [| split; reflexivity].
  intros outcome result_df filtered_count. unfold main.
  destruct outcome as [df | e]; [| discriminate].
  destruct (negb (existsb (String.eqb "testpoint_id") (columns df))); [discriminate |].
  intros H. injection H as <- <-. cbn [rows Defined.frame_rows].
  unfold drop_self_pairs. split.
  - intros r. rewrite filter_In, negb_true_iff, String.eqb_neq. reflexivity.
  - pose proof (filter_length_le
                  (fun r => negb (ov_testpoint_id r =? ov_pad_id r)%string) (rows df)).
    lia.
Qed.

End LegacyMore.

Section LegacyMoreWitnesses.
Import Py Legacy_35_4 Legacy_main Examples.
Local Open Scope float_scope.

(** The theorem applied to the frame the matcher returns, on boxes, for
    the test point [TP1] and two pads under it, one of them its own. *)
Lemma legacy_script_report_witness :
  main (judge_tp_pad_pin_positions box_bounds box_intersects scan_intersection
          (Ret [tp1]) (Ret [own_pad; plain_pad]))
  = Report (mkDataFrame out_columns [mk_overlap "TP1" "U3" (-1)]) 1
  /\ (List.length [mk_overlap "TP1" "U3" (-1)] + 1
      = List.length [mk_overlap "TP1" "TP1" (-1); mk_overlap "TP1" "U3" (-1)])%nat.
Proof.
  assert (E : main (judge_tp_pad_pin_positions box_bounds box_intersects
                      scan_intersection (Ret [tp1]) (Ret [own_pad; plain_pad]))
              = Report (mkDataFrame out_columns [mk_overlap "TP1" "U3" (-1)]) 1)
    by (vm_compute; reflexivity).
  split; [exact E |].
  exact (proj2 (proj1 (legacy_script_report box_bounds box_intersects
                        scan_intersection) _ _ _ E)).
Defined.

(** The soundness theorem applied to the same tables on boxes. *)
Lemma legacy_records_sound_witness :
  judge_tp_pad_pin_positions box_bounds box_intersects scan_intersection
    (Ret [tp1]) (Ret [own_pad; plain_pad])
  = Ret (mkDataFrame out_columns
           [mk_overlap "TP1" "TP1" (-1); mk_overlap "TP1" "U3" (-1)])
  /\ In (mk_overlap "TP1" "U3" (-1))
        [mk_overlap "TP1" "TP1" (-1); mk_overlap "TP1" "U3" (-1)]
  /\ exists t p,
       In t [tp1] /\ In p [own_pad; plain_pad] /\
       "TP1"%string = testpoint_id t /\ "U3"%string = component_id p /\
       box_intersects (_create_tp_shape t) (_create_pad_shape p) = true.
Proof.
  assert (E : judge_tp_pad_pin_positions box_bounds box_intersects scan_intersection
                (Ret [tp1]) (Ret [own_pad; plain_pad])
              = Ret (mkDataFrame out_columns
                       [mk_overlap "TP1" "TP1" (-1); mk_overlap "TP1" "U3" (-1)]))
    by (vm_compute; reflexivity).
  assert (I : In (mk_overlap "TP1" "U3" (-1))
                 [mk_overlap "TP1" "TP1" (-1); mk_overlap "TP1" "U3" (-1)])
    by (right; left; reflexivity).
  split; [exact E |]. split; [exact I |].
  exact (proj2 (legacy_records_sound box_bounds box_intersects scan_intersection
                  _ _ _ E I)).
Defined.

End LegacyMoreWitnesses.

(** ** Strictly sorted lists *)

Section SortedUnique.
Import Pandas.

Variable R : Type.
Variable eqb : R -> R -> bool.
Hypothesis eqb_eq : forall a b, eqb a b = true <-> a = b.
Variable cmp : R -> R -> comparison.
Hypothesis cmp_ok : order_ok cmp.

Lemma cmp_irrefl (x : R) : cmp x x <> Lt.
Proof.
  intros H. pose proof (ok_antisym cmp_ok x x) as A. rewrite H in A. discriminate A.
Qed.

(** Two strictly sorted lists with the same members are equal. *)
Lemma strongly_sorted_unique (l1 : list R) :
  forall l2,
    StronglySorted (fun a b => cmp a b = Lt) l1 ->
    StronglySorted (fun a b => cmp a b = Lt) l2 ->
    (forall x, In x l1 <-> In x l2) -> l1 = l2.
Proof.
  induction l1 as [| x1 t1 IH]; intros l2 S1 S2 H.
  - destruct l2 as [| x2 t2]; [reflexivity |].
    exfalso. apply (H x2). left. reflexivity.
  - destruct l2 as [| x2 t2].
    { exfalso. apply (H x1). left. reflexivity. }
    apply StronglySorted_inv in S1. destruct S1 as [S1 F1].
    apply StronglySorted_inv in S2. destruct S2 as [S2 F2].
    rewrite Forall_forall in F1, F2.
    assert (E : x1 = x2).
    { assert (H1 : In x1 (x2 :: t2)) by (apply H; left; reflexivity).
      assert (H2 : In x2 (x1 :: t1)) by (apply H; left; reflexivity).
      destruct H1 as [H1 | H1]; [now symmetry |].
      destruct H2 as [H2 | H2]; [exact H2 |].
      exfalso. apply (@cmp_irrefl x1).
      apply (ok_trans cmp_ok) with x2; [apply F1 | apply F2]; assumption. }
    subst x2. f_equal. apply IH; [exact S1 | exact S2 |].
    intros y. split; intros Hy.
    + assert (Hy' : In y (x1 :: t2)) by (apply H; right; exact Hy).
      destruct Hy' as [<- | Hy']; [| exact Hy'].
      exfalso. apply (@cmp_irrefl x1). apply F1. exact Hy.
    + assert (Hy' : In y (x1 :: t1)) by (apply H; right; exact Hy).
      destruct Hy' as [<- | Hy']; [| exact Hy'].
      exfalso. apply (@cmp_irrefl x1). apply F2. exact Hy.
Qed.

(** After [drop_duplicates] and [sort_values], two lists of rows with the
    same members give the same frame. *)
Lemma sorted_frame_unique (l1 l2 : list R) :
  (forall a b, In a l1 -> In b l1 -> cmp a b = Eq -> a = b) ->
  (forall x, In x l1 <-> In x l2) ->
  sort_values (fun a b => leb_of (cmp a b)) (drop_duplicates eqb l1)
  = sort_values (fun a b => leb_of (cmp a b)) (drop_duplicates eqb l2).
Proof.
  intros Heq H.
  destruct (@sorted_frame _ _ eqb_eq _ cmp_ok l1 Heq) as [I1 [_ S1]].
  destruct (@sorted_frame _ _ eqb_eq _ cmp_ok l2) as [I2 [_ S2]].
  { intros a b Ha Hb. apply Heq; apply H; assumption. }
  apply strongly_sorted_unique; [exact S1 | exact S2 |].
  intros x. rewrite I1, I2. apply H.
Qed.

End SortedUnique.

(** ** Further properties of the joins *)

Section JoinsMore.
Import Py Pandas JoinOrder JoinRows Examples.

Lemma frame_eta (R : Type) (df : DataFrame R) :
  df = mkDataFrame (columns df) (rows df).
Proof. destruct df. reflexivity. Qed.

Lemma join_29_columns set_iter re_match_digit df_tp df_pin :
  columns (Crit_29_3.judge_io_connector_in_tp_network set_iter re_match_digit
             df_tp df_pin)
  = Crit_29_3.out_columns.
Proof.
  unfold Crit_29_3.judge_io_connector_in_tp_network.
  destruct (is_empty df_tp || is_empty df_pin); [reflexivity |].
  destruct (is_empty _); reflexivity.
Qed.

Lemma join_32_columns set_iter re_match_digit get_tp get_connector :
  columns (Criteria_32_3.judge_io_connector_in_tp_network set_iter re_match_digit
             get_tp get_connector)
  = Criteria_32_3.out_columns.
Proof.
  unfold Criteria_32_3.judge_io_connector_in_tp_network.
  destruct get_tp as [tp_df | e]; [| reflexivity].
  destruct (is_empty tp_df); [reflexivity |].
  destruct get_connector as [connector_df | e]; [| reflexivity].
  destruct (is_empty connector_df); [reflexivity |].
  destruct (is_empty _); reflexivity.
Qed.

(** The rows of the frame crit_29_3 returns are a list of the joined rows
    after [drop_duplicates] and [sort_values]. *)
Lemma join_29_rows_form set_iter re_match_digit df_tp df_pin :
  set_iter_contract set_iter ->
  exists l,
    rows (Crit_29_3.judge_io_connector_in_tp_network set_iter re_match_digit
            df_tp df_pin)
    = sort_values (fun a b => leb_of (Crit_29_3.compare_rows re_match_digit a b))
                  (drop_duplicates Crit_29_3.match_row_eqb l)
    /\ forall r, In r l <-> joined_29 df_tp df_pin r.
Proof.
  intros Hset.
  set (result_list :=
         Crit_29_3.net_loop
           (set_iter _ (map Crit_29_3.tp_net_name df_tp
                        ++ map Crit_29_3.pin_net_name df_pin))
           df_tp df_pin []).
  assert (Hin : forall r, In r result_list <-> joined_29 df_tp df_pin r).
  { intros r. unfold result_list. rewrite (in_result_list_29 Hset). reflexivity. }
  exists (if is_empty df_tp || is_empty df_pin then [] else result_list). split.
  - unfold Crit_29_3.judge_io_connector_in_tp_network.
    destruct (is_empty df_tp || is_empty df_pin); [reflexivity |].
    fold result_list. destruct result_list; reflexivity.
  - intros r. destruct (is_empty df_tp || is_empty df_pin) eqn:E; [| apply Hin].
    split; [intros [] |]. intros [n [t [p [Ht [Hp _]]]]].
    apply orb_true_iff in E. destruct E as [E | E]; apply is_empty_true in E;
      subst; contradiction.
Qed.

Lemma join_32_rows_form set_iter re_match_digit tp_df connector_df :
  set_iter_contract set_iter ->
  exists l,
    rows (Criteria_32_3.judge_io_connector_in_tp_network set_iter re_match_digit
            (Ret tp_df) (Ret connector_df))
    = sort_values (fun a b => leb_of (Criteria_32_3.compare_rows re_match_digit a b))
                  (drop_duplicates Criteria_32_3.match_row_eqb l)
    /\ forall r, In r l <-> joined_32 tp_df connector_df r.
Proof.
  intros Hset.
  set (result_rows :=
         Criteria_32_3.net_loop
           (set_iter _
              (filter (fun n => existsb (String.eqb n)
                                  (Criteria_32_3.dropna
                                     (map Criteria_32_3.connector_net_name connector_df)))
                      (Criteria_32_3.dropna (map Criteria_32_3.tp_net_name tp_df))))
           tp_df connector_df []).
  assert (Hin : forall r, In r result_rows <-> joined_32 tp_df connector_df r).
  { intros r. unfold result_rows.
    rewrite (in_result_rows_32 re_match_digit Hset). reflexivity. }
  exists (if is_empty tp_df || is_empty connector_df then [] else result_rows). split.
  - unfold Criteria_32_3.judge_io_connector_in_tp_network.
    destruct (is_empty tp_df); [reflexivity |].
    destruct (is_empty connector_df); [reflexivity |]. cbn [orb].
    fold result_rows. destruct result_rows; reflexivity.
  - intros r. destruct (is_empty tp_df || is_empty connector_df) eqn:E; [| apply Hin].
    split; [intros [] |]. intros [n [t [c [Ht [Hc _]]]]].
    apply orb_true_iff in E. destruct E as [E | E]; apply is_empty_true in E;
      subst; contradiction.
Qed.

Lemma joined_29_same_key (df_tp : list Crit_29_3.tp_net_row)
    (df_pin : list Crit_29_3.pin_net_row) re_match_digit (a b : Crit_29_3.match_row) :
  joined_29 df_tp df_pin a -> joined_29 df_tp df_pin b ->
  Crit_29_3.compare_rows re_match_digit a b = Eq -> a = b.
Proof.
  intros [n [t [p [_ [_ [_ [_ ->]]]]]]] [n' [t' [p' [_ [_ [_ [_ ->]]]]]]] E.
  apply compare_rows_Eq_29 in E. cbn in E. destruct E as [-> [-> ->]]. reflexivity.
Qed.

Lemma joined_32_same_key (tp_df : list Criteria_32_3.tp_net_row)
    (connector_df : list Criteria_32_3.connector_net_row) re_match_digit
    (a b : Criteria_32_3.match_row) :
  joined_32 tp_df connector_df a -> joined_32 tp_df connector_df b ->
  Criteria_32_3.compare_rows re_match_digit a b = Eq -> a = b.
Proof.
  intros [n [t [c [_ [_ [_ [_ ->]]]]]]] [n' [t' [c' [_ [_ [_ [_ ->]]]]]]] E.
  apply compare_rows_Eq_32 in E. cbn in E. destruct E as [-> [-> ->]]. reflexivity.
Qed.

End JoinsMore.

Section JoinTheorems.
Import Py Pandas JoinOrder JoinRows Examples.

Lemma join_29_frame set_iter re_match_digit df_tp df_pin :
  set_iter_contract set_iter ->
  let out := rows (Crit_29_3.judge_io_connector_in_tp_network
                     set_iter re_match_digit df_tp df_pin) in
  (forall r, In r out <-> joined_29 df_tp df_pin r) /\
  NoDup out /\
  StronglySorted (fun a b => Crit_29_3.compare_rows re_match_digit a b = Lt) out.
Proof.
  intros Hset out.
  destruct (join_29_rows_form re_match_digit df_tp df_pin Hset) as [l [E Hl]].
  unfold out. rewrite E.
  destruct (@sorted_frame _ _ match_row_eqb_eq_29 _
              (compare_rows_ok_29 re_match_digit) l) as [I [N S]].
  { intros a b Ha Hb. apply (joined_29_same_key (df_tp:=df_tp) (df_pin:=df_pin));
      apply Hl; assumption. }
  split; [| split; assumption]. intros r. rewrite I. apply Hl.
Qed.

Lemma join_32_frame set_iter re_match_digit tp_df connector_df :
  set_iter_contract set_iter ->
  let out := rows (Criteria_32_3.judge_io_connector_in_tp_network
                     set_iter re_match_digit (Ret tp_df) (Ret connector_df)) in
  (forall r, In r out <-> joined_32 tp_df connector_df r) /\
  NoDup out /\
  StronglySorted (fun a b => Criteria_32_3.compare_rows re_match_digit a b = Lt) out.
Proof.
  intros Hset out.
  destruct (join_32_rows_form re_match_digit tp_df connector_df Hset) as [l [E Hl]].
  unfold out. rewrite E.
  destruct (@sorted_frame _ _ match_row_eqb_eq_32 _
              (compare_rows_ok_32 re_match_digit) l) as [I [N S]].
  { intros a b Ha Hb.
    apply (joined_32_same_key (tp_df:=tp_df) (connector_df:=connector_df));
      apply Hl; assumption. }
  split; [| split; assumption]. intros r. rewrite I. apply Hl.
Qed.

(** crit_29_3 on tables whose identifiers may be missing: the frame holds
    exactly the rows pairing a test point and a pin on a net name both
    carry; a row has a label when both of its identifiers are present,
    the two joined by [" - "], and no label when one is missing. *)
Theorem join_29_3_missing_ids :
  forall (set_iter : forall A : Type, list A -> list A)
         (re_match_digit : string -> bool)
         (df_tp : list Crit_29_3.tp_net_row) (df_pin : list Crit_29_3.pin_net_row),
    set_iter_contract set_iter ->
    forall r,
      (In r (rows (Crit_29_3.judge_io_connector_in_tp_network
                     set_iter re_match_digit df_tp df_pin)) <->
       exists n t p,
         In t df_tp /\ In p df_pin /\
         Crit_29_3.tp_net_name t = Some n /\ Crit_29_3.pin_net_name p = Some n /\
         r = Crit_29_3.mk_match_row
               (Crit_29_3.tp_testpoint_id t) (Crit_29_3.pin_pin_id p) (Some n)
               match Crit_29_3.tp_testpoint_id t, Crit_29_3.pin_pin_id p with
               | Some a, Some b => Some (a ++ " - " ++ b)%string
               | _, _ => None
               end)
      /\ (In r (rows (Crit_29_3.judge_io_connector_in_tp_network
                        set_iter re_match_digit df_tp df_pin)) ->
          (Crit_29_3.m_matching_pairs r = None <->
           Crit_29_3.m_testpoint_id r = None \/ Crit_29_3.m_pin_id r = None)).
Proof.
  intros set_iter re_match_digit df_tp df_pin Hset r.
  destruct (join_29_frame re_match_digit df_tp df_pin Hset) as [I _].
  split; [apply I |]. intros H. apply I in H.
  destruct H as [n [t [p [_ [_ [_ [_ ->]]]]]]]. cbn.
  destruct (Crit_29_3.tp_testpoint_id t), (Crit_29_3.pin_pin_id p); cbn;
    split; auto; try discriminate; intros [H | H]; discriminate.
Qed.

(** The theorem applied to the test points of the sample and to a pin
    without identifier on the net [N1]. *)
Lemma join_29_3_missing_ids_witness :
  set_iter_contract iter_in_order /\
  In (Crit_29_3.mk_match_row (Some "A") None (Some "N1") None)%string
     (rows (Crit_29_3.judge_io_connector_in_tp_network
              iter_in_order ascii_digit_prefix join_tp_29 join_pin_29_missing)).
Proof.
  split; [exact iter_in_order_contract |].
  apply (proj1 (join_29_3_missing_ids ascii_digit_prefix join_tp_29
                  join_pin_29_missing iter_in_order_contract _)).
  exists "N1"%string, (Crit_29_3.mk_tp_net_row (Some "A") (Some "N1"))%string,
    (Crit_29_3.mk_pin_net_row None (Some "N1"))%string.
  cbn. auto 8.
Defined.

(** A join depends on the rows its tables hold and on nothing else: two
    pairs of tables with the same members, in any order and with any
    repetition, give the same frame, whatever the order in which the sets
    of net names are iterated. *)
Theorem join_depends_on_row_sets :
  forall (iter1 iter2 : forall A : Type, list A -> list A)
         (re_match_digit : string -> bool),
    set_iter_contract iter1 -> set_iter_contract iter2 ->
    (forall df_tp df_tp' df_pin df_pin',
       (forall t, In t df_tp <-> In t df_tp') ->
       (forall p, In p df_pin <-> In p df_pin') ->
       Crit_29_3.judge_io_connector_in_tp_network iter1 re_match_digit df_tp df_pin
       = Crit_29_3.judge_io_connector_in_tp_network iter2 re_match_digit
           df_tp' df_pin')
    /\ (forall tp_df tp_df' connector_df connector_df',
          (forall t, In t tp_df <-> In t tp_df') ->
          (forall c, In c connector_df <-> In c connector_df') ->
          Criteria_32_3.judge_io_connector_in_tp_network iter1 re_match_digit
            (Ret tp_df) (Ret connector_df)
          = Criteria_32_3.judge_io_connector_in_tp_network iter2 re_match_digit
              (Ret tp_df') (Ret connector_df')).
Proof.
  intros iter1 iter2 re_match_digit H1 H2. split.
  - intros df_tp df_tp' df_pin df_pin' Htp Hpin.
    rewrite (frame_eta (Crit_29_3.judge_io_connector_in_tp_network iter1 _ _ _)),
      (frame_eta (Crit_29_3.judge_io_connector_in_tp_network iter2 _ _ _)).
    rewrite !join_29_columns. f_equal.
    destruct (join_29_frame re_match_digit df_tp df_pin H1) as [I1 [_ S1]].
    destruct (join_29_frame re_match_digit df_tp' df_pin' H2) as [I2 [_ S2]].
    apply (strongly_sorted_unique (compare_rows_ok_29 re_match_digit));
      [exact S1 | exact S2 |].
    intros r. rewrite I1, I2. unfold joined_29. split;
      intros [n [t [p [Ht [Hp H]]]]]; exists n, t, p;
      (split; [apply Htp; exact Ht | split; [apply Hpin; exact Hp | exact H]]).
  - intros tp_df tp_df' connector_df connector_df' Htp Hc.
    rewrite (frame_eta (Criteria_32_3.judge_io_connector_in_tp_network iter1 _ _ _)),
      (frame_eta (Criteria_32_3.judge_io_connector_in_tp_network iter2 _ _ _)).
    rewrite !join_32_columns. f_equal.
    destruct (join_32_frame re_match_digit tp_df connector_df H1) as [I1 [_ S1]].
    destruct (join_32_frame re_match_digit tp_df' connector_df' H2) as [I2 [_ S2]].
    apply (strongly_sorted_unique (compare_rows_ok_32 re_match_digit));
      [exact S1 | exact S2 |].
    intros r. rewrite I1, I2. unfold joined_32. split;
      intros [n [t [c [Ht [Hcn H]]]]]; exists n, t, c;
      (split; [apply Htp; exact Ht | split; [apply Hc; exact Hcn | exact H]]).
Qed.

Lemma iter_reversed_contract : set_iter_contract iter_reversed.
Proof. intros A l x. unfold iter_reversed. symmetry. apply in_rev. Qed.

(** The theorem applied to the sample tables, read forwards and with the
    sets iterated in order, then reversed and with the sets iterated
    backwards. *)
Lemma join_depends_on_row_sets_witness :
  set_iter_contract iter_in_order /\ set_iter_contract iter_reversed /\
  Crit_29_3.judge_io_connector_in_tp_network iter_in_order ascii_digit_prefix
    join_tp_29 join_pin_29
  = Crit_29_3.judge_io_connector_in_tp_network iter_reversed ascii_digit_prefix
      (rev join_tp_29) (rev join_pin_29).
Proof.
  split; [exact iter_in_order_contract |].
  split; [exact iter_reversed_contract |].
  apply (proj1 (join_depends_on_row_sets ascii_digit_prefix
                  iter_in_order_contract iter_reversed_contract));
    intros x; apply in_rev.
Defined.

End JoinTheorems.

Section JoinComparison.
Import Py Pandas JoinOrder JoinRows Examples.

Lemma StronglySorted_map (A B : Type) (f : A -> B) (P : B -> B -> Prop)
    (l : list A) :
  StronglySorted (fun a b => P (f a) (f b)) l -> StronglySorted P (map f l).
Proof.
  induction 1 as [| x l S IH F]; cbn [map]; constructor; [exact IH |].
  rewrite Forall_forall in *. intros y Hy. apply in_map_iff in Hy.
  destruct Hy as [z [<- Hz]]. apply F. exact Hz.
Qed.

Lemma compare_rows_as_row_29 re_match_digit (a b : Criteria_32_3.match_row) :
  Crit_29_3.compare_rows re_match_digit (as_row_29 a) (as_row_29 b)
  = Criteria_32_3.compare_rows re_match_digit a b.
Proof.
  unfold Crit_29_3.compare_rows, Criteria_32_3.compare_rows,
    Crit_29_3.compare_sort_key, Criteria_32_3.compare_sort_key,
    Crit_29_3._sort_key, Criteria_32_3.sort_key, as_row_29.
  cbn [Crit_29_3.m_net_name Crit_29_3.m_testpoint_id Crit_29_3.m_pin_id
       Crit_29_3.str].
  destruct (re_match_digit (Criteria_32_3.m_net_name a)),
    (re_match_digit (Criteria_32_3.m_net_name b)); reflexivity.
Qed.

Lemma joined_as_row_29 (tp_df : list Criteria_32_3.tp_net_row)
    (connector_df : list Criteria_32_3.connector_net_row)
    (x : Crit_29_3.match_row) :
  joined_29 (map as_tp_29 tp_df) (map as_pin_29 connector_df) x <->
  exists r, as_row_29 r = x /\ joined_32 tp_df connector_df r.
Proof.
  unfold joined_29, joined_32. split.
  - intros [n [t [p [Ht [Hp [Et [Ep ->]]]]]]].
    apply in_map_iff in Ht, Hp.
    destruct Ht as [t0 [<- Ht]]. destruct Hp as [c0 [<- Hc]]. cbn in Et, Ep.
    eexists. split; [| exists n, t0, c0; repeat split; eauto].
    reflexivity.
  - intros [r [<- [n [t [c [Ht [Hc [Et [Ec ->]]]]]]]]].
    exists n, (as_tp_29 t), (as_pin_29 c).
    repeat split; auto; now apply in_map.
Qed.

(** The two join scripts compute the same table: on tables whose
    identifiers are all present, the frame crit_29_3 returns holds, row for
    row and in the same order, the rows criteria_32_3 returns. *)
Theorem joins_agree :
  forall (iter1 iter2 : forall A : Type, list A -> list A)
         (re_match_digit : string -> bool)
         (tp_df : list Criteria_32_3.tp_net_row)
         (connector_df : list Criteria_32_3.connector_net_row),
    set_iter_contract iter1 -> set_iter_contract iter2 ->
    rows (Crit_29_3.judge_io_connector_in_tp_network iter1 re_match_digit
            (map as_tp_29 tp_df) (map as_pin_29 connector_df))
    = map as_row_29
          (rows (Criteria_32_3.judge_io_connector_in_tp_network iter2 re_match_digit
                   (Ret tp_df) (Ret connector_df))).
Proof.
  intros iter1 iter2 re_match_digit tp_df connector_df H1 H2.
  destruct (join_29_frame re_match_digit (map as_tp_29 tp_df)
              (map as_pin_29 connector_df) H1) as [I1 [_ S1]].
  destruct (join_32_frame re_match_digit tp_df connector_df H2) as [I2 [_ S2]].
  apply (strongly_sorted_unique (compare_rows_ok_29 re_match_digit)).
  - exact S1.
  - apply StronglySorted_map. eapply StronglySorted_impl; [| exact S2].
    intros a b _ _ H. now rewrite compare_rows_as_row_29.
  - intros x. rewrite I1, joined_as_row_29, in_map_iff. split.
    + intros [r [E H]]. exists r. split; [exact E | apply I2; exact H].
    + intros [r [E H]]. exists r. split; [exact E | apply I2; exact H].
Qed.

(** The theorem applied to the sample tables of criteria_32_3. *)
Lemma joins_agree_witness :
  set_iter_contract iter_in_order /\ set_iter_contract iter_reversed /\
  rows (Crit_29_3.judge_io_connector_in_tp_network iter_in_order ascii_digit_prefix
          (map as_tp_29 join_tp_32) (map as_pin_29 join_connector_32))
  = map as_row_29
        (rows (Criteria_32_3.judge_io_connector_in_tp_network
                 iter_reversed ascii_digit_prefix
                 (Ret join_tp_32) (Ret join_connector_32))).
Proof.
  split; [exact iter_in_order_contract |].
  split; [exact iter_reversed_contract |].
  exact (joins_agree ascii_digit_prefix join_tp_32 join_connector_32
           iter_in_order_contract iter_reversed_contract).
Defined.

Lemma length_flat_map_const (A B : Type) (f : A -> list B) (n : nat) (l : list A) :
  (forall x, List.length (f x) = n) ->
  List.length (flat_map f l) = (List.length l * n)%nat.
Proof.
  intros H. induction l as [| x l IH]; [reflexivity |].
  cbn [flat_map List.length]. rewrite length_app, H, IH. lia.
Qed.

(** A join returns no row exactly when no present net name is shared by
    a row of each table, and never more rows than there are pairs of a
    row of one table and a row of the other. *)
Theorem join_result_size :
  forall (set_iter : forall A : Type, list A -> list A)
         (re_match_digit : string -> bool),
    set_iter_contract set_iter ->
    (forall df_tp df_pin,
       let out := rows (Crit_29_3.judge_io_connector_in_tp_network
                          set_iter re_match_digit df_tp df_pin) in
       (out = [] <->
        ~ exists n t p, In t df_tp /\ In p df_pin /\
                        Crit_29_3.tp_net_name t = Some n /\
                        Crit_29_3.pin_net_name p = Some n)
       /\ (List.length out <= List.length df_tp * List.length df_pin)%nat)
    /\ (forall tp_df connector_df,
          let out := rows (Criteria_32_3.judge_io_connector_in_tp_network
                             set_iter re_match_digit (Ret tp_df) (Ret connector_df)) in
          (out = [] <->
           ~ exists n t c, In t tp_df /\ In c connector_df /\
                           Criteria_32_3.tp_net_name t = Some n /\
                           Criteria_32_3.connector_net_name c = Some n)
          /\ (List.length out <= List.length tp_df * List.length connector_df)%nat).
Proof.
  intros set_iter re_match_digit Hset. split.
  - intros df_tp df_pin out.
    destruct (join_29_frame re_match_digit df_tp df_pin Hset) as [I [N _]].
    fold out in I, N. split.
    + split.
      * intros E [n [t [p [Ht [Hp [Et Ep]]]]]].
        assert (H : In (Crit_29_3.mk_match_row
                          (Crit_29_3.tp_testpoint_id t) (Crit_29_3.pin_pin_id p)
                          (Some n)
                          (label_29 (Crit_29_3.tp_testpoint_id t)
                                    (Crit_29_3.pin_pin_id p))) out).
        { apply I. exists n, t, p. auto 8. }
        rewrite E in H. destruct H.
      * intros H. destruct out as [| r rest] eqn:E; [reflexivity |].
        exfalso. apply H.
        destruct (proj1 (I r) (or_introl eq_refl)) as [n [t [p [Ht [Hp [Et [Ep _]]]]]]].
        exists n, t, p. auto.
    + set (all := flat_map
                    (fun t => map (fun p => Crit_29_3.mk_match_row
                                              (Crit_29_3.tp_testpoint_id t)
                                              (Crit_29_3.pin_pin_id p)
                                              (Crit_29_3.tp_net_name t)
                                              (label_29 (Crit_29_3.tp_testpoint_id t)
                                                        (Crit_29_3.pin_pin_id p)))
                                  df_pin) df_tp).
      assert (L : List.length all = (List.length df_tp * List.length df_pin)%nat).
      { apply length_flat_map_const. intros t. apply length_map. }
      rewrite <- L. apply NoDup_incl_length; [exact N |].
      intros r Hr. apply I in Hr. destruct Hr as [n [t [p [Ht [Hp [Et [Ep ->]]]]]]].
      apply in_flat_map. exists t. split; [exact Ht |].
      apply in_map_iff. exists p. split; [now rewrite Et | exact Hp].
  - intros tp_df connector_df out.
    destruct (join_32_frame re_match_digit tp_df connector_df Hset) as [I [N _]].
    fold out in I, N. split.
    + split.
      * intros E [n [t [c [Ht [Hc [Et Ec]]]]]].
        assert (H : In (Criteria_32_3.mk_match_row
                          (Criteria_32_3.tp_testpoint_id t)
                          (Criteria_32_3.connector_id c) n
                          (Criteria_32_3.tp_testpoint_id t ++ " - "
                           ++ Criteria_32_3.connector_id c)%string) out).
        { apply I. exists n, t, c. auto 8. }
        rewrite E in H. destruct H.
      * intros H. destruct out as [| r rest] eqn:E; [reflexivity |].
        exfalso. apply H.
        destruct (proj1 (I r) (or_introl eq_refl)) as [n [t [c [Ht [Hc [Et [Ec _]]]]]]].
        exists n, t, c. auto.
    + set (all := flat_map
                    (fun t => map (fun c => Criteria_32_3.mk_match_row
                                              (Criteria_32_3.tp_testpoint_id t)
                                              (Criteria_32_3.connector_id c)
                                              (Crit_29_3.str (Criteria_32_3.tp_net_name t))
                                              (Criteria_32_3.tp_testpoint_id t ++ " - "
                                               ++ Criteria_32_3.connector_id c)%string)
                                  connector_df) tp_df).
      assert (L : List.length all
                  = (List.length tp_df * List.length connector_df)%nat).
      { apply length_flat_map_const. intros t. apply length_map. }
      rewrite <- L. apply NoDup_incl_length; [exact N |].
      intros r Hr. apply I in Hr. destruct Hr as [n [t [c [Ht [Hc [Et [Ec ->]]]]]]].
      apply in_flat_map. exists t. split; [exact Ht |].
      apply in_map_iff. exists c. split; [now rewrite Et | exact Hc].
Qed.

(** The theorem applied to the sample tables. *)
Lemma join_result_size_witness :
  set_iter_contract iter_in_order /\
  (List.length (rows (Crit_29_3.judge_io_connector_in_tp_network
                        iter_in_order ascii_digit_prefix join_tp_29 join_pin_29))
   <= List.length join_tp_29 * List.length join_pin_29)%nat.
Proof.
  split; [exact iter_in_order_contract |].
  exact (proj2 (proj1 (join_result_size ascii_digit_prefix iter_in_order_contract)
                  join_tp_29 join_pin_29)).
Defined.

End JoinComparison.
